(** * Managed type data: the layout resolver of Objects/layoutobject.c

    A shallow embedding of the layout objects that place opaque per-type
    memory in front of a Python object, of the two cast functions that
    find it again, and of [_PyLayout_Create], which builds the table.

    Conventions of the embedding.
    - Pointers to type objects are numbers ([tid]); pointers to layout
      objects are positions in the object store ([loc]).  [None] is NULL.
    - C integers are [Z]; a conversion to a narrower type is written
      where the source assigns to one ([to_uint32], [to_int32],
      [to_char]); the one sum computed in [Py_ssize_t] wraps around
      ([to_ssize_t]).
    - Code that reads or writes memory runs in the monad [M]: a function
      from the machine state to a result and a new state, or to [Fault]
      (a load or store through NULL or through a dangling pointer, a read
      past the end of a table), or to [Timeout] (a [while] loop used up
      the iterations granted by the [fuel] argument).
    - A store past the end of a layout's entry table has no target the
      embedding knows of; it is appended to the [stray] log of the state
      and execution goes on, as it does in C.
    - A loop [while (PyDict_Next(d, &pos, ...))] is a recursion over the
      entries of [d] from the cursor [pos] on; none of these loops changes
      the dictionary it walks.
    - The error indicator of the thread is the field [exc] of the
      state: a C API call that fails leaves its exception there.
    - Reference counts are left out. *)

From Stdlib Require Import ZArith Lia.
From stdpp Require Import base decidable numbers option list.

Open Scope Z_scope.

(** ** Machine integers *)

Definition to_uint32 (z : Z) : Z := z mod 2 ^ 32.
Definition to_int32 (z : Z) : Z := (z + 2 ^ 31) mod 2 ^ 32 - 2 ^ 31.
(** [char] is the signed eight-bit type of the usual x86-64 ABI. *)
Definition to_char (z : Z) : Z := (z + 128) mod 256 - 128.

(** [Py_ssize_t] on an LP64 target: 64 bits, two's complement.  A sum
    that passes the largest value wraps around, as the compiled addition
    does (the C standard leaves it undefined). *)
Definition to_ssize_t (z : Z) : Z := (z + 2 ^ 63) mod 2 ^ 64 - 2 ^ 63.

(** [sizeof(void* )] on an LP64 target. *)
Definition sizeof_voidp : Z := 8.

(** ** Objects *)

Abbreviation tid := nat (only parsing).
Abbreviation loc := nat (only parsing).

(** The two functions that [ly_cast] can point to. *)
Inductive layoutfunc := cast_ordered | cast_hash.

#[global] Instance layoutfunc_eq_dec : EqDecision layoutfunc.
Proof. solve_decision. Defined.

(** [struct _layout_entry]. *)
Record PyLayoutEntry := mkEntry {
  le_type : option tid;
  le_offset : Z
}.

(** [struct _layout], followed in memory by its [ob_size] entries. *)
Record PyLayout := mkLayout {
  ob_size : Z;
  ly_allocsize : Z;
  ly_extensionsize : Z;
  ly_cast : layoutfunc;
  ly_id : Z;
  ly_order : Z;
  ly_shift : Z;
  ly_search : Z;
  ly_entries : list PyLayoutEntry
}.

(** The part of a type object the resolver reads: the three feature flags
    tested by [_layout_base] and the [tp_cache] slot that [Py_LAYOUT]
    casts to a layout pointer. *)
Record PyTypeObject := mkType {
  tp_managed_dict : bool;
  tp_have_gc : bool;
  tp_managed_weakref : bool;
  tp_cache : option loc
}.

(** An object is seen through its address and its type pointer. *)
Record PyObject := mkObject {
  ob_addr : Z;
  ob_type : tid
}.

(** What the allocator hands out: whether [PyDict_New] and
    [PyObject_NewVar] fail, and the contents of fresh memory
    ([PyObject_NewVar] does not clear it): the header fields of a new
    layout and each of its table slots. *)
Record allocator := mkAlloc {
  dict_new_fails : bool;
  newvar_fails : bool;
  junk_header : PyLayout;
  junk_entry : PyLayoutEntry
}.

(** Modelled from the spec: the exceptions of the C API are not among the
    sources.  These are the two that the calls made here can raise:
    [PyErr_NoMemory] for a failed allocation, and the error of an internal
    routine that is handed NULL. *)
Inductive PyExc := PyExc_MemoryError | PyExc_SystemError.

(** The machine state; [exc] is the error indicator ([None]: no
    exception is pending). *)
Record state := mkState {
  types : tid -> PyTypeObject;
  heap : list PyLayout;
  stray : list (loc * Z * PyLayoutEntry);
  alloc : allocator;
  exc : option PyExc
}.

(** ** The monad *)

Inductive res (A : Type) :=
| Ok (a : A)
| Fault
| Timeout.
Arguments Ok {A} a.
Arguments Fault {A}.
Arguments Timeout {A}.

Definition M (A : Type) : Type := state -> res (A * state).

Definition ret {A} (a : A) : M A := fun s => Ok (a, s).
Definition fault {A} : M A := fun _ => Fault.
Definition bind {A B} (m : M A) (k : A -> M B) : M B :=
  fun s => match m s with
           | Ok (a, s') => k a s'
           | Fault => Fault
           | Timeout => Timeout
           end.
Definition lift {A} (r : res A) : M A :=
  fun s => match r with
           | Ok a => Ok (a, s)
           | Fault => Fault
           | Timeout => Timeout
           end.

Notation "'let*' x ':=' c 'in' k" := (bind c (fun x => k))
  (at level 10, x pattern, c at level 100, k at level 200).
Notation "c ';;' k" := (bind c (fun _ => k))
  (at level 100, k at level 200, right associativity).

(** [Py_LAYOUT(type)]. *)
Definition Py_LAYOUT (type : tid) : M (option loc) :=
  fun s => Ok (tp_cache (types s type), s).

(** A load of the whole object behind a layout pointer. *)
Definition deref (p : option loc) : M PyLayout :=
  fun s => match p with
           | Some l => match heap s !! l with
                       | Some L => Ok (L, s)
                       | None => Fault
                       end
           | None => Fault
           end.

(** A store to one or more fields of the object behind a layout pointer. *)
Definition update (p : option loc) (f : PyLayout -> PyLayout) : M unit :=
  fun s => match p with
           | Some l => match heap s !! l with
                       | Some L =>
                           Ok (tt, mkState (types s) (<[l := f L]> (heap s))
                                     (stray s) (alloc s) (exc s))
                       | None => Fault
                       end
           | None => Fault
           end.

Definition set_allocsize (v : Z) (L : PyLayout) : PyLayout :=
  mkLayout (ob_size L) v (ly_extensionsize L) (ly_cast L) (ly_id L)
    (ly_order L) (ly_shift L) (ly_search L) (ly_entries L).
Definition set_extensionsize (v : Z) (L : PyLayout) : PyLayout :=
  mkLayout (ob_size L) (ly_allocsize L) v (ly_cast L) (ly_id L)
    (ly_order L) (ly_shift L) (ly_search L) (ly_entries L).
Definition set_cast (v : layoutfunc) (L : PyLayout) : PyLayout :=
  mkLayout (ob_size L) (ly_allocsize L) (ly_extensionsize L) v (ly_id L)
    (ly_order L) (ly_shift L) (ly_search L) (ly_entries L).
Definition set_id (v : Z) (L : PyLayout) : PyLayout :=
  mkLayout (ob_size L) (ly_allocsize L) (ly_extensionsize L) (ly_cast L) v
    (ly_order L) (ly_shift L) (ly_search L) (ly_entries L).
Definition set_order (v : Z) (L : PyLayout) : PyLayout :=
  mkLayout (ob_size L) (ly_allocsize L) (ly_extensionsize L) (ly_cast L)
    (ly_id L) v (ly_shift L) (ly_search L) (ly_entries L).
Definition set_shift (v : Z) (L : PyLayout) : PyLayout :=
  mkLayout (ob_size L) (ly_allocsize L) (ly_extensionsize L) (ly_cast L)
    (ly_id L) (ly_order L) v (ly_search L) (ly_entries L).
Definition set_search (v : Z) (L : PyLayout) : PyLayout :=
  mkLayout (ob_size L) (ly_allocsize L) (ly_extensionsize L) (ly_cast L)
    (ly_id L) (ly_order L) (ly_shift L) v (ly_entries L).
Definition set_size (v : Z) (L : PyLayout) : PyLayout :=
  mkLayout v (ly_allocsize L) (ly_extensionsize L) (ly_cast L)
    (ly_id L) (ly_order L) (ly_shift L) (ly_search L) (ly_entries L).
Definition set_entries (v : list PyLayoutEntry) (L : PyLayout) : PyLayout :=
  mkLayout (ob_size L) (ly_allocsize L) (ly_extensionsize L) (ly_cast L)
    (ly_id L) (ly_order L) (ly_shift L) (ly_search L) v.

(** ** Linear probing

    The slot a key starts from, [(id >> shift) % size], computed in
    [uint32_t] as in [_layout_cast_hash], [_layout_fast_hash] and
    [_layout_fill_hash]. *)
Definition home (id shift size : Z) : Z :=
  to_uint32 (to_uint32 (Z.shiftr id shift) mod size).

(** [position++; if (position == size) position = 0;] *)
Definition next_slot (size position : Z) : Z :=
  let position := to_uint32 (position + 1) in
  if position =? size then 0 else position.

(** ** Lookup *)

(** The [for] loop of [_layout_cast_hash]: at most [n] slots are examined,
    starting from [requested]; the result is the offset stored with the
    first slot whose type is [type]. *)
Fixpoint hash_scan (n : nat) (entries : list PyLayoutEntry) (nentries : Z)
    (requested : Z) (type : tid) : res (option Z) :=
  match n with
  | O => Ok None
  | S n' =>
      match entries !! Z.to_nat requested with
      | None => Fault
      | Some e =>
          if decide (le_type e = Some type) then Ok (Some (le_offset e))
          else hash_scan n' entries nentries (next_slot nentries requested) type
      end
  end.

Definition _layout_cast_ordered (layout : loc) (obj : PyObject) (type : tid)
    : M (option Z) :=
  let* L := deref (Some layout) in
  let nentries := ob_size L in
  let* p := Py_LAYOUT type in
  let* typelayout := deref p in
  let requested := ly_order typelayout in
  if requested >=? nentries then ret None
  else match ly_entries L !! Z.to_nat requested with
       | None => fault
       | Some e =>
           if decide (le_type e = Some type)
           then ret (Some (ob_addr obj + le_offset e))
           else ret None
       end.

Definition _layout_cast_hash (layout : loc) (obj : PyObject) (type : tid)
    : M (option Z) :=
  let* L := deref (Some layout) in
  let nentries := ob_size L in
  let* p := Py_LAYOUT type in
  let* typelayout := deref p in
  let requested := home (ly_id typelayout) (ly_shift L) nentries in
  let* found :=
    lift (hash_scan (Z.to_nat (ly_search L)) (ly_entries L) nentries
            requested type) in
  match found with
  | Some offset => ret (Some (ob_addr obj + offset))
  | None => ret None
  end.

(** The call through [objlayout->ly_cast]. *)
Definition call_cast (f : layoutfunc) : loc -> PyObject -> tid -> M (option Z) :=
  match f with
  | cast_ordered => _layout_cast_ordered
  | cast_hash => _layout_cast_hash
  end.

Definition PyObject_GetTypeData (obj : PyObject) (type : tid) : M (option Z) :=
  let* objlayout := Py_LAYOUT (ob_type obj) in
  let* typelayout := Py_LAYOUT type in
  match objlayout, typelayout with
  | Some ol, Some _ =>
      let* L := deref (Some ol) in
      call_cast (ly_cast L) ol obj type
  | _, _ => ret None
  end.

Definition PyType_GetTypeDataSize (cls : tid) : M Z :=
  let* typelayout := Py_LAYOUT cls in
  match typelayout with
  | None => ret 0
  | Some l => let* L := deref (Some l) in ret (ly_extensionsize L)
  end.

(** ** Construction *)

(** Modelled from the spec: the dictionary object ([PyDict_New],
    [PyDict_SetItem], [PyDict_Next], [PyObject_Size]) is not among the
    sources.  The spec has a mapping from each base type that has a Layout
    to that Layout, in which a type reached twice appears once, and which
    construction iterates.  It is kept as the list of its entries in the
    order of insertion, the order in which [PyDict_Next] yields them from
    the cursor [pos]; keys are type pointers, compared by identity. *)
Definition dict := list (tid * loc).

(** Modelled from the spec: [PyDict_SetItem] is not among the sources.
    A key already in the mapping keeps its place and takes the new value;
    a new key goes to the end. *)
Fixpoint PyDict_SetItem (d : dict) (key : tid) (value : loc) : dict :=
  match d with
  | [] => [(key, value)]
  | (k, v) :: d' =>
      if decide (k = key) then (key, value) :: d'
      else (k, v) :: PyDict_SetItem d' key value
  end.

(** Modelled from the spec: [PyErr_NoMemory] is not among the sources.
    It is what a failed allocation of the C API calls: MemoryError
    becomes the pending exception. *)
Definition PyErr_NoMemory : M unit :=
  fun s => Ok (tt, mkState (types s) (heap s) (stray s) (alloc s)
                     (Some PyExc_MemoryError)).

(** Modelled from the spec: [null_error] is not among the sources.  It
    is what an abstract-object routine calls when it is handed NULL:
    SystemError is raised unless an exception is pending already. *)
Definition null_error : M unit :=
  fun s => Ok (tt, mkState (types s) (heap s) (stray s) (alloc s)
                     (match exc s with
                      | Some e => Some e
                      | None => Some PyExc_SystemError
                      end)).

(** Modelled from the spec: [PyObject_Size] is not among the sources.
    It is the number of entries of the mapping; called with NULL it
    reports the error by returning -1, after [null_error]. *)
Definition PyObject_Size (layouts : option dict) : M Z :=
  match layouts with
  | Some d => ret (Z.of_nat (length d))
  | None => null_error;; ret (-1)
  end.

(** Modelled from the spec: [PyDict_New] is not among the sources.  It
    gives an empty mapping, or NULL when the allocation fails; the failed
    call leaves MemoryError pending. *)
Definition PyDict_New : M (option dict) :=
  fun s =>
    if dict_new_fails (alloc s) then (PyErr_NoMemory;; ret None) s
    else Ok (Some [], s).

(** The body of the [for] loop of [_layout_collect]. *)
Fixpoint collect_loop (tuple : list tid) (d : dict) : M dict :=
  match tuple with
  | [] => ret d
  | type :: rest =>
      let* p := Py_LAYOUT type in
      match p with
      | Some l => collect_loop rest (PyDict_SetItem d type l)
      | None => collect_loop rest d
      end
  end.

Definition _layout_collect (tuple : list tid) : M (option dict) :=
  let* dict := PyDict_New in
  match dict with
  | None => ret None
  | Some d => let* d := collect_loop tuple d in ret (Some d)
  end.

(** The [while (PyDict_Next ...)] loop of [_layout_check_ordered], over
    the entries not yet visited. *)
Fixpoint check_ordered_loop (rest : dict) (items : Z) (buf : list Z) : M bool :=
  match rest with
  | [] => ret true
  | (key, value) :: rest' =>
      let* layout := deref (Some value) in
      let order := ly_order layout in
      if order >=? items then ret false
      else match buf !! Z.to_nat order with
           | None => fault
           | Some c =>
               if c >? 0 then ret false
               else check_ordered_loop rest' items
                      (<[Z.to_nat order := to_char (c + 1)]> buf)
           end
  end.

(** With NULL for [layouts], [items] is -1 and the [memset] of that many
    bytes cannot complete. *)
Definition _layout_check_ordered (layouts : option dict) : M bool :=
  let* items := PyObject_Size layouts in
  match layouts with
  | None => fault
  | Some d => check_ordered_loop d items (replicate (Z.to_nat items) 0)
  end.

(** The probing [while] loops of [_layout_fast_hash] and
    [_layout_fill_hash]: step to the next slot, counting, until a free
    one is found. *)
Fixpoint probe {X} (occupied : X -> bool) (fuel : nat) (table : list X)
    (size position cost : Z) : res (Z * Z) :=
  match fuel with
  | O => Timeout
  | S fuel' =>
      match table !! Z.to_nat position with
      | None => Fault
      | Some x =>
          if occupied x
          then probe occupied fuel' table size (next_slot size position) (cost + 1)
          else Ok (position, cost)
      end
  end.

Definition buf_occupied (c : Z) : bool := c >? 0.
Definition entry_occupied (e : PyLayoutEntry) : bool :=
  match le_type e with Some _ => true | None => false end.

(** The inner [while (PyDict_Next ...)] loop of [_layout_fast_hash]. *)
Fixpoint fast_hash_place (fuel : nat) (rest : dict) (hash_size shift : Z)
    (buf : list Z) (cost : Z) : M (list Z * Z) :=
  match rest with
  | [] => ret (buf, cost)
  | (key, value) :: rest' =>
      let* layout := deref (Some value) in
      let position := home (ly_id layout) shift hash_size in
      let* pc := lift (probe buf_occupied fuel buf hash_size position 1) in
      let '(position, cost0) := pc in
      fast_hash_place fuel rest' hash_size shift
        (<[Z.to_nat position := to_char cost0]> buf) (cost + cost0)
  end.

(** One pass of the [for] loop of [_layout_fast_hash] for one [shift]:
    the scratch table is cleared, the new key is placed, then the keys
    that [PyDict_Next] still yields from the cursor [pos].  The pass gives
    the cost and the cursor as the loop leaves it. *)
Definition fast_hash_pass (fuel : nat) (layouts : dict) (pos : nat)
    (hash_size id shift : Z) : M (Z * nat) :=
  let buf := replicate (Z.to_nat hash_size) 0 in
  let position := home id shift hash_size in
  let buf := <[Z.to_nat position := 1]> buf in
  let* bc := fast_hash_place fuel (drop pos layouts) hash_size shift buf 0 in
  ret (snd bc, Nat.max pos (length layouts)).

(** The [for] loop over the shifts.  [pos] is declared outside that loop
    in the source and is not set back to 0 between two passes. *)
Fixpoint fast_hash_loop (fuel : nat) (shifts : list Z) (layouts : dict)
    (pos : nat) (hash_size id items best best_cost : Z) : M Z :=
  match shifts with
  | [] => ret best
  | shift :: shifts' =>
      let* cp := fast_hash_pass fuel layouts pos hash_size id shift in
      let '(cost, pos) := cp in
      if cost =? items then ret shift
      else if cost <? best_cost
           then fast_hash_loop fuel shifts' layouts pos hash_size id items shift cost
           else fast_hash_loop fuel shifts' layouts pos hash_size id items best best_cost
  end.

Definition _layout_fast_hash (fuel : nat) (layouts : dict) (hash_size id : Z)
    : M Z :=
  let* items := PyObject_Size (Some layouts) in
  fast_hash_loop fuel (seqZ 0 16) layouts 0 hash_size id items 0 hash_size.

Definition _layout_base (type : tid) : M Z :=
  fun s =>
    let t := types s type in
    let base := 0 in
    let base := if tp_managed_dict t then base + sizeof_voidp else base in
    let base := if tp_have_gc t then base + sizeof_voidp * 2 else base in
    let base := if tp_managed_weakref t then base + sizeof_voidp else base in
    Ok (to_int32 base, s).

(** [entries[position] = e] on the table of [layout].  The table has as
    many slots as were allocated; a store past them is logged in
    [stray]. *)
Definition store_entry (layout : loc) (position : Z) (e : PyLayoutEntry)
    : M unit :=
  fun s =>
    match heap s !! layout with
    | None => Fault
    | Some L =>
        if decide (Z.to_nat position < length (ly_entries L))%nat
        then Ok (tt, mkState (types s)
                       (<[layout :=
                            set_entries (<[Z.to_nat position := e]> (ly_entries L)) L]>
                          (heap s))
                       (stray s) (alloc s) (exc s))
        else Ok (tt, mkState (types s) (heap s)
                       (stray s ++ [(layout, position, e)]) (alloc s) (exc s))
    end.

Fixpoint fill_ordered_loop (layout : loc) (rest : dict) (base offset : Z)
    : M Z :=
  match rest with
  | [] => ret offset
  | (key, value) :: rest' =>
      let* sub_layout := deref (Some value) in
      let position := ly_order sub_layout in
      let offset := to_int32 (offset + ly_extensionsize sub_layout) in
      store_entry layout position
        (mkEntry (Some key) (to_int32 (- base - offset)));;
      fill_ordered_loop layout rest' base offset
  end.

Definition _layout_fill_ordered (layout : loc) (type : tid) (layouts : dict)
    : M unit :=
  let* base := _layout_base type in
  let* offset := fill_ordered_loop layout layouts base 0 in
  update (Some layout) (set_allocsize offset).

Fixpoint fill_hash_loop (fuel : nat) (layout : loc) (rest : dict)
    (hash_size shift base offset : Z) : M Z :=
  match rest with
  | [] => ret offset
  | (key, value) :: rest' =>
      let* sub_layout := deref (Some value) in
      let position := home (ly_id sub_layout) shift hash_size in
      let* L := deref (Some layout) in
      let* pc :=
        lift (probe entry_occupied fuel (ly_entries L) hash_size position 1) in
      let '(position, cost) := pc in
      (if ly_search L <? cost
       then update (Some layout) (set_search cost)
       else ret tt);;
      let* sub_layout := deref (Some value) in
      let offset := to_int32 (offset + ly_extensionsize sub_layout) in
      store_entry layout position
        (mkEntry (Some key) (to_int32 (- base - offset)));;
      fill_hash_loop fuel layout rest' hash_size shift base offset
  end.

Definition _layout_fill_hash (fuel : nat) (layout : loc) (type : tid)
    (layouts : dict) : M unit :=
  let* L := deref (Some layout) in
  let hash_size := ob_size L in
  let shift := ly_shift L in
  let* base := _layout_base type in
  let* offset := fill_hash_loop fuel layout layouts hash_size shift base 0 in
  update (Some layout) (set_allocsize offset).

(** The [for] loop of [_layout_clear]: the type of each of the first
    [size] slots becomes NULL; the offsets stay as they were. *)
Definition clear_entries (size : Z) (entries : list PyLayoutEntry)
    : list PyLayoutEntry :=
  ((fun e => mkEntry None (le_offset e)) <$> take (Z.to_nat size) entries)
  ++ drop (Z.to_nat size) entries.

Definition _layout_clear (layout : option loc) : M unit :=
  let* L := deref layout in
  let size := ob_size L in
  update layout (fun L => set_entries (clear_entries size (ly_entries L)) L).

(** Modelled from the spec: [PyObject_NewVar] is not among the sources.
    The spec has the Layout allocated with exactly [table_size] entries.
    This is the object as it leaves it: [ob_size] set, room for that many
    entries, everything else as the allocator found it. *)
Definition fresh_layout (al : allocator) (nitems : Z) : PyLayout :=
  set_size nitems
    (set_entries (replicate (Z.to_nat nitems) (junk_entry al)) (junk_header al)).

(** Modelled from the spec: [PyObject_NewVar(PyLayout, &_PyLayout_Type,
    nitems)] gives a new object at a fresh address, or NULL when the
    allocation fails; the failed call leaves MemoryError pending. *)
Definition PyObject_NewVar (nitems : Z) : M (option loc) :=
  fun s =>
    if newvar_fails (alloc s) then (PyErr_NoMemory;; ret None) s
    else
      Ok (Some (length (heap s)),
          mkState (types s) (heap s ++ [fresh_layout (alloc s) nitems])
            (stray s) (alloc s) (exc s)).

(** Modelled from the spec: [PyObject_InitVar] is not among the sources;
    of the fields kept here it sets [ob_size]. *)
Definition PyObject_InitVar (op : option loc) (size : Z) : M unit :=
  update op (set_size size).

(** [_PyLayout_Create(type, bases, size)].  The value of [rand()] is the
    argument [id]. *)
Definition _PyLayout_Create (fuel : nat) (type : tid) (bases : list tid)
    (size : Z) (id : Z) : M (option loc) :=
  let* layouts := _layout_collect bases in
  let* items := PyObject_Size layouts in
  let order := if to_ssize_t (items + size) >? 0 then 1 else 0 in
  if order =? 0 then ret None
  else
    let entries := order in
    let id := to_uint32 id in
    let* ordered := _layout_check_ordered layouts in
    match layouts with
    | None => fault
    | Some layouts =>
        let* re :=
          (if ordered : bool then
             let* result := PyObject_NewVar entries in
             update result (set_cast cast_ordered);;
             update result (set_shift 0);;
             ret (result, entries)
           else
             let entries := to_uint32 (entries * 2) in
             let* result := PyObject_NewVar entries in
             update result (set_cast cast_hash);;
             let* shift := _layout_fast_hash fuel layouts entries id in
             update result (set_shift (to_uint32 shift));;
             ret (result, entries)) in
        let '(result, entries) := re in
        update result (set_id id);;
        update result (set_order order);;
        update result (set_extensionsize size);;
        update result (set_allocsize 0);;
        update result (set_search 1);;
        _layout_clear result;;
        PyObject_InitVar result entries;;
        let* L := deref result in
        match result with
        | None => fault
        | Some r =>
            let layouts :=
              if size >? 0 then PyDict_SetItem layouts type r else layouts in
            (if decide (ly_cast L = cast_ordered)
             then _layout_fill_ordered r type layouts
             else _layout_fill_hash fuel r type layouts);;
            ret (Some r)
        end
    end.

(** Modelled from the spec: the caller of [_PyLayout_Create] (the type
    creation code) is not among the sources.  The spec has every Layout
    owned by the type that declares it, and the source finds it in the
    [tp_cache] slot ([Py_LAYOUT]); so defining a type stores what
    [_PyLayout_Create] returns in that slot. *)
Definition set_tp_cache (type : tid) (p : option loc) : M unit :=
  fun s =>
    Ok (tt, mkState
              (fun t => if decide (t = type)
                        then mkType (tp_managed_dict (types s t))
                               (tp_have_gc (types s t))
                               (tp_managed_weakref (types s t)) p
                        else types s t)
              (heap s) (stray s) (alloc s) (exc s)).

Definition define_type (fuel : nat) (type : tid) (bases : list tid)
    (size : Z) (id : Z) : M (option loc) :=
  let* result := _PyLayout_Create fuel type bases size id in
  set_tp_cache type result;;
  ret result.

(** ** Concrete scenarios *)

Definition plain_type : PyTypeObject := mkType false false false None.
Definition blank_layout : PyLayout := mkLayout 0 0 0 cast_ordered 0 0 0 0 [].
Definition blank_entry : PyLayoutEntry := mkEntry None 0.

(** A machine with no layouts yet, types without reserved prefix, and an
    allocator that does not fail. *)
Definition boot : state :=
  mkState (fun _ => plain_type) [] [] (mkAlloc false false blank_layout blank_entry)
    None.

(** The value of a run, when it ends normally. *)
Definition value {A} (r : res (A * state)) : option A :=
  match r with Ok (a, _) => Some a | _ => None end.

(** Type [A] asks for 8 bytes and has no bases; [B(A)] and [C(A)] ask
    for 16; [D(B, C)] asks for 8.  The last argument of [define_type] is
    the number drawn for [ly_id]. *)
Definition tA : tid := 1%nat.
Definition tB : tid := 2%nat.
Definition tC : tid := 3%nat.
Definition tD : tid := 4%nat.

Definition after {A} (m : M A) (s : state) : state :=
  match m s with Ok (_, s') => s' | _ => s end.

Definition world_A : state := after (define_type 4 tA [] 8 4) boot.
Definition world_AB : state := after (define_type 4 tB [tA] 16 0) world_A.
Definition world_ABC : state := after (define_type 4 tC [tA] 16 5) world_AB.

(** A store as no construction leaves it, to show the limit of the scan:
    the hashed table of [B] names [A] in slot 1, the home slot of [A] is
    slot 0, and [ly_search] is 1. *)
Definition world_far : state :=
  mkState
    (fun t => if decide (t = tA) then mkType false false false (Some 0%nat)
              else if decide (t = tB) then mkType false false false (Some 1%nat)
              else plain_type)
    [mkLayout 1 8 8 cast_ordered 0 1 0 1 [mkEntry None 0];
     mkLayout 2 24 16 cast_hash 1 1 0 1 [mkEntry None 0; mkEntry (Some tA) (-8)]]
    [] (mkAlloc false false blank_layout blank_entry) None.

(** An allocator whose [PyDict_New] fails. *)
Definition no_dict (s : state) : state :=
  mkState (types s) (heap s) (stray s)
    (mkAlloc true (newvar_fails (alloc s)) (junk_header (alloc s))
       (junk_entry (alloc s)))
    (exc s).

(** An allocator whose [PyObject_NewVar] fails. *)
Definition no_object (s : state) : state :=
  mkState (types s) (heap s) (stray s)
    (mkAlloc (dict_new_fails (alloc s)) true (junk_header (alloc s))
       (junk_entry (alloc s)))
    (exc s).

(** ** The search as the specification words it

    Every shift from 0 to 15 is tried on a scratch table into which the
    new key and then every inherited key is placed; the first shift whose
    cost is the number of inherited keys wins at once, otherwise the shift
    of least cost.  The pass is [fast_hash_pass], each time from the start
    of the dictionary. *)
Fixpoint spec_search_loop (fuel : nat) (shifts : list Z) (layouts : dict)
    (hash_size id items : Z) (best : option (Z * Z)) : M Z :=
  match shifts with
  | [] => ret (match best with Some (b, _) => b | None => 0 end)
  | shift :: shifts' =>
      let* cp := fast_hash_pass fuel layouts 0 hash_size id shift in
      let cost := fst cp in
      if cost =? items then ret shift
      else
        match best with
        | Some (b, bc) =>
            if cost <? bc
            then spec_search_loop fuel shifts' layouts hash_size id items
                   (Some (shift, cost))
            else spec_search_loop fuel shifts' layouts hash_size id items best
        | None =>
            spec_search_loop fuel shifts' layouts hash_size id items
              (Some (shift, cost))
        end
  end.

Definition spec_search (fuel : nat) (layouts : dict) (hash_size id : Z) : M Z :=
  spec_search_loop fuel (seqZ 0 16) layouts hash_size id
    (Z.of_nat (length layouts)) None.

(** The number of slots the specification asks for: one for each
    inherited layout, and one more if the type asks for memory of its
    own. *)
Definition spec_slots (layouts : dict) (size : Z) : Z :=
  Z.of_nat (length layouts) + (if size >? 0 then 1 else 0).

(** ** Predicates used in the statements *)

(** The slots that the [for] loop of [_layout_cast_hash] examines when it
    finds the type in none of them: [n] slots, from [requested] on. *)
Fixpoint probe_seq (n : nat) (nentries requested : Z) : list Z :=
  match n with
  | O => []
  | S n' => requested :: probe_seq n' nentries (next_slot nentries requested)
  end.

(** The slots within reach of a lookup: those that the cast function of
    the layout [L] examines for a requested type whose layout is [TL].
    [_layout_cast_ordered] examines the slot [ly_order] of the requested
    type, or none if that index is not below the size of the table;
    [_layout_cast_hash] examines [ly_search] slots from the home slot of
    the requested type on. *)
Definition reach (L TL : PyLayout) : list Z :=
  match ly_cast L with
  | cast_ordered => if ly_order TL >=? ob_size L then [] else [ly_order TL]
  | cast_hash =>
      probe_seq (Z.to_nat (ly_search L)) (ob_size L)
        (home (ly_id TL) (ly_shift L) (ob_size L))
  end.

(** A state that differs from [s] in the error indicator at most. *)
Definition same_memory (s s' : state) : Prop :=
  types s' = types s /\ heap s' = heap s /\ stray s' = stray s /\
  alloc s' = alloc s.

(** A computation that never changes the state. *)
Definition readonly {A} (m : M A) : Prop :=
  forall s a s', m s = Ok (a, s') -> s' = s.

(** What filling a table leaves as it was in a layout: every field but
    [ly_allocsize] and [ly_search], and the number of slots. *)
Definition fill_keeps (L L' : PyLayout) : Prop :=
  ob_size L' = ob_size L /\ ly_extensionsize L' = ly_extensionsize L /\
  ly_cast L' = ly_cast L /\ ly_id L' = ly_id L /\ ly_order L' = ly_order L /\
  ly_shift L' = ly_shift L /\ length (ly_entries L') = length (ly_entries L).

(** [fills r s s']: from [s] to [s'] only the layout at [r] was written,
    and only as [fill_keeps] allows. *)
Definition fills (r : loc) (s s' : state) : Prop :=
  types s' = types s /\ alloc s' = alloc s /\
  length (heap s') = length (heap s) /\
  (forall l, l <> r -> heap s' !! l = heap s !! l) /\
  (forall L, heap s !! r = Some L ->
     exists L', heap s' !! r = Some L' /\ fill_keeps L L').

(** The state that [_PyLayout_Create] has reached when it starts to fill
    the table: the store has one more object, with every header field
    assigned and every slot cleared. *)
Definition initial_layout (al : allocator) (entries size id shift : Z)
    (cast : layoutfunc) : PyLayout :=
  mkLayout entries 0 size cast id 1 shift 1
    (clear_entries entries (replicate (Z.to_nat entries) (junk_entry al))).

Definition with_new (s : state) (L : PyLayout) : state :=
  mkState (types s) (heap s ++ [L]) (stray s) (alloc s) (exc s).

(** The store holds layouts as [_PyLayout_Create] makes them: [ly_order]
    is 1, an ordered table has one slot and a hashed one two; and every
    [tp_cache] slot points into the store. *)
Definition created (s : state) : Prop :=
  (forall l L, heap s !! l = Some L -> ly_order L = 1) /\
  (forall t l, tp_cache (types s t) = Some l -> is_Some (heap s !! l)) /\
  (forall l L, heap s !! l = Some L ->
     (ly_cast L = cast_ordered /\ ob_size L = 1) \/
     (ly_cast L = cast_hash /\ ob_size L = 2)).

(** The types named in a table are among [keys]. *)
Definition table_keys_in (entries : list PyLayoutEntry) (keys : list tid) : Prop :=
  forall i e T, entries !! i = Some e -> le_type e = Some T -> T ∈ keys.

(** No type is named by two slots. *)
Definition table_unique (entries : list PyLayoutEntry) : Prop :=
  forall i j ei ej T,
    entries !! i = Some ei -> entries !! j = Some ej ->
    le_type ei = Some T -> le_type ej = Some T -> i = j.

(** The invariant of the loop of [_layout_fill_hash]: the table of the
    layout at [r] names only keys of [placed], each once, and each key of
    [placed] is found by the scan of [_layout_cast_hash] within
    [ly_search] slots of its home slot. *)
Definition hash_inv (r : loc) (hash_size shift : Z) (placed : dict) (s : state)
    : Prop :=
  exists L, heap s !! r = Some L /\
    table_keys_in (ly_entries L) placed.*1 /\
    table_unique (ly_entries L) /\
    forall T l, (T, l) ∈ placed ->
      exists TL offset, heap s !! l = Some TL /\
        hash_scan (Z.to_nat (ly_search L)) (ly_entries L) hash_size
          (home (ly_id TL) shift hash_size) T = Ok (Some offset).

(** ** Further predicates and functions used in the statements *)

(** Every table in the store has as many slots as its [ob_size] says. *)
Definition well_sized (s : state) : Prop :=
  forall l L, heap s !! l = Some L ->
    length (ly_entries L) = Z.to_nat (ob_size L).

(** The entry that [_layout_collect] makes for a base: the base with its
    layout, if it has one. *)
Definition base_entry (s : state) (T : tid) : option (tid * loc) :=
  match tp_cache (types s T) with
  | Some l => Some (T, l)
  | None => None
  end.

(** [orders] lists the [ly_order] fields of the layouts of a dictionary,
    in its order. *)
Definition orders_of (s : state) (d : dict) (orders : list Z) : Prop :=
  Forall2 (fun kv o => exists L, heap s !! kv.2 = Some L /\ ly_order L = o /\ 0 <= o)
    d orders.

(** The extension size that a fill reads through a dictionary value. *)
Definition ext_of (s : state) (l : loc) : Z :=
  match heap s !! l with
  | Some L => ly_extensionsize L
  | None => 0
  end.

(** The keys of a dictionary with the extension sizes of their layouts. *)
Definition dict_sizes (s : state) (d : dict) : list (tid * Z) :=
  (fun kv => (kv.1, ext_of s kv.2)) <$> d.

(** The offsets that the fill loops give to keys of the given sizes, in
    [int32_t] as in the source: [offset += size], then [-base - offset]. *)
Fixpoint packed (base offset : Z) (sizes : list (tid * Z)) : list (tid * Z) :=
  match sizes with
  | [] => []
  | (k, e) :: rest =>
      let offset := to_int32 (offset + e) in
      (k, to_int32 (- base - offset)) :: packed base offset rest
  end.

(** The value of [offset] when the loop ends. *)
Fixpoint packed_total (offset : Z) (sizes : list (tid * Z)) : Z :=
  match sizes with
  | [] => offset
  | (_, e) :: rest => packed_total (to_int32 (offset + e)) rest
  end.

Definition sum_sizes (sizes : list (tid * Z)) : Z :=
  foldr (fun ke acc => ke.2 + acc) 0 sizes.

(** The sizes that [_PyLayout_Create] packs for a type: those of the
    collected layouts, then its own if it asks for memory. *)
Definition create_sizes (s : state) (d : dict) (type : tid) (size : Z)
    : list (tid * Z) :=
  dict_sizes s d ++ (if size >? 0 then [(type, size)] else []).

(** The number of slots of a table that name no type. *)
Definition free_slots (entries : list PyLayoutEntry) : nat :=
  length (filter (fun e => entry_occupied e = false) entries).

(** * Properties *)

(** ** The monad *)

Lemma bind_Ok_inv {A B} (m : M A) (k : A -> M B) s b s' :
  bind m k s = Ok (b, s') ->
  exists a s1, m s = Ok (a, s1) /\ k a s1 = Ok (b, s').
Proof.
  unfold bind. destruct (m s) as [[a s1]| |]; try discriminate.
  intros H. exists a, s1. split; [reflexivity | exact H].
Qed.

Lemma bind_Ok {A B} (m : M A) (k : A -> M B) s a s1 :
  m s = Ok (a, s1) -> bind m k s = k a s1.
Proof. unfold bind. intros ->. reflexivity. Qed.

Lemma bind_Timeout {A B} (m : M A) (k : A -> M B) s :
  m s = Timeout -> bind m k s = Timeout.
Proof. unfold bind. intros ->. reflexivity. Qed.


Lemma ret_Ok_inv {A} (a b : A) s s' : ret a s = Ok (b, s') -> b = a /\ s' = s.
Proof. unfold ret. intros H. injection H as <- <-. split; reflexivity. Qed.

Lemma lift_Ok_inv {A} (r : res A) s a s' :
  lift r s = Ok (a, s') -> r = Ok a /\ s' = s.
Proof.
  unfold lift. destruct r; try discriminate.
  intros H. injection H as <- <-. split; reflexivity.
Qed.

Lemma Py_LAYOUT_inv type s p s' :
  Py_LAYOUT type s = Ok (p, s') -> p = tp_cache (types s type) /\ s' = s.
Proof. unfold Py_LAYOUT. intros H. injection H as <- <-. split; reflexivity. Qed.

Lemma deref_inv p s L s' :
  deref p s = Ok (L, s') -> exists l, p = Some l /\ heap s !! l = Some L /\ s' = s.
Proof.
  unfold deref. destruct p as [l|]; try discriminate.
  destruct (heap s !! l) as [L0|] eqn:E; try discriminate.
  intros H. injection H as <- <-. exists l. repeat split; assumption.
Qed.

(** Inversion of a run that ended normally, one [bind] at a time. *)
Ltac subst_lhs E :=
  try (match type of E with ?x = _ => is_var x; subst x end).

Ltac inv_run H :=
  lazymatch type of H with
  | bind _ _ _ = Ok _ =>
      let a := fresh "a" in
      let s := fresh "s" in
      let H1 := fresh "Hrun" in
      apply bind_Ok_inv in H as (a & s & H1 & H); inv_run H1; inv_run H
  | ret _ _ = Ok _ =>
      let E := fresh "E" in
      apply ret_Ok_inv in H as [E ->]; try discriminate E; subst_lhs E
  | lift _ _ = Ok _ =>
      let E := fresh "E" in
      apply lift_Ok_inv in H as [E ->]
  | Py_LAYOUT _ _ = Ok _ =>
      let E := fresh "E" in
      apply Py_LAYOUT_inv in H as [E ->]; subst_lhs E
  | deref _ _ = Ok _ =>
      let l := fresh "l" in
      let E := fresh "E" in
      let E' := fresh "E" in
      apply deref_inv in H as (l & E & E' & ->);
      first [ injection E as <- | subst_lhs E ]
  | fault _ = Ok _ => discriminate H
  | _ => idtac
  end.

(** ** Lookups leave the state alone *)

Lemma readonly_ret {A} (a : A) : readonly (ret a).
Proof. intros s b s' H. apply ret_Ok_inv in H as [_ ->]. reflexivity. Qed.

Lemma readonly_lift {A} (r : res A) : readonly (lift r).
Proof. intros s b s' H. apply lift_Ok_inv in H as [_ ->]. reflexivity. Qed.

Lemma readonly_Py_LAYOUT type : readonly (Py_LAYOUT type).
Proof. intros s b s' H. apply Py_LAYOUT_inv in H as [_ ->]. reflexivity. Qed.

Lemma readonly_deref p : readonly (deref p).
Proof. intros s b s' H. apply deref_inv in H as (l & _ & _ & ->). reflexivity. Qed.

Lemma readonly_bind {A B} (m : M A) (k : A -> M B) :
  readonly m -> (forall a, readonly (k a)) -> readonly (bind m k).
Proof.
  intros Hm Hk s b s' H.
  apply bind_Ok_inv in H as (a & s1 & H1 & H2).
  apply Hm in H1 as ->. exact (Hk a _ _ _ H2).
Qed.

Ltac readonly_steps :=
  repeat first
    [ apply readonly_bind; [ | intros ? ]
    | apply readonly_ret | apply readonly_lift
    | apply readonly_Py_LAYOUT | apply readonly_deref
    | match goal with
      | |- readonly (match ?x with _ => _ end) => destruct x
      | |- readonly (if ?x then _ else _) => destruct x
      | |- readonly fault => intros ? ? ? ?; discriminate
      end ].

Lemma readonly_cast_ordered layout obj type :
  readonly (_layout_cast_ordered layout obj type).
Proof. unfold _layout_cast_ordered. readonly_steps. Qed.

Lemma readonly_cast_hash layout obj type :
  readonly (_layout_cast_hash layout obj type).
Proof. unfold _layout_cast_hash. readonly_steps. Qed.

Lemma readonly_GetTypeData obj type : readonly (PyObject_GetTypeData obj type).
Proof.
  unfold PyObject_GetTypeData.
  apply readonly_bind; [apply readonly_Py_LAYOUT | intros [ol|]].
  - apply readonly_bind; [apply readonly_Py_LAYOUT | intros [tl|]].
    + apply readonly_bind; [apply readonly_deref | intros L].
      destruct (ly_cast L); [apply readonly_cast_ordered | apply readonly_cast_hash].
    + apply readonly_ret.
  - apply readonly_bind; [apply readonly_Py_LAYOUT | intros ?; apply readonly_ret].
Qed.

(** C8. A lookup that returns leaves the whole state as it found it, so
    the same call made again returns the same answer (an address or
    "not found"), and so does every later one. *)
Theorem C8_get_extension_repeatable obj type s r s' :
  PyObject_GetTypeData obj type s = Ok (r, s') ->
  s' = s /\ PyObject_GetTypeData obj type s' = Ok (r, s').
Proof.
  intros H. pose proof (readonly_GetTypeData obj type _ _ _ H) as ->.
  split; [reflexivity | exact H].
Qed.

(** ** A lookup answers only from a slot that names the requested type *)

Lemma hash_scan_hit n entries nentries requested type offset :
  hash_scan n entries nentries requested type = Ok (Some offset) ->
  exists i e, entries !! i = Some e /\ le_type e = Some type /\ le_offset e = offset.
Proof.
  revert requested. induction n as [|n IH]; intros requested; simpl.
  - discriminate.
  - destruct (entries !! Z.to_nat requested) as [e|] eqn:E; try discriminate.
    destruct (decide (le_type e = Some type)) as [Ht|Ht].
    + intros H. injection H as <-. exists (Z.to_nat requested), e. auto.
    + apply IH.
Qed.

Lemma cast_ordered_hit layout obj type s a s' :
  _layout_cast_ordered layout obj type s = Ok (Some a, s') ->
  exists L i e, heap s !! layout = Some L /\ ly_entries L !! i = Some e /\
    le_type e = Some type /\ a = ob_addr obj + le_offset e.
Proof.
  unfold _layout_cast_ordered. intros H. inv_run H.
  match type of H with
  | (if ?c then _ else _) _ = _ => destruct c; [inv_run H|]
  end.
  match type of H with
  | match ?x with _ => _ end _ = _ => destruct x as [e|] eqn:Ee; [|discriminate]
  end.
  destruct (decide (le_type e = Some type)); inv_run H.
  match goal with E : Some _ = Some _ |- _ => injection E as -> end.
  eauto 10.
Qed.

Lemma cast_hash_hit layout obj type s a s' :
  _layout_cast_hash layout obj type s = Ok (Some a, s') ->
  exists L i e, heap s !! layout = Some L /\ ly_entries L !! i = Some e /\
    le_type e = Some type /\ a = ob_addr obj + le_offset e.
Proof.
  unfold _layout_cast_hash. intros H. inv_run H.
  match type of H with
  | match ?x with _ => _ end _ = _ => destruct x as [offset|]; inv_run H
  end.
  match goal with E : Some _ = Some _ |- _ => injection E as -> end.
  match goal with
  | E : hash_scan _ _ _ _ _ = _ |- _ =>
      apply hash_scan_hit in E as (i & e & Hi & Ht & <-)
  end.
  eauto 10.
Qed.

Lemma hash_scan_reach n entries nentries requested type offset :
  hash_scan n entries nentries requested type = Ok (Some offset) ->
  exists p e, p ∈ probe_seq n nentries requested /\
    entries !! Z.to_nat p = Some e /\ le_type e = Some type /\ le_offset e = offset.
Proof.
  revert requested. induction n as [|n IH]; intros requested; simpl.
  - discriminate.
  - destruct (entries !! Z.to_nat requested) as [e|] eqn:E; try discriminate.
    destruct (decide (le_type e = Some type)) as [Ht|Ht].
    + intros H. injection H as <-. exists requested, e.
      split; [apply list_elem_of_here | auto].
    + intros H. apply IH in H as (p & e' & Hp & H). exists p, e'.
      split; [apply list_elem_of_further; exact Hp | exact H].
Qed.

Lemma hash_scan_miss n entries nentries requested type :
  (forall p, p ∈ probe_seq n nentries requested ->
     exists e, entries !! Z.to_nat p = Some e /\ le_type e <> Some type) ->
  hash_scan n entries nentries requested type = Ok None.
Proof.
  revert requested. induction n as [|n IH]; intros requested H; simpl.
  - reflexivity.
  - destruct (H requested (list_elem_of_here _ _)) as (e & -> & Hne).
    destruct (decide (le_type e = Some type)); [contradiction|].
    apply IH. intros p Hp. apply H. apply list_elem_of_further. exact Hp.
Qed.

(** An address comes from a slot within reach that names the requested
    type. *)
Lemma get_type_data_reach obj type s a s' :
  PyObject_GetTypeData obj type s = Ok (Some a, s') ->
  exists ol tl L TL p e,
    tp_cache (types s (ob_type obj)) = Some ol /\
    tp_cache (types s type) = Some tl /\
    heap s !! ol = Some L /\ heap s !! tl = Some TL /\
    p ∈ reach L TL /\ ly_entries L !! Z.to_nat p = Some e /\
    le_type e = Some type /\ a = ob_addr obj + le_offset e.
Proof.
  intros H. unfold PyObject_GetTypeData in H.
  apply bind_Ok_inv in H as (p1 & s1 & H1 & H). apply Py_LAYOUT_inv in H1 as [-> ->].
  apply bind_Ok_inv in H as (p2 & s1 & H1 & H). apply Py_LAYOUT_inv in H1 as [-> ->].
  destruct (tp_cache (types s (ob_type obj))) as [ol|] eqn:Eo;
    [|apply ret_Ok_inv in H as [? _]; discriminate].
  destruct (tp_cache (types s type)) as [tl|] eqn:Et;
    [|apply ret_Ok_inv in H as [? _]; discriminate].
  apply bind_Ok_inv in H as (L & s1 & H1 & H).
  apply deref_inv in H1 as (l & El & HL & ->). injection El as <-.
  exists ol, tl, L. unfold reach.
  destruct (ly_cast L); simpl call_cast in H.
  - unfold _layout_cast_ordered in H.
    apply bind_Ok_inv in H as (L' & s1 & H1 & H).
    apply deref_inv in H1 as (l & El & HL' & ->). injection El as <-.
    rewrite HL in HL'. injection HL' as <-.
    apply bind_Ok_inv in H as (p & s1 & H1 & H). apply Py_LAYOUT_inv in H1 as [-> ->].
    rewrite Et in H.
    apply bind_Ok_inv in H as (TL & s1 & H1 & H).
    apply deref_inv in H1 as (l & El & HTL & ->). injection El as <-.
    exists TL. cbv zeta in H.
    destruct (ly_order TL >=? ob_size L);
      [apply ret_Ok_inv in H as [? _]; discriminate|].
    destruct (ly_entries L !! Z.to_nat (ly_order TL)) as [e|] eqn:Ee; [|discriminate H].
    destruct (decide (le_type e = Some type)) as [Ht|Ht];
      apply ret_Ok_inv in H as [Ha _]; [|discriminate].
    injection Ha as ->. exists (ly_order TL), e.
    repeat (split; [first [assumption | reflexivity | apply list_elem_of_here]|]).
    reflexivity.
  - unfold _layout_cast_hash in H.
    apply bind_Ok_inv in H as (L' & s1 & H1 & H).
    apply deref_inv in H1 as (l & El & HL' & ->). injection El as <-.
    rewrite HL in HL'. injection HL' as <-.
    apply bind_Ok_inv in H as (p & s1 & H1 & H). apply Py_LAYOUT_inv in H1 as [-> ->].
    rewrite Et in H.
    apply bind_Ok_inv in H as (TL & s1 & H1 & H).
    apply deref_inv in H1 as (l & El & HTL & ->). injection El as <-.
    exists TL. cbv zeta in H.
    apply bind_Ok_inv in H as (found & s1 & H1 & H).
    apply lift_Ok_inv in H1 as [Hscan ->].
    destruct found as [offset|]; apply ret_Ok_inv in H as [Ha _]; [|discriminate].
    injection Ha as ->.
    apply hash_scan_reach in Hscan as (p & e & Hp & He & Ht & <-).
    exists p, e. auto 10.
Qed.

(** With no slot within reach naming the requested type, the lookup
    returns NULL. *)
Lemma get_type_data_miss obj type s ol tl L TL :
  tp_cache (types s (ob_type obj)) = Some ol ->
  tp_cache (types s type) = Some tl ->
  heap s !! ol = Some L -> heap s !! tl = Some TL ->
  (forall p, p ∈ reach L TL ->
     exists e, ly_entries L !! Z.to_nat p = Some e /\ le_type e <> Some type) ->
  PyObject_GetTypeData obj type s = Ok (None, s).
Proof.
  intros Ho Ht HL HTL Hmiss.
  assert (Hpo : Py_LAYOUT (ob_type obj) s = Ok (Some ol, s))
    by (unfold Py_LAYOUT; rewrite Ho; reflexivity).
  assert (Hpt : Py_LAYOUT type s = Ok (Some tl, s))
    by (unfold Py_LAYOUT; rewrite Ht; reflexivity).
  assert (Hd : deref (Some ol) s = Ok (L, s))
    by (unfold deref; rewrite HL; reflexivity).
  assert (Hdt : deref (Some tl) s = Ok (TL, s))
    by (unfold deref; rewrite HTL; reflexivity).
  unfold PyObject_GetTypeData.
  rewrite (bind_Ok _ _ _ _ _ Hpo), (bind_Ok _ _ _ _ _ Hpt), (bind_Ok _ _ _ _ _ Hd).
  unfold reach in Hmiss. destruct (ly_cast L); simpl call_cast.
  - unfold _layout_cast_ordered.
    rewrite (bind_Ok _ _ _ _ _ Hd), (bind_Ok _ _ _ _ _ Hpt), (bind_Ok _ _ _ _ _ Hdt).
    cbv zeta. destruct (ly_order TL >=? ob_size L); [reflexivity|].
    destruct (Hmiss _ (list_elem_of_here _ _)) as (e & -> & Hne).
    destruct (decide (le_type e = Some type)); [contradiction | reflexivity].
  - unfold _layout_cast_hash.
    rewrite (bind_Ok _ _ _ _ _ Hd), (bind_Ok _ _ _ _ _ Hpt), (bind_Ok _ _ _ _ _ Hdt).
    cbv zeta. rewrite (hash_scan_miss _ _ _ _ _ Hmiss). reflexivity.
Qed.

(** C5. [PyObject_GetTypeData] returns NULL when the type of the object
    or the requested type has no layout.  When both have one, the slots
    within reach are those of [reach]: the slot [ly_order] of the requested
    type if that index is inside an ordered table, the [ly_search] slots
    from the home slot of the requested type in a hashed one.  The lookup
    returns NULL whenever none of these slots names the requested type,
    also when a slot out of reach does; and when it returns an address, a
    slot within reach names exactly the requested type and the address is
    the object's plus the offset of that slot.  So it returns NULL
    whenever no slot of the table names the requested type. *)
Theorem C5_not_found_unless_exact_type obj type s :
  (tp_cache (types s (ob_type obj)) = None \/ tp_cache (types s type) = None ->
   PyObject_GetTypeData obj type s = Ok (None, s)) /\
  (forall ol tl L TL,
     tp_cache (types s (ob_type obj)) = Some ol ->
     tp_cache (types s type) = Some tl ->
     heap s !! ol = Some L -> heap s !! tl = Some TL ->
     (forall p, p ∈ reach L TL ->
        exists e, ly_entries L !! Z.to_nat p = Some e /\ le_type e <> Some type) ->
     PyObject_GetTypeData obj type s = Ok (None, s)) /\
  (forall a s', PyObject_GetTypeData obj type s = Ok (Some a, s') ->
     exists ol tl L TL p e,
       tp_cache (types s (ob_type obj)) = Some ol /\
       tp_cache (types s type) = Some tl /\
       heap s !! ol = Some L /\ heap s !! tl = Some TL /\
       p ∈ reach L TL /\ ly_entries L !! Z.to_nat p = Some e /\
       le_type e = Some type /\ a = ob_addr obj + le_offset e) /\
  (forall L ol r s',
     tp_cache (types s (ob_type obj)) = Some ol -> heap s !! ol = Some L ->
     (forall e, e ∈ ly_entries L -> le_type e <> Some type) ->
     PyObject_GetTypeData obj type s = Ok (r, s') -> r = None).
Proof.
  split; [|split; [|split]].
  - unfold PyObject_GetTypeData, bind, Py_LAYOUT.
    intros [-> | ->]; [reflexivity|].
    destruct (tp_cache (types s (ob_type obj))); reflexivity.
  - intros ol tl L TL. apply get_type_data_miss.
  - apply get_type_data_reach.
  - intros L ol r s' Ho HL Hnone H.
    destruct r as [a|]; [|reflexivity].
    apply get_type_data_reach in H
      as (ol' & tl & L' & TL & p & e & Ho' & _ & HL' & _ & _ & Hi & Ht & _).
    rewrite Ho in Ho'. injection Ho' as <-.
    rewrite HL in HL'. injection HL' as <-.
    exfalso. apply (Hnone e); [|exact Ht].
    apply list_elem_of_lookup. eauto.
Qed.

(** ** Stores *)

Lemma update_inv p f s u s' :
  update p f s = Ok (u, s') ->
  exists l L, p = Some l /\ heap s !! l = Some L /\
    s' = mkState (types s) (<[l := f L]> (heap s)) (stray s) (alloc s) (exc s).
Proof.
  unfold update. destruct u. destruct p as [l|]; try discriminate.
  destruct (heap s !! l) as [L|] eqn:E; try discriminate.
  intros H. injection H as <-. eauto.
Qed.

Lemma store_entry_inv layout position e s u s' :
  store_entry layout position e s = Ok (u, s') ->
  exists L, heap s !! layout = Some L /\
    ((Z.to_nat position < length (ly_entries L))%nat /\
     s' = mkState (types s)
            (<[layout := set_entries (<[Z.to_nat position := e]> (ly_entries L)) L]>
               (heap s))
            (stray s) (alloc s) (exc s)
     \/
     (length (ly_entries L) <= Z.to_nat position)%nat /\
     s' = mkState (types s) (heap s) (stray s ++ [(layout, position, e)]) (alloc s) (exc s)).
Proof.
  unfold store_entry. destruct u.
  destruct (heap s !! layout) as [L|] eqn:E; try discriminate.
  destruct (decide (Z.to_nat position < length (ly_entries L))%nat) as [Hlt|Hge];
    intros H; injection H as <-; exists L; split; auto.
  right. split; [lia | reflexivity].
Qed.

Lemma fill_keeps_refl L : fill_keeps L L.
Proof. repeat split. Qed.

Lemma fill_keeps_trans L1 L2 L3 :
  fill_keeps L1 L2 -> fill_keeps L2 L3 -> fill_keeps L1 L3.
Proof. unfold fill_keeps. intuition congruence. Qed.

Lemma fills_refl r s : fills r s s.
Proof.
  repeat split; auto. intros L HL. exists L. split; [exact HL | apply fill_keeps_refl].
Qed.

Lemma fills_trans r s1 s2 s3 : fills r s1 s2 -> fills r s2 s3 -> fills r s1 s3.
Proof.
  intros (Ht1 & Ha1 & Hl1 & Ho1 & Hr1) (Ht2 & Ha2 & Hl2 & Ho2 & Hr2).
  repeat split; try congruence.
  - intros l Hl. rewrite Ho2, Ho1 by exact Hl. reflexivity.
  - intros L HL. destruct (Hr1 L HL) as (L2 & HL2 & K12).
    destruct (Hr2 L2 HL2) as (L3 & HL3 & K23).
    exists L3. split; [exact HL3 | exact (fill_keeps_trans _ _ _ K12 K23)].
Qed.

Lemma fills_write r s L f :
  heap s !! r = Some L -> fill_keeps L (f L) ->
  fills r s (mkState (types s) (<[r := f L]> (heap s)) (stray s) (alloc s) (exc s)).
Proof.
  intros HL K. repeat split; simpl.
  - apply length_insert.
  - intros l Hl. apply list_lookup_insert_ne. congruence.
  - intros L0 HL0. rewrite HL in HL0. injection HL0 as <-.
    exists (f L). split; [|exact K].
    apply list_lookup_insert_eq. apply lookup_lt_Some in HL. exact HL.
Qed.

Lemma fills_update r f s u s' :
  (forall L, fill_keeps L (f L)) ->
  update (Some r) f s = Ok (u, s') -> fills r s s' /\ stray s' = stray s.
Proof.
  intros K H. apply update_inv in H as (l & L & E & HL & ->).
  injection E as <-. split; [|reflexivity]. apply fills_write; auto.
Qed.

Lemma fills_store_entry r position e s u s' :
  store_entry r position e s = Ok (u, s') -> fills r s s'.
Proof.
  intros H. apply store_entry_inv in H as (L & HL & [[Hlt ->] | [Hge ->]]).
  - apply (fills_write r s L (set_entries _)); [exact HL|].
    repeat split. simpl. apply length_insert.
  - repeat split; auto. intros L0 HL0. exists L0.
    split; [exact HL0 | apply fill_keeps_refl].
Qed.

Lemma fills_other r s s' l :
  fills r s s' -> l <> r -> heap s' !! l = heap s !! l.
Proof. intros (_ & _ & _ & Ho & _). apply Ho. Qed.

(** Under [fills], the fields of any layout that the fill reads from the
    layouts it is given are as before, whether or not the layout is the
    one being filled. *)
Lemma fills_lookup r s s' l L :
  fills r s s' -> heap s !! l = Some L ->
  exists L', heap s' !! l = Some L' /\ fill_keeps L L'.
Proof.
  intros F HL. destruct (decide (l = r)) as [->|Hne].
  - destruct F as (_ & _ & _ & _ & Hr). exact (Hr L HL).
  - exists L. split; [|apply fill_keeps_refl].
    rewrite <- HL. exact (fills_other _ _ _ _ F Hne).
Qed.

(** ** Probing *)

Lemma probe_free {X} (occupied : X -> bool) fuel table size position cost p c :
  probe occupied fuel table size position cost = Ok (p, c) ->
  exists x, table !! Z.to_nat p = Some x /\ occupied x = false.
Proof.
  revert position cost. induction fuel as [|fuel IH]; intros position cost; simpl.
  - discriminate.
  - destruct (table !! Z.to_nat position) as [x|] eqn:E; try discriminate.
    destruct (occupied x) eqn:Ex.
    + apply IH.
    + intros H. injection H as <- <-. eauto.
Qed.

Lemma layout_base_inv type s b s' : _layout_base type s = Ok (b, s') -> s' = s.
Proof. unfold _layout_base. intros H. injection H as _ <-. reflexivity. Qed.

(** ** What the fill functions write *)

Lemma fill_ordered_loop_fills r rest base offset s res s' :
  fill_ordered_loop r rest base offset s = Ok (res, s') -> fills r s s'.
Proof.
  revert offset s. induction rest as [|[key value] rest IH]; intros offset s H; simpl in H.
  - inv_run H. apply fills_refl.
  - inv_run H.
    match goal with
    | Hs : store_entry _ _ _ _ = _ |- _ => apply fills_store_entry in Hs as F1
    end.
    apply IH in H. exact (fills_trans _ _ _ _ F1 H).
Qed.

Lemma fill_ordered_fills r type layouts s u s' :
  _layout_fill_ordered r type layouts s = Ok (u, s') -> fills r s s'.
Proof.
  unfold _layout_fill_ordered. intros H.
  apply bind_Ok_inv in H as (base & s1 & Hb & H).
  apply layout_base_inv in Hb as ->.
  apply bind_Ok_inv in H as (offset & s2 & Hl & H).
  apply fill_ordered_loop_fills in Hl.
  apply fills_update in H as [F _]; [|intros L; repeat split].
  exact (fills_trans _ _ _ _ Hl F).
Qed.

Lemma fill_hash_loop_fills fuel r rest hash_size shift base offset s res s' :
  fill_hash_loop fuel r rest hash_size shift base offset s = Ok (res, s') ->
  fills r s s' /\ stray s' = stray s.
Proof.
  revert offset s. induction rest as [|[key value] rest IH]; intros offset s H; simpl in H.
  - inv_run H. split; [apply fills_refl | reflexivity].
  - apply bind_Ok_inv in H as (sub & s1 & Hsub & H). inv_run Hsub.
    apply bind_Ok_inv in H as (L & s1 & HL & H). inv_run HL.
    apply bind_Ok_inv in H as ([p c] & s1 & Hp & H). inv_run Hp.
    apply bind_Ok_inv in H as (u & s1 & Hs & H).
    assert (F1 : fills r s s1 /\ stray s1 = stray s).
    { destruct (ly_search L <? c).
      - apply fills_update in Hs; [exact Hs | intros L0; repeat split].
      - inv_run Hs. split; [apply fills_refl | reflexivity]. }
    destruct F1 as [F1 St1].
    apply bind_Ok_inv in H as (sub' & s2 & Hsub' & H). inv_run Hsub'.
    apply bind_Ok_inv in H as (u' & s2 & Hst & H).
    pose proof (fills_store_entry _ _ _ _ _ _ Hst) as F2.
    assert (St2 : stray s2 = stray s1).
    { apply store_entry_inv in Hst as (L1 & HL1 & [[_ ->] | [Hge _]]); [reflexivity|].
      exfalso.
      match goal with
      | Hprobe : probe _ _ _ _ _ _ = Ok _ |- _ =>
          apply probe_free in Hprobe as (x & Hx & _)
      end.
      apply lookup_lt_Some in Hx.
      match goal with
      | HLr : heap s !! r = Some L |- _ =>
          destruct (fills_lookup _ _ _ _ _ F1 HLr) as (L1' & HL1' & K)
      end.
      rewrite HL1 in HL1'. injection HL1' as <-.
      destruct K as (_ & _ & _ & _ & _ & _ & Hlen). lia. }
    apply IH in H as [F3 St3].
    split; [|congruence].
    exact (fills_trans _ _ _ _ F1 (fills_trans _ _ _ _ F2 F3)).
Qed.

Lemma fill_hash_fills fuel r type layouts s u s' :
  _layout_fill_hash fuel r type layouts s = Ok (u, s') ->
  fills r s s' /\ stray s' = stray s.
Proof.
  unfold _layout_fill_hash. intros H.
  apply bind_Ok_inv in H as (L & s1 & HL & H). inv_run HL.
  apply bind_Ok_inv in H as (base & s1 & Hb & H).
  apply layout_base_inv in Hb as ->.
  apply bind_Ok_inv in H as (offset & s2 & Hl & H).
  apply fill_hash_loop_fills in Hl as [F1 St1].
  apply fills_update in H as [F2 St2]; [|intros L0; repeat split].
  split; [exact (fills_trans _ _ _ _ F1 F2) | congruence].
Qed.

(** ** The dictionary *)

Lemma SetItem_elem d key value T l :
  (T, l) ∈ PyDict_SetItem d key value ->
  (T = key /\ l = value) \/ (T, l) ∈ d.
Proof.
  induction d as [|[k v] d IH]; simpl.
  - intros H. apply list_elem_of_singleton in H. injection H as -> ->. auto.
  - destruct (decide (k = key)) as [->|Hne]; intros H;
      apply elem_of_cons in H as [H|H].
    + injection H as -> ->. auto.
    + right. right. exact H.
    + injection H as -> ->. right. left.
    + destruct (IH H) as [?|?]; [auto|]. right. right. assumption.
Qed.

Lemma SetItem_keys d key value T :
  T ∈ (PyDict_SetItem d key value).*1 <-> T = key \/ T ∈ d.*1.
Proof.
  induction d as [|[k v] d IH]; simpl.
  - rewrite list_elem_of_singleton. split; [auto | intros [?|H]; [auto|]].
    inversion H.
  - destruct (decide (k = key)) as [->|Hne]; simpl;
      rewrite !elem_of_cons; [tauto|]. rewrite IH. tauto.
Qed.

Lemma SetItem_NoDup d key value :
  NoDup d.*1 -> NoDup (PyDict_SetItem d key value).*1.
Proof.
  induction d as [|[k v] d IH]; simpl; intros H.
  - apply NoDup_singleton.
  - apply NoDup_cons in H as [Hk Hd].
    destruct (decide (k = key)) as [->|Hne]; simpl; apply NoDup_cons.
    + auto.
    + split; [|auto]. rewrite SetItem_keys. intros [?|?]; auto.
Qed.

Lemma SetItem_fresh d key value :
  key ∉ d.*1 -> PyDict_SetItem d key value = d ++ [(key, value)].
Proof.
  induction d as [|[k v] d IH]; simpl; intros H; [reflexivity|].
  apply not_elem_of_cons in H as [Hne Hd].
  destruct (decide (k = key)); [congruence|]. rewrite IH by exact Hd. reflexivity.
Qed.

(** What [_layout_collect] gathers: the bases that have a layout, each
    once, each with the layout its [tp_cache] slot points to. *)
Lemma collect_loop_inv tuple d s d' s' :
  collect_loop tuple d s = Ok (d', s') ->
  s' = s /\
  (NoDup d.*1 -> NoDup d'.*1) /\
  (forall T l, (T, l) ∈ d' -> (T, l) ∈ d \/ tp_cache (types s T) = Some l).
Proof.
  revert d. induction tuple as [|type rest IH]; intros d H; simpl in H.
  - inv_run H. auto.
  - apply bind_Ok_inv in H as (p & s1 & Hp & H). inv_run Hp.
    destruct (tp_cache (types s type)) as [l0|] eqn:E.
    + apply IH in H as (-> & Hnd & Hel). split; [reflexivity|]. split.
      * intros Hd. apply Hnd, SetItem_NoDup, Hd.
      * intros T l HT. destruct (Hel T l HT) as [Hin|?]; [|auto].
        apply SetItem_elem in Hin as [[-> ->]|?]; auto.
    + apply IH in H. exact H.
Qed.

Lemma same_memory_refl s : same_memory s s.
Proof. repeat split. Qed.

Lemma collect_inv tuple s layouts s' :
  _layout_collect tuple s = Ok (layouts, s') ->
  same_memory s s' /\
  match layouts with
  | None => dict_new_fails (alloc s) = true /\ exc s' = Some PyExc_MemoryError
  | Some d => s' = s /\ dict_new_fails (alloc s) = false /\
              collect_loop tuple [] s = Ok (d, s)
  end.
Proof.
  unfold _layout_collect, PyDict_New. intros H.
  apply bind_Ok_inv in H as (dict & s1 & Hd & H).
  destruct (dict_new_fails (alloc s)) eqn:E.
  - unfold PyErr_NoMemory, bind, ret in Hd. injection Hd as <- <-.
    unfold ret in H. injection H as <- <-. repeat split.
  - injection Hd as <- <-.
    apply bind_Ok_inv in H as (d & s1 & Hl & H).
    pose proof (collect_loop_inv _ _ _ _ _ Hl) as (-> & _).
    unfold ret in H. injection H as <- <-.
    split; [apply same_memory_refl | auto].
Qed.

(** ** The checks and the search read only *)

Lemma check_ordered_Some d s :
  _layout_check_ordered (Some d) s
  = check_ordered_loop d (Z.of_nat (length d))
      (replicate (Z.to_nat (Z.of_nat (length d))) 0) s.
Proof. reflexivity. Qed.

Lemma fast_hash_Some fuel layouts hash_size id s :
  _layout_fast_hash fuel layouts hash_size id s
  = fast_hash_loop fuel (seqZ 0 16) layouts 0 hash_size id
      (Z.of_nat (length layouts)) 0 hash_size s.
Proof. reflexivity. Qed.

Lemma readonly_fault {A} : readonly (@fault A).
Proof. intros s a s' H. discriminate H. Qed.

Lemma check_ordered_loop_readonly rest items buf :
  readonly (check_ordered_loop rest items buf).
Proof.
  revert buf. induction rest as [|[key value] rest IH]; intros buf; simpl.
  - apply readonly_ret.
  - apply readonly_bind; [apply readonly_deref | intros layout].
    destruct (ly_order layout >=? items); [apply readonly_ret|].
    destruct (buf !! Z.to_nat (ly_order layout)) as [c|]; [|apply readonly_fault].
    destruct (c >? 0); [apply readonly_ret | apply IH].
Qed.

Lemma check_ordered_readonly layouts : readonly (_layout_check_ordered layouts).
Proof.
  destruct layouts as [d|]; simpl;
    [apply check_ordered_loop_readonly | apply readonly_fault].
Qed.

Lemma fast_hash_place_readonly fuel rest hash_size shift buf cost :
  readonly (fast_hash_place fuel rest hash_size shift buf cost).
Proof.
  revert buf cost. induction rest as [|[key value] rest IH]; intros buf cost; simpl.
  - apply readonly_ret.
  - apply readonly_bind; [apply readonly_deref | intros layout].
    apply readonly_bind; [apply readonly_lift | intros [p c]]. apply IH.
Qed.

Lemma fast_hash_pass_readonly fuel layouts pos hash_size id shift :
  readonly (fast_hash_pass fuel layouts pos hash_size id shift).
Proof.
  unfold fast_hash_pass.
  apply readonly_bind; [apply fast_hash_place_readonly | intros bc].
  apply readonly_ret.
Qed.

Lemma fast_hash_loop_readonly fuel shifts layouts pos hash_size id items best best_cost :
  readonly (fast_hash_loop fuel shifts layouts pos hash_size id items best best_cost).
Proof.
  revert pos best best_cost.
  induction shifts as [|shift shifts IH]; intros pos best best_cost; simpl.
  - apply readonly_ret.
  - apply readonly_bind; [apply fast_hash_pass_readonly | intros [cost pos']].
    destruct (cost =? items); [apply readonly_ret|].
    destruct (cost <? best_cost); apply IH.
Qed.

Lemma fast_hash_readonly fuel layouts hash_size id :
  readonly (_layout_fast_hash fuel layouts hash_size id).
Proof. apply fast_hash_loop_readonly. Qed.

(** ** [_PyLayout_Create], step by step *)

Lemma NewVar_inv n s p s' :
  PyObject_NewVar n s = Ok (p, s') ->
  (newvar_fails (alloc s) = true /\ p = None /\ same_memory s s') \/
  (newvar_fails (alloc s) = false /\ p = Some (length (heap s)) /\
   s' = with_new s (fresh_layout (alloc s) n)).
Proof.
  unfold PyObject_NewVar. destruct (newvar_fails (alloc s));
    intros H; injection H as <- <-; [left | right]; repeat split.
Qed.

Lemma update_new s L f :
  update (Some (length (heap s))) f (with_new s L) = Ok (tt, with_new s (f L)).
Proof.
  unfold update, with_new. simpl.
  rewrite lookup_app_r by lia. rewrite Nat.sub_diag. simpl.
  rewrite insert_app_r_alt by lia. rewrite Nat.sub_diag. reflexivity.
Qed.

Lemma deref_new s L :
  deref (Some (length (heap s))) (with_new s L) = Ok (L, with_new s L).
Proof.
  unfold deref, with_new. simpl.
  rewrite lookup_app_r by lia. rewrite Nat.sub_diag. reflexivity.
Qed.

Lemma clear_new s L :
  _layout_clear (Some (length (heap s))) (with_new s L)
  = Ok (tt, with_new s (set_entries (clear_entries (ob_size L) (ly_entries L)) L)).
Proof.
  unfold _layout_clear. rewrite (bind_Ok _ _ _ _ _ (deref_new s L)).
  exact (update_new s L
           (fun L0 => set_entries (clear_entries (ob_size L) (ly_entries L0)) L0)).
Qed.

Lemma same_memory_trans s1 s2 s3 :
  same_memory s1 s2 -> same_memory s2 s3 -> same_memory s1 s3.
Proof.
  intros (A1 & A2 & A3 & A4) (B1 & B2 & B3 & B4).
  repeat split; congruence.
Qed.

Lemma Size_inv layouts s items s' :
  PyObject_Size layouts s = Ok (items, s') ->
  same_memory s s' /\
  match layouts with
  | Some d => items = Z.of_nat (length d) /\ s' = s
  | None => items = -1 /\
            exc s' = Some (match exc s with Some e => e | None => PyExc_SystemError end)
  end.
Proof.
  destruct layouts as [d|]; simpl; intros H.
  - unfold ret in H. injection H as <- <-. split; [apply same_memory_refl | auto].
  - unfold bind, null_error, ret in H. injection H as <- <-. simpl.
    split; [repeat split|]. split; [reflexivity|]. destruct (exc s); reflexivity.
Qed.

Lemma create_unfold fuel type bases size id s res s' :
  _PyLayout_Create fuel type bases size id s = Ok (res, s') ->
  (res = None /\ same_memory s s' /\
   exists layouts s1 items,
     _layout_collect bases s = Ok (layouts, s1) /\
     PyObject_Size layouts s1 = Ok (items, s') /\
     to_ssize_t (items + size) <= 0) \/
  exists d ordered,
    collect_loop bases [] s = Ok (d, s) /\
    dict_new_fails (alloc s) = false /\ newvar_fails (alloc s) = false /\
    to_ssize_t (Z.of_nat (length d) + size) > 0 /\
    _layout_check_ordered (Some d) s = Ok (ordered, s) /\
    res = Some (length (heap s)) /\
    let r := length (heap s) in
    let layouts := if size >? 0 then PyDict_SetItem d type r else d in
    if ordered then
      _layout_fill_ordered r type layouts
        (with_new s (initial_layout (alloc s) 1 size (to_uint32 id) 0 cast_ordered))
      = Ok (tt, s')
    else
      exists shift,
        let mid := with_new s (set_cast cast_hash (fresh_layout (alloc s) 2)) in
        _layout_fast_hash fuel d 2 (to_uint32 id) mid = Ok (shift, mid) /\
        _layout_fill_hash fuel r type layouts
          (with_new s (initial_layout (alloc s) 2 size (to_uint32 id)
                         (to_uint32 shift) cast_hash))
        = Ok (tt, s').
Proof.
  unfold _PyLayout_Create. intros H.
  apply bind_Ok_inv in H as (layouts & s1 & Hc & H).
  pose proof Hc as Hcollect.
  apply collect_inv in Hc as (Hmem1 & Hc).
  apply bind_Ok_inv in H as (items & s2 & Hsz & H).
  pose proof Hsz as Hsize.
  apply Size_inv in Hsz as (Hmem2 & Hsz).
  destruct (to_ssize_t (items + size) >? 0) eqn:Hpos; simpl in H;
    [|unfold ret in H; injection H as <- <-; left; split; [reflexivity|];
      split; [exact (same_memory_trans _ _ _ Hmem1 Hmem2)|];
      exists layouts, s1, items; split; [exact Hcollect|]; split; [exact Hsize|];
      rewrite Z.gtb_ltb in Hpos; apply Z.ltb_ge; exact Hpos].
  destruct layouts as [d|]; [|discriminate H].
  destruct Hc as (-> & Hdict & Hc). destruct Hsz as [-> ->].
  clear Hmem1 Hmem2 Hsize.
  apply bind_Ok_inv in H as (ordered & s1 & Hord & H).
  pose proof (check_ordered_readonly _ _ _ _ Hord) as ->.
  right. exists d, ordered.
  apply bind_Ok_inv in H as ([result entries] & s1 & Hre & H).
  assert (Hn : newvar_fails (alloc s) = false /\ result = Some (length (heap s)) /\
               exists shift cast,
                 s1 = with_new s
                        (set_shift shift (set_cast cast (fresh_layout (alloc s) entries))) /\
                 if ordered
                 then shift = 0 /\ cast = cast_ordered /\ entries = 1
                 else cast = cast_hash /\ entries = 2 /\
                      exists sh, shift = to_uint32 sh /\
                        let mid := with_new s (set_cast cast_hash (fresh_layout (alloc s) 2)) in
                        _layout_fast_hash fuel d 2 (to_uint32 id) mid = Ok (sh, mid)).
  { destruct ordered.
    - apply bind_Ok_inv in Hre as (p & s2 & Hnew & Hre).
      apply NewVar_inv in Hnew as [(_ & -> & _) | (Hnf & -> & ->)];
        [discriminate Hre|].
      rewrite (bind_Ok _ _ _ _ _ (update_new _ _ _)) in Hre.
      rewrite (bind_Ok _ _ _ _ _ (update_new _ _ _)) in Hre.
      inv_run Hre. injection E as -> ->.
      split; [exact Hnf|]. split; [reflexivity|].
      exists 0, cast_ordered. auto.
    - apply bind_Ok_inv in Hre as (p & s2 & Hnew & Hre).
      apply NewVar_inv in Hnew as [(_ & -> & _) | (Hnf & -> & ->)];
        [discriminate Hre|].
      rewrite (bind_Ok _ _ _ _ _ (update_new _ _ _)) in Hre.
      apply bind_Ok_inv in Hre as (sh & s2 & Hfh & Hre).
      pose proof (fast_hash_readonly _ _ _ _ _ _ _ Hfh) as ->.
      rewrite (bind_Ok _ _ _ _ _ (update_new _ _ _)) in Hre.
      inv_run Hre. injection E as -> ->.
      split; [exact Hnf|]. split; [reflexivity|].
      exists (to_uint32 sh), cast_hash. split; [reflexivity|].
      split; [reflexivity|]. split; [reflexivity|].
      exists sh. split; [reflexivity | exact Hfh]. }
  destruct Hn as (Hnf & -> & shift & cast & -> & Hmode).
  unfold PyObject_InitVar in H.
  do 5 rewrite (bind_Ok _ _ _ _ _ (update_new _ _ _)) in H.
  rewrite (bind_Ok _ _ _ _ _ (clear_new _ _)) in H.
  rewrite (bind_Ok _ _ _ _ _ (update_new _ _ _)) in H.
  rewrite (bind_Ok _ _ _ _ _ (deref_new _ _)) in H.
  apply bind_Ok_inv in H as (u & s2 & Hfill & H). inv_run H. destruct u.
  repeat (split; [first [assumption | reflexivity | lia]|]).
  simpl in Hfill.
  destruct ordered.
  - destruct Hmode as (-> & -> & ->). exact Hfill.
  - destruct Hmode as (-> & -> & sh & -> & Hfh). exists sh.
    split; [exact Hfh | exact Hfill].
Qed.

Lemma fills_new r s L s' :
  r = length (heap s) -> fills r (with_new s L) s' ->
  types s' = types s /\ alloc s' = alloc s /\
  length (heap s') = S (length (heap s)) /\
  (forall l, (l < length (heap s))%nat -> heap s' !! l = heap s !! l) /\
  exists L', heap s' !! r = Some L' /\ fill_keeps L L'.
Proof.
  intros -> (Ht & Ha & Hlen & Ho & Hr). simpl in *.
  rewrite length_app in Hlen. simpl in Hlen.
  repeat split; [exact Ht | exact Ha | lia | |].
  - intros l Hl. rewrite Ho by lia. apply lookup_app_l. exact Hl.
  - apply Hr. rewrite lookup_app_r by lia. rewrite Nat.sub_diag. reflexivity.
Qed.

(** What a successful [_PyLayout_Create] leaves behind: one more object
    in the store, the older ones as they were, and in the new one the
    header fields as assigned before the fill. *)
Lemma create_result fuel type bases size id s r s' :
  _PyLayout_Create fuel type bases size id s = Ok (Some r, s') ->
  r = length (heap s) /\
  types s' = types s /\ alloc s' = alloc s /\
  length (heap s') = S (length (heap s)) /\
  (forall l, (l < length (heap s))%nat -> heap s' !! l = heap s !! l) /\
  exists L, heap s' !! r = Some L /\ ly_order L = 1 /\
    ly_extensionsize L = size /\ ly_id L = to_uint32 id /\
    ((ly_cast L = cast_ordered /\ ob_size L = 1) \/
     (ly_cast L = cast_hash /\ ob_size L = 2)).
Proof.
  intros H. apply create_unfold in H as [[? _] | H]; [discriminate|].
  destruct H as (d & ordered & _ & _ & _ & _ & _ & Hr & H).
  injection Hr as ->. split; [reflexivity|]. simpl in H.
  destruct ordered.
  - apply fill_ordered_fills in H.
    apply (fills_new _ _ _ _ eq_refl) in H as (Ht & Ha & Hlen & Ho & L & HL & K).
    repeat (split; [assumption|]). exists L. split; [exact HL|].
    destruct K as (K1 & K2 & K3 & K4 & K5 & _). simpl in *. auto 10.
  - destruct H as (shift & _ & H). apply fill_hash_fills in H as [H _].
    apply (fills_new _ _ _ _ eq_refl) in H as (Ht & Ha & Hlen & Ho & L & HL & K).
    repeat (split; [assumption|]). exists L. split; [exact HL|].
    destruct K as (K1 & K2 & K3 & K4 & K5 & _). simpl in *. auto 10.
Qed.

Lemma create_absent fuel type bases size id s s' :
  _PyLayout_Create fuel type bases size id s = Ok (None, s') -> same_memory s s'.
Proof.
  intros H. apply create_unfold in H as [(_ & Hmem & _) | H]; [exact Hmem|].
  destruct H as (d & ordered & _ & _ & _ & _ & _ & Hr & _). discriminate.
Qed.

(** C9. Whenever [_PyLayout_Create] returns a layout, its [ly_order] is
    1, whatever the type, the bases and the size: the order computed from
    the number of inherited layouts and the size is 1 when their sum, as
    [Py_ssize_t] holds it, is positive and 0 otherwise, and with 0 the
    function returns NULL. *)
Theorem C9_order_is_one fuel type bases size id s res s' :
  _PyLayout_Create fuel type bases size id s = Ok (res, s') ->
  exists layouts s1 items s2,
    _layout_collect bases s = Ok (layouts, s1) /\
    PyObject_Size layouts s1 = Ok (items, s2) /\
    match res with
    | Some r =>
        0 < to_ssize_t (items + size) /\
        exists L, heap s' !! r = Some L /\ ly_order L = 1
    | None => to_ssize_t (items + size) <= 0
    end.
Proof.
  intros H. destruct res as [r|].
  - pose proof (create_result _ _ _ _ _ _ _ _ H) as (_ & _ & _ & _ & _ & L & HL & Ho & _).
    apply create_unfold in H as [[? _] | H]; [discriminate|].
    destruct H as (d & ordered & Hc & Hd & _ & Hpos & _).
    exists (Some d), s, (Z.of_nat (length d)), s.
    split; [|split; [reflexivity | split; [lia | eauto]]].
    unfold _layout_collect, PyDict_New, bind. rewrite Hd, Hc. reflexivity.
  - apply create_unfold in H as [(_ & _ & layouts & s1 & items & Hc & Hsz & Hle) | H];
      [eauto 10|].
    destruct H as (d & ordered & _ & _ & _ & _ & _ & Hr & _). discriminate.
Qed.

(** The sum wraps: a type that asks for [PY_SSIZE_T_MAX] bytes and
    inherits one layout gets no layout. *)
Lemma create_size_wraps :
  _PyLayout_Create 4 tB [tA] (2 ^ 63 - 1) 0 world_A = Ok (None, world_A).
Proof. vm_compute. reflexivity. Qed.

(** ** The invariant of the store *)

Lemma created_boot : created boot.
Proof.
  split; [|split].
  - intros l L H. destruct l; discriminate H.
  - intros t l H. discriminate H.
  - intros l L H. destruct l; discriminate H.
Qed.

Lemma set_tp_cache_inv type p s u s' :
  set_tp_cache type p s = Ok (u, s') ->
  heap s' = heap s /\ stray s' = stray s /\ alloc s' = alloc s /\
  (forall t, tp_cache (types s' t) =
             if decide (t = type) then p else tp_cache (types s t)).
Proof.
  unfold set_tp_cache. destruct u. intros H. injection H as <-. simpl.
  repeat split. intros t. destruct (decide (t = type)); reflexivity.
Qed.

Lemma created_define_type fuel type bases size id s res s' :
  created s -> define_type fuel type bases size id s = Ok (res, s') -> created s'.
Proof.
  intros (Hord & Hcache & Hmode) H. unfold define_type in H.
  apply bind_Ok_inv in H as (result & s1 & Hc & H).
  apply bind_Ok_inv in H as (u & s2 & Hset & H). inv_run H.
  apply set_tp_cache_inv in Hset as (Hh & _ & _ & Hty).
  destruct result as [r|].
  - apply create_result in Hc
      as (-> & Ht & Ha & Hlen & Ho & L & HL & HoL & _ & _ & HmL).
    assert (Hold : forall l L0, heap s2 !! l = Some L0 ->
              heap s !! l = Some L0 \/ L0 = L).
    { intros l L0 HL0. rewrite Hh in HL0.
      destruct (decide (l < length (heap s))%nat) as [Hlt|Hge].
      - left. rewrite Ho in HL0 by exact Hlt. exact HL0.
      - right. apply lookup_lt_Some in HL0 as Hlt.
        assert (l = length (heap s)) as -> by lia.
        rewrite HL in HL0. injection HL0 as <-. reflexivity. }
    split; [|split].
    + intros l L0 HL0. destruct (Hold _ _ HL0) as [H0 | ->]; [exact (Hord _ _ H0) | exact HoL].
    + intros t l. rewrite Hty, Hh. destruct (decide (t = type)).
      * intros E. injection E as <-. eauto.
      * rewrite Ht. intros E. apply Hcache in E as [L0 HL0].
        apply lookup_lt_Some in HL0 as Hlt. rewrite <- (Ho _ Hlt) in HL0. eauto.
    + intros l L0 HL0. destruct (Hold _ _ HL0) as [H0 | ->]; [exact (Hmode _ _ H0) | exact HmL].
  - apply create_absent in Hc as (Ht1 & Hh1 & _ & _).
    rewrite Hh1 in Hh. rewrite Ht1 in Hty. split; [|split].
    + intros l L0. rewrite Hh. apply Hord.
    + intros t l. rewrite Hty, Hh. destruct (decide (t = type)); [discriminate|].
      apply Hcache.
    + intros l L0. rewrite Hh. apply Hmode.
Qed.

(** ** Construction writes to the new layout only *)

Lemma collect_loop_keys tuple d s d' s' :
  collect_loop tuple d s = Ok (d', s') ->
  (forall T, T ∈ d.*1 -> T ∈ d'.*1) /\
  (forall T l, T ∈ tuple -> tp_cache (types s T) = Some l -> T ∈ d'.*1).
Proof.
  revert d. induction tuple as [|type rest IH]; intros d H; simpl in H.
  - inv_run H. split; [auto|]. intros T l HT. inversion HT.
  - apply bind_Ok_inv in H as (p & s1 & Hp & H). inv_run Hp.
    destruct (tp_cache (types s type)) as [l0|] eqn:E.
    + apply IH in H as [Hk Hb]. split.
      * intros T HT. apply Hk, SetItem_keys. auto.
      * intros T l HT Hl. apply elem_of_cons in HT as [->|HT]; [|eauto].
        apply Hk, SetItem_keys. auto.
    + apply IH in H as [Hk Hb]. split; [exact Hk|].
      intros T l HT Hl. apply elem_of_cons in HT as [->|HT]; [congruence|eauto].
Qed.

(** With every [ly_order] equal to 1, a dictionary that is not empty never
    passes [_layout_check_ordered]. *)
Lemma check_ordered_false d s b s' :
  d <> [] ->
  (forall T l L, (T, l) ∈ d -> heap s !! l = Some L -> ly_order L = 1) ->
  _layout_check_ordered (Some d) s = Ok (b, s') -> b = false.
Proof.
  intros Hne Hone H. rewrite check_ordered_Some in H.
  remember (Z.of_nat (length d)) as items eqn:Hitems.
  remember (replicate (Z.to_nat items) 0) as buf eqn:Hbuf.
  destruct d as [|[k1 v1] d]; [congruence|]. clear Hne.
  simpl check_ordered_loop in H.
  apply bind_Ok_inv in H as (L1 & s1 & HL1 & H). inv_run HL1.
  match goal with
  | HL : heap s !! v1 = Some L1 |- _ =>
      rewrite (Hone k1 v1 L1 (list_elem_of_here _ _) HL) in H
  end.
  destruct (1 >=? items) eqn:Hge; [inv_run H; reflexivity|].
  assert (Hlt : 1 < items) by (rewrite Z.geb_leb in Hge; apply Z.leb_gt; exact Hge).
  change (Z.to_nat 1) with 1%nat in H.
  destruct (buf !! 1%nat) as [c|] eqn:Hc; [|discriminate H].
  assert (c = 0) as ->.
  { rewrite Hbuf in Hc. apply lookup_replicate in Hc as [Hc _]. exact Hc. }
  simpl in H.
  destruct d as [|[k2 v2] d]; [simpl in Hitems; lia|].
  simpl check_ordered_loop in H.
  apply bind_Ok_inv in H as (L2 & s2 & HL2 & H). inv_run HL2.
  match goal with
  | HL : heap s !! v2 = Some L2 |- _ =>
      rewrite (Hone k2 v2 L2 (list_elem_of_further _ _ _ (list_elem_of_here _ _)) HL) in H
  end.
  rewrite Hge in H. change (Z.to_nat 1) with 1%nat in H.
  rewrite list_lookup_insert_eq in H
    by (apply lookup_lt_Some in Hc; exact Hc).
  change (to_char (0 + 1) >? 0) with true in H. cbv iota in H.
  inv_run H. reflexivity.
Qed.

Lemma create_frame fuel type bases size id s res s' :
  created s ->
  _PyLayout_Create fuel type bases size id s = Ok (res, s') ->
  types s' = types s /\
  (forall l, (l < length (heap s))%nat -> heap s' !! l = heap s !! l) /\
  ((exists T l, T ∈ bases /\ tp_cache (types s T) = Some l) -> stray s' = stray s).
Proof.
  intros (Hord & Hcache & _) H.
  apply create_unfold in H as [(_ & (Ht & Hh & Hs & _) & _) | H];
    [rewrite Hh; auto|].
  destruct H as (d & ordered & Hc & _ & _ & _ & Hchk & _ & H). simpl in H.
  destruct ordered.
  - apply fill_ordered_fills in H as F.
    apply (fills_new _ _ _ _ eq_refl) in F as (Ht & _ & _ & Ho & _).
    split; [exact Ht|]. split; [exact Ho|].
    intros (T & l & HT & Hl). exfalso.
    apply collect_loop_keys in Hc as [_ Hk]. specialize (Hk T l HT Hl).
    apply check_ordered_false in Hchk; [discriminate| |].
    + intros ->. inversion Hk.
    + intros T0 l0 L0 _ HL0. exact (Hord _ _ HL0).
  - destruct H as (shift & _ & H). apply fill_hash_fills in H as [F St].
    apply (fills_new _ _ _ _ eq_refl) in F as (Ht & _ & _ & Ho & _).
    auto.
Qed.

(** C10. [_PyLayout_Create] does not write to a layout inherited from the
    bases: for every base that has a layout, the whole object (header
    fields and table) is after the call what it was before, and no store
    went astray.  The store is assumed to hold layouts made by
    [_PyLayout_Create] ([created]). *)
Theorem C10_create_leaves_ancestors fuel type bases size id s res s' T l :
  created s ->
  _PyLayout_Create fuel type bases size id s = Ok (res, s') ->
  T ∈ bases -> tp_cache (types s T) = Some l ->
  heap s' !! l = heap s !! l /\ tp_cache (types s' T) = Some l /\
  stray s' = stray s.
Proof.
  intros Hcr H HT Hl.
  pose proof (create_frame _ _ _ _ _ _ _ _ Hcr H) as (Ht & Ho & Hs).
  split; [|split].
  - apply Ho. destruct Hcr as (_ & Hcache & _).
    destruct (Hcache T l Hl) as [L HL]. exact (lookup_lt_Some _ _ _ HL).
  - rewrite Ht. exact Hl.
  - apply Hs. eauto.
Qed.

(** ** Every key placed by [_layout_fill_hash] is found again *)

Lemma hash_scan_mono k k' entries n h T offset :
  hash_scan k entries n h T = Ok (Some offset) -> (k <= k')%nat ->
  hash_scan k' entries n h T = Ok (Some offset).
Proof.
  revert k' h. induction k as [|k IH]; intros k' h H Hle; simpl in H.
  - discriminate.
  - destruct k' as [|k']; [lia|]. simpl.
    destruct (entries !! Z.to_nat h) as [e|]; [|discriminate].
    destruct (decide (le_type e = Some T)); [exact H|].
    apply IH; [exact H | lia].
Qed.

Lemma hash_scan_insert_other k entries n h T offset p e0 key o :
  hash_scan k entries n h T = Ok (Some offset) ->
  entries !! p = Some e0 -> le_type e0 = None -> T <> key ->
  hash_scan k (<[p := mkEntry (Some key) o]> entries) n h T = Ok (Some offset).
Proof.
  intros H Hp He0 Hne. revert h H. induction k as [|k IH]; intros h H; simpl in *.
  - discriminate.
  - destruct (decide (Z.to_nat h = p)) as [Heq|Hneq].
    + rewrite Heq in *. rewrite Hp in H.
      rewrite list_lookup_insert_eq by exact (lookup_lt_Some _ _ _ Hp). simpl.
      destruct (decide (le_type e0 = Some T)) as [Hc|_]; [congruence|].
      destruct (decide (Some key = Some T)) as [Hc|_]; [congruence|].
      apply IH, H.
    + rewrite list_lookup_insert_ne by congruence.
      destruct (entries !! Z.to_nat h) as [e|]; [|discriminate].
      destruct (decide (le_type e = Some T)); [exact H|]. apply IH, H.
Qed.

Lemma probe_scan fuel entries n h cost p c key o :
  probe entry_occupied fuel entries n h cost = Ok (p, c) ->
  (forall i e, entries !! i = Some e -> le_type e <> Some key) ->
  cost <= c /\
  forall k, (Z.to_nat (c - cost) < k)%nat ->
    hash_scan k (<[Z.to_nat p := mkEntry (Some key) o]> entries) n h key = Ok (Some o).
Proof.
  intros H Hfresh. revert h cost H.
  induction fuel as [|fuel IH]; intros h cost H; simpl in H; [discriminate|].
  destruct (entries !! Z.to_nat h) as [x|] eqn:Ex; [|discriminate].
  destruct (entry_occupied x) eqn:Eocc.
  - pose proof (probe_free _ _ _ _ _ _ _ _ H) as (y & Hy & Hfree).
    apply IH in H as [Hle Hscan]. split; [lia|].
    intros k Hk. destruct k as [|k]; [lia|]. simpl.
    assert (Z.to_nat p <> Z.to_nat h) by (intros E; rewrite E in Hy; congruence).
    rewrite list_lookup_insert_ne by assumption. rewrite Ex.
    destruct (decide (le_type x = Some key)) as [Hc|_];
      [exfalso; exact (Hfresh _ _ Ex Hc)|].
    apply Hscan. lia.
  - injection H as <- <-. split; [lia|].
    intros k Hk. destruct k as [|k]; [lia|]. simpl.
    rewrite list_lookup_insert_eq by exact (lookup_lt_Some _ _ _ Ex). simpl.
    destruct (decide (Some key = Some key)); [reflexivity | congruence].
Qed.

Lemma clear_fresh n j :
  clear_entries n (replicate (Z.to_nat n) j)
  = replicate (Z.to_nat n) (mkEntry None (le_offset j)).
Proof.
  unfold clear_entries.
  rewrite take_ge by (rewrite length_replicate; lia).
  rewrite drop_ge by (rewrite length_replicate; lia).
  rewrite app_nil_r.
  exact (fmap_replicate (fun e => mkEntry None (le_offset e)) (Z.to_nat n) j).
Qed.

Lemma fill_hash_loop_inv rest :
  forall placed fuel r hash_size shift base offset s res s',
    NoDup (placed ++ rest).*1 ->
    hash_inv r hash_size shift placed s ->
    fill_hash_loop fuel r rest hash_size shift base offset s = Ok (res, s') ->
    hash_inv r hash_size shift (placed ++ rest) s'.
Proof.
  induction rest as [|[key value] rest IH];
    intros placed fuel r hash_size shift base offset s res s' Hnd Hinv H;
    simpl in H.
  - inv_run H. rewrite app_nil_r. exact Hinv.
  - apply bind_Ok_inv in H as (sub & s1 & Hsub & H). inv_run Hsub.
    apply bind_Ok_inv in H as (L & s1 & HL & H). inv_run HL.
    apply bind_Ok_inv in H as ([p c] & s1 & Hp & H). inv_run Hp.
    apply bind_Ok_inv in H as (u & s1 & Hs & H).
    apply bind_Ok_inv in H as (sub' & s2 & Hsub' & H). inv_run Hsub'.
    apply bind_Ok_inv in H as (u' & s2 & Hst & H).
    match goal with
    | Hx : probe _ _ _ _ _ _ = Ok _ |- _ => rename Hx into Hprobe
    end.
    match goal with
    | Hx : heap s !! value = Some sub |- _ => rename Hx into Hvalue
    end.
    match goal with
    | Hx : heap s !! r = Some L |- _ => rename Hx into HLr
    end.
    (* the key is new *)
    assert (Hkey : key ∉ placed.*1).
    { rewrite fmap_app in Hnd. apply NoDup_app in Hnd as (_ & Hdis & _).
      intros Hin. apply (Hdis _ Hin). simpl. left. }
    (* the state after the update of ly_search *)
    assert (H1 : exists L1, heap s1 !! r = Some L1 /\
               ly_entries L1 = ly_entries L /\ ly_search L <= ly_search L1 /\
               c <= ly_search L1 /\ fills r s s1).
    { destruct (ly_search L <? c) eqn:Hlt.
      - assert (Hk : forall L0, fill_keeps L0 (set_search c L0))
          by (intros L0; repeat split).
        destruct (fills_update _ _ _ _ _ Hk Hs) as [F _].
        apply update_inv in Hs as (l & L0 & E & HL0 & ->). injection E as <-.
        rewrite HLr in HL0. injection HL0 as <-.
        exists (set_search c L). simpl.
        rewrite list_lookup_insert_eq by exact (lookup_lt_Some _ _ _ HLr).
        apply Z.ltb_lt in Hlt.
        split; [reflexivity|]. split; [reflexivity|].
        split; [simpl; lia|]. split; [simpl; lia | exact F].
      - inv_run Hs. exists L. apply Z.ltb_ge in Hlt.
        split; [exact HLr|]. split; [reflexivity|].
        split; [lia|]. split; [lia | apply fills_refl]. }
    destruct H1 as (L1 & HL1 & Hent1 & Hsearch1 & Hc1 & F1).
    pose proof (fills_store_entry _ _ _ _ _ _ Hst) as F2.
    pose proof (fills_trans _ _ _ _ F1 F2) as F.
    pose proof (probe_free _ _ _ _ _ _ _ _ Hprobe) as (e0 & He0 & Hfree).
    assert (He0' : le_type e0 = None).
    { unfold entry_occupied in Hfree. destruct (le_type e0); [discriminate|reflexivity]. }
    destruct Hinv as (L' & HL' & Hkeys & Huniq & Hreach).
    rewrite HLr in HL'. injection HL' as <-.
    assert (Hfresh : forall i e, ly_entries L !! i = Some e -> le_type e <> Some key).
    { intros i e Hi Ht. apply Hkey. exact (Hkeys _ _ _ Hi Ht). }
    apply store_entry_inv in Hst as (L1' & HL1' & [[Hin ->] | [Hout _]]);
      rewrite HL1 in HL1'; injection HL1' as <-;
      [|rewrite Hent1 in Hout; apply lookup_lt_Some in He0; lia].
    rewrite Hent1 in *.
    set (e := mkEntry (Some key) (to_int32 (- base - to_int32 (offset + ly_extensionsize sub')))) in *.
    assert (Hinv2 : hash_inv r hash_size shift (placed ++ [(key, value)])
              (mkState (types s1)
                 (<[r := set_entries (<[Z.to_nat p := e]> (ly_entries L)) L1]> (heap s1))
                 (stray s1) (alloc s1) (exc s1))).
    { exists (set_entries (<[Z.to_nat p := e]> (ly_entries L)) L1). simpl.
      split; [apply list_lookup_insert_eq; exact (lookup_lt_Some _ _ _ HL1)|].
      split; [|split].
      - intros i e' T Hi Ht. rewrite fmap_app. apply elem_of_app.
        destruct (decide (i = Z.to_nat p)) as [->|Hne].
        + rewrite list_lookup_insert_eq in Hi by exact Hin.
          injection Hi as <-. simpl in Ht. injection Ht as <-. right. simpl. left.
        + rewrite list_lookup_insert_ne in Hi by congruence.
          left. exact (Hkeys _ _ _ Hi Ht).
      - intros i j ei ej T Hi Hj Hti Htj.
        destruct (decide (i = Z.to_nat p)) as [->|Hni];
          destruct (decide (j = Z.to_nat p)) as [->|Hnj]; [reflexivity| | |].
        + rewrite list_lookup_insert_eq in Hi by exact Hin. injection Hi as <-.
          rewrite list_lookup_insert_ne in Hj by congruence.
          simpl in Hti. injection Hti as <-. exfalso. exact (Hfresh _ _ Hj Htj).
        + rewrite list_lookup_insert_eq in Hj by exact Hin. injection Hj as <-.
          rewrite list_lookup_insert_ne in Hi by congruence.
          simpl in Htj. injection Htj as <-. exfalso. exact (Hfresh _ _ Hi Hti).
        + rewrite list_lookup_insert_ne in Hi by congruence.
          rewrite list_lookup_insert_ne in Hj by congruence.
          exact (Huniq _ _ _ _ _ Hi Hj Hti Htj).
      - intros T l HT. apply elem_of_app in HT as [HT|HT].
        + destruct (Hreach T l HT) as (TL & off & HTL & Hscan).
          destruct (fills_lookup _ _ _ _ _ F HTL) as (TL2 & HTL2 & K).
          exists TL2, off. split; [exact HTL2|].
          destruct K as (_ & _ & _ & -> & _).
          apply hash_scan_insert_other with (e0 := e0); auto.
          * apply hash_scan_mono with (k := Z.to_nat (ly_search L)); [exact Hscan | lia].
          * intros ->. apply Hkey. apply list_elem_of_fmap. exists (key, l). auto.
        + apply list_elem_of_singleton in HT. injection HT as -> ->.
          destruct (fills_lookup _ _ _ _ _ F Hvalue) as (TL2 & HTL2 & K).
          exists TL2, (le_offset e). split; [exact HTL2|].
          destruct K as (_ & _ & _ & -> & _).
          destruct (probe_scan _ _ _ _ _ _ _ key (le_offset e) Hprobe Hfresh) as [Hle Hscan].
          apply Hscan. lia. }
    replace (placed ++ (key, value) :: rest)
      with ((placed ++ [(key, value)]) ++ rest) in *
      by (rewrite <- app_assoc; reflexivity).
    eapply IH; [exact Hnd | exact Hinv2 | exact H].
Qed.

Lemma fill_hash_inv fuel r type layouts s u s' L0 :
  _layout_fill_hash fuel r type layouts s = Ok (u, s') ->
  NoDup layouts.*1 ->
  heap s !! r = Some L0 ->
  (forall i e, ly_entries L0 !! i = Some e -> le_type e = None) ->
  exists L, heap s' !! r = Some L /\ fill_keeps L0 L /\
    hash_inv r (ob_size L) (ly_shift L) layouts s'.
Proof.
  intros H Hnd HL0 Hempty. unfold _layout_fill_hash in H.
  apply bind_Ok_inv in H as (L & s1 & HL & H). inv_run HL.
  match goal with
  | Hx : heap s !! r = Some L |- _ => rewrite HL0 in Hx; injection Hx as <-
  end.
  apply bind_Ok_inv in H as (base & s1 & Hb & H).
  apply layout_base_inv in Hb as ->.
  apply bind_Ok_inv in H as (offset & s2 & Hl & H).
  pose proof (fill_hash_loop_fills _ _ _ _ _ _ _ _ _ _ Hl) as [F1 _].
  apply (fill_hash_loop_inv layouts []) in Hl; [|exact Hnd|].
  - simpl in Hl. destruct Hl as (L2 & HL2 & Hkeys & Huniq & Hreach).
    assert (Hk : forall L1, fill_keeps L1 (set_allocsize offset L1))
      by (intros L1; repeat split).
    destruct (fills_update _ _ _ _ _ Hk H) as [F2 _].
    apply update_inv in H as (l & L2' & E & HL2' & ->). injection E as <-.
    rewrite HL2 in HL2'. injection HL2' as <-.
    destruct (fills_lookup _ _ _ _ _ F1 HL0) as (L2' & HL2' & K).
    rewrite HL2 in HL2'. injection HL2' as <-.
    exists (set_allocsize offset L2). simpl.
    split; [apply list_lookup_insert_eq; exact (lookup_lt_Some _ _ _ HL2)|].
    split; [exact (fill_keeps_trans _ _ _ K (Hk L2))|].
    exists (set_allocsize offset L2). simpl.
    split; [apply list_lookup_insert_eq; exact (lookup_lt_Some _ _ _ HL2)|].
    split; [exact Hkeys|]. split; [exact Huniq|].
    intros T l HT. destruct (Hreach T l HT) as (TL & off & HTL & Hscan).
    destruct (fills_lookup _ _ _ _ _ F2 HTL) as (TL2 & HTL2 & K2).
    exists TL2, off. split; [exact HTL2|].
    destruct K as (-> & _ & _ & _ & _ & -> & _).
    destruct K2 as (_ & _ & _ & -> & _). exact Hscan.
  - exists L0. split; [exact HL0|]. split; [|split].
    + intros i e T Hi Ht. rewrite (Hempty _ _ Hi) in Ht. discriminate.
    + intros i j ei ej T Hi _ Ht. rewrite (Hempty _ _ Hi) in Ht. discriminate.
    + intros T l HT. inversion HT.
Qed.

Lemma initial_layout_empty al entries size id shift cast i e :
  ly_entries (initial_layout al entries size id shift cast) !! i = Some e ->
  le_type e = None.
Proof.
  simpl. rewrite clear_fresh. intros H.
  apply lookup_replicate in H as [-> _]. reflexivity.
Qed.

(** A hashed layout as [define_type] leaves it: the dictionary that was
    filled in, with the [tp_cache] slot of each of its keys, and the
    invariant of the fill. *)
Lemma define_type_hashed fuel type bases size id s r s' L :
  tp_cache (types s type) = None ->
  define_type fuel type bases size id s = Ok (Some r, s') ->
  heap s' !! r = Some L -> ly_cast L = cast_hash ->
  exists d layouts,
    collect_loop bases [] s = Ok (d, s) /\
    layouts = (if size >? 0 then PyDict_SetItem d type r else d) /\
    tp_cache (types s' type) = Some r /\
    (forall T l, (T, l) ∈ layouts -> tp_cache (types s' T) = Some l) /\
    hash_inv r (ob_size L) (ly_shift L) layouts s'.
Proof.
  intros Hnone H HL Hcast. unfold define_type in H.
  apply bind_Ok_inv in H as (result & s1 & Hc & H).
  apply bind_Ok_inv in H as (u & s2 & Hset & H). inv_run H. subst result.
  apply set_tp_cache_inv in Hset as (Hh & _ & _ & Hty).
  rewrite Hh in HL.
  pose proof (create_result _ _ _ _ _ _ _ _ Hc) as (-> & Htypes & _).
  apply create_unfold in Hc as [[? _] | Hc]; [discriminate|].
  destruct Hc as (d & ordered & Hcol & _ & _ & _ & _ & _ & Hfill). simpl in Hfill.
  destruct ordered.
  { exfalso. apply fill_ordered_fills in Hfill.
    apply (fills_new _ _ _ _ eq_refl) in Hfill as (_ & _ & _ & _ & L' & HL' & K).
    rewrite HL in HL'. injection HL' as <-.
    destruct K as (_ & _ & K & _). simpl in K. congruence. }
  destruct Hfill as (shift & _ & Hfill).
  pose proof (collect_loop_inv _ _ _ _ _ Hcol) as (_ & Hnd & Hd).
  exists d, (if size >? 0 then PyDict_SetItem d type (length (heap s)) else d).
  set (layouts := if size >? 0 then PyDict_SetItem d type (length (heap s)) else d) in *.
  assert (Hnd' : NoDup layouts.*1).
  { unfold layouts. destruct (size >? 0); [apply SetItem_NoDup|];
      apply Hnd; simpl; apply NoDup_nil_2. }
  eapply fill_hash_inv in Hfill as (L' & HL' & _ & Hinv);
    [ | exact Hnd'
      | unfold with_new; simpl; rewrite lookup_app_r by lia;
        rewrite Nat.sub_diag; reflexivity
      | intros j ej; apply initial_layout_empty ].
  rewrite HL in HL'. injection HL' as <-.
  split; [exact Hcol|]. split; [reflexivity|].
  split; [rewrite Hty; destruct (decide (type = type)); [reflexivity|congruence]|].
  split.
  - intros T l HT. rewrite Hty. destruct (decide (T = type)) as [->|Hne].
    + f_equal. unfold layouts in HT. destruct (size >? 0).
      * apply SetItem_elem in HT as [[_ ->]|HT]; [reflexivity|].
        destruct (Hd _ _ HT) as [Hin|Hc]; [inversion Hin | congruence].
      * destruct (Hd _ _ HT) as [Hin|Hc]; [inversion Hin | congruence].
    + rewrite Htypes. unfold layouts in HT. destruct (size >? 0).
      * apply SetItem_elem in HT as [[? _]|HT]; [congruence|].
        destruct (Hd _ _ HT) as [Hin|Hc]; [inversion Hin | exact Hc].
      * destruct (Hd _ _ HT) as [Hin|Hc]; [inversion Hin | exact Hc].
  - unfold hash_inv in *. rewrite Hh. exact Hinv.
Qed.

(** C3. In a layout that [_PyLayout_Create] built in hashed mode, every
    key that was placed (each base with a layout, and the type itself if it
    asks for memory) has a slot; and every slot that names a type lies
    within [ly_search] probe steps (with wrap-around at the table size) of
    the home slot [(ly_id >> ly_shift) % ob_size] of that type, so the
    lookup for that exact type in an object of the new type finds the slot
    and returns the object's address plus the offset stored there. *)
Theorem C3_hashed_entries_within_reach fuel type bases size id s r s' L :
  tp_cache (types s type) = None ->
  define_type fuel type bases size id s = Ok (Some r, s') ->
  heap s' !! r = Some L -> ly_cast L = cast_hash ->
  (forall T,
     (T ∈ bases /\ is_Some (tp_cache (types s T))) \/ (T = type /\ 0 < size) ->
     exists i e, ly_entries L !! i = Some e /\ le_type e = Some T) /\
  (forall i e T,
     ly_entries L !! i = Some e -> le_type e = Some T ->
     (exists tl TL, tp_cache (types s' T) = Some tl /\ heap s' !! tl = Some TL /\
        hash_scan (Z.to_nat (ly_search L)) (ly_entries L) (ob_size L)
          (home (ly_id TL) (ly_shift L) (ob_size L)) T = Ok (Some (le_offset e))) /\
     forall obj, ob_type obj = type ->
       PyObject_GetTypeData obj T s' = Ok (Some (ob_addr obj + le_offset e), s')).
Proof.
  intros Hnone H HL Hcast.
  destruct (define_type_hashed _ _ _ _ _ _ _ _ _ Hnone H HL Hcast)
    as (d & layouts & Hcol & Hlay & Hown & Hcache & L' & HL' & Hkeys & Huniq & Hreach).
  rewrite HL in HL'. injection HL' as <-.
  split.
  - intros T HT.
    assert (Hin : T ∈ layouts.*1).
    { rewrite Hlay. destruct HT as [[HT [l Hl]] | [-> Hsize]].
      - pose proof (collect_loop_keys _ _ _ _ _ Hcol) as [_ Hk].
        specialize (Hk T l HT Hl).
        destruct (size >? 0); [apply SetItem_keys; auto | exact Hk].
      - apply Z.gtb_lt in Hsize. rewrite Hsize. apply SetItem_keys. auto. }
    apply list_elem_of_fmap in Hin as ([T' l] & E & Hin). simpl in E. subst T'.
    destruct (Hreach T l Hin) as (TL & off & _ & Hscan).
    apply hash_scan_hit in Hscan as (j & ej & Hj & Htj & _). eauto.
  - intros i e T Hi Ht.
    pose proof (Hkeys _ _ _ Hi Ht) as HT.
    apply list_elem_of_fmap in HT as ([T' l] & E & HT). simpl in E. subst T'.
    destruct (Hreach T l HT) as (TL & off & HTL & Hscan).
    pose proof (Hcache T l HT) as Htl.
    assert (Hoff : off = le_offset e).
    { pose proof (hash_scan_hit _ _ _ _ _ _ Hscan) as (j & ej & Hj & Htj & Hoj).
      rewrite (Huniq _ _ _ _ _ Hi Hj Ht Htj) in Hi.
      rewrite Hi in Hj. injection Hj as <-. symmetry. exact Hoj. }
    subst off. split; [eauto|].
    intros obj Hobj.
    unfold PyObject_GetTypeData, bind, Py_LAYOUT. rewrite Hobj, Hown, Htl.
    unfold deref. rewrite HL, Hcast. simpl.
    unfold _layout_cast_hash, bind, Py_LAYOUT, deref. rewrite HL, Htl, HTL.
    unfold lift. rewrite Hscan. reflexivity.
Qed.

(** ** The scenarios, evaluated *)

Lemma world_A_run : define_type 4 tA [] 8 4 boot = Ok (Some 0%nat, world_A).
Proof. vm_compute. reflexivity. Qed.

Lemma world_AB_run : define_type 4 tB [tA] 16 0 world_A = Ok (Some 1%nat, world_AB).
Proof. vm_compute. reflexivity. Qed.

Lemma world_ABC_run : define_type 4 tC [tA] 16 5 world_AB = Ok (Some 2%nat, world_ABC).
Proof. vm_compute. reflexivity. Qed.

Lemma created_world_A : created world_A.
Proof. exact (created_define_type _ _ _ _ _ _ _ _ created_boot world_A_run). Qed.

Lemma created_world_AB : created world_AB.
Proof. exact (created_define_type _ _ _ _ _ _ _ _ created_world_A world_AB_run). Qed.

Lemma created_world_ABC : created world_ABC.
Proof. exact (created_define_type _ _ _ _ _ _ _ _ created_world_AB world_ABC_run). Qed.

(** C1, as the code has it.  Type [A] has no bases and asks for 8 bytes:
    the layout is ordered and has one slot, but the slot stays empty (the
    entry for [A], with offset -8, is stored at index [ly_order] = 1, past
    the end), and the lookup of [A] in an object of type [A] returns NULL,
    not the address minus 8.  Type [B(A)], a single-inheritance chain, gets
    a hashed layout, not an ordered one. *)
Theorem C1_single_inheritance_not_served :
  define_type 4 tA [] 8 4 boot = Ok (Some 0%nat, world_A) /\
  heap world_A = [mkLayout 1 8 8 cast_ordered 4 1 0 1 [mkEntry None 0]] /\
  stray world_A = [(0%nat, 1, mkEntry (Some tA) (-8))] /\
  PyObject_GetTypeData (mkObject 1000 tA) tA world_A = Ok (None, world_A) /\
  define_type 4 tB [tA] 16 0 world_A = Ok (Some 1%nat, world_AB) /\
  (ly_cast <$> heap world_AB !! 1%nat) = Some cast_hash.
Proof. vm_compute. repeat split; reflexivity. Qed.

(** C2, as the code has it.  [B(A)] asks for 16 bytes and inherits one
    layout, so the specification's count of slots is 2, and 4 for a hashed
    table; the hashed table that is built has 2. *)
Theorem C2_table_size_is_one_or_two :
  _layout_collect [tA] world_A = Ok (Some [(tA, 0%nat)], world_A) /\
  spec_slots [(tA, 0%nat)] 16 = 2 /\
  define_type 4 tB [tA] 16 0 world_A = Ok (Some 1%nat, world_AB) /\
  (ly_cast <$> heap world_AB !! 1%nat) = Some cast_hash /\
  (ob_size <$> heap world_AB !! 1%nat) = Some 2 /\
  (length <$> (ly_entries <$> heap world_AB !! 1%nat)) = Some 2%nat.
Proof. vm_compute. repeat split; reflexivity. Qed.

(** C4, as the code has it.  The new key is 0 and the one inherited key
    is 4, in a table of two slots.  Shifts 0 and 1 make the two keys
    collide (cost 2), shift 2 does not (cost 1, the number of inherited
    keys), so the search as specified returns 2.  The code returns 1: after
    the pass for shift 0 the dictionary cursor is at the end, the pass for
    shift 1 places no inherited key and its cost is 0, the least of all. *)
Theorem C4_search_stops_visiting_keys :
  let d := [(tA, 0%nat)] in
  _layout_fast_hash 4 d 2 0 world_A = Ok (1, world_A) /\
  spec_search 4 d 2 0 world_A = Ok (2, world_A) /\
  fast_hash_pass 4 d 0 2 0 0 world_A = Ok ((2, 1%nat), world_A) /\
  fast_hash_pass 4 d 0 2 0 1 world_A = Ok ((2, 1%nat), world_A) /\
  fast_hash_pass 4 d 1 2 0 1 world_A = Ok ((0, 1%nat), world_A) /\
  fast_hash_pass 4 d 0 2 0 2 world_A = Ok ((1, 1%nat), world_A) /\
  (ly_shift <$> heap world_AB !! 1%nat) = Some 1.
Proof. vm_compute. repeat split; reflexivity. Qed.

(** ** Two inherited layouts: the search never ends *)

Lemma home_two id shift : home id shift 2 = 0 \/ home id shift 2 = 1.
Proof.
  unfold home. set (x := to_uint32 (Z.shiftr id shift)).
  pose proof (Z.mod_pos_bound x 2 ltac:(lia)) as Hx.
  clearbody x. unfold to_uint32. change (2 ^ 32) with 4294967296.
  rewrite Z.mod_small by lia. lia.
Qed.

(** In a scratch table of two slots that are both taken, the probing loop
    goes round for ever. *)
Lemma probe_full fuel a b position cost :
  a > 0 -> b > 0 -> position = 0 \/ position = 1 ->
  probe buf_occupied fuel [a; b] 2 position cost = Timeout.
Proof.
  intros Ha Hb. revert position cost.
  assert (Hoa : buf_occupied a = true) by (apply Z.gtb_lt; lia).
  assert (Hob : buf_occupied b = true) by (apply Z.gtb_lt; lia).
  induction fuel as [|fuel IH]; intros position cost Hp; [reflexivity|].
  destruct Hp as [-> | ->]; simpl.
  - rewrite Hoa. apply IH. right. reflexivity.
  - rewrite Hob. apply IH. left. reflexivity.
Qed.

(** The first inherited key either is not placed for lack of fuel, or
    takes the slot that the new key left. *)
Lemma probe_second fuel h0 h :
  h0 = 0 \/ h0 = 1 -> h = 0 \/ h = 1 ->
  probe buf_occupied fuel (<[Z.to_nat h0 := 1]> [0; 0]) 2 h 1 = Timeout \/
  exists p c a b,
    probe buf_occupied fuel (<[Z.to_nat h0 := 1]> [0; 0]) 2 h 1 = Ok (p, c) /\
    <[Z.to_nat p := to_char c]> (<[Z.to_nat h0 := 1]> [0; 0]) = [a; b] /\
    a > 0 /\ b > 0.
Proof.
  intros [-> | ->] [-> | ->]; destruct fuel as [|[|fuel]];
    try (left; reflexivity);
    right; simpl; do 4 eexists; (split; [reflexivity|]);
    (split; [reflexivity|]); vm_compute; split; reflexivity.
Qed.

Lemma fast_hash_place_overfull fuel s k1 v1 k2 v2 rest L1 L2 shift h0 cost :
  heap s !! v1 = Some L1 -> heap s !! v2 = Some L2 ->
  h0 = 0 \/ h0 = 1 ->
  fast_hash_place fuel ((k1, v1) :: (k2, v2) :: rest) 2 shift
    (<[Z.to_nat h0 := 1]> [0; 0]) cost s = Timeout.
Proof.
  intros H1 H2 Hh0. simpl. unfold bind at 1, deref at 1. rewrite H1.
  destruct (probe_second fuel h0 (home (ly_id L1) shift 2) Hh0 (home_two _ _))
    as [Ht | (p & c & a & b & Hp & Hbuf & Ha & Hb)].
  - unfold bind, lift. rewrite Ht. reflexivity.
  - unfold bind at 1, lift at 1. rewrite Hp. rewrite Hbuf.
    unfold bind at 1, deref at 1. rewrite H2.
    unfold bind, lift.
    rewrite (probe_full fuel a b _ 1 Ha Hb (home_two _ _)). reflexivity.
Qed.

Lemma fast_hash_overfull fuel s k1 v1 k2 v2 rest L1 L2 id :
  heap s !! v1 = Some L1 -> heap s !! v2 = Some L2 ->
  _layout_fast_hash fuel ((k1, v1) :: (k2, v2) :: rest) 2 id s = Timeout.
Proof.
  intros H1 H2. rewrite fast_hash_Some.
  change (seqZ 0 16) with (0 :: seqZ 1 15). simpl fast_hash_loop.
  apply bind_Timeout. unfold fast_hash_pass. apply bind_Timeout.
  change (replicate (Z.to_nat 2) 0) with [0; 0]. simpl drop.
  eapply fast_hash_place_overfull; eauto using home_two.
Qed.

Lemma check_ordered_total d s :
  d <> [] ->
  (forall T l, (T, l) ∈ d -> exists L, heap s !! l = Some L /\ ly_order L = 1) ->
  _layout_check_ordered (Some d) s = Ok (false, s).
Proof.
  intros Hne Hone.
  assert (Hfalse : forall b s', _layout_check_ordered (Some d) s = Ok (b, s') ->
                                b = false /\ s' = s).
  { intros b s' H. split; [|exact (check_ordered_readonly _ _ _ _ H)].
    apply (check_ordered_false d s b s' Hne); [|exact H].
    intros T l L HT HL. destruct (Hone T l HT) as (L' & HL' & Ho). congruence. }
  destruct (_layout_check_ordered (Some d) s) as [[b s']| |] eqn:E.
  - destruct (Hfalse b s' eq_refl) as [-> ->]. reflexivity.
  - exfalso. revert E. rewrite check_ordered_Some.
    remember (Z.of_nat (length d)) as items eqn:Hitems.
    remember (replicate (Z.to_nat items) 0) as buf eqn:Hbuf.
    destruct d as [|[k1 v1] d]; [congruence|].
    destruct (Hone k1 v1 (list_elem_of_here _ _)) as (L1 & HL1 & Ho1).
    simpl. unfold bind at 1, deref at 1. rewrite HL1, Ho1.
    destruct (1 >=? items) eqn:Hge; [discriminate|].
    assert (Hlt : 1 < items) by (rewrite Z.geb_leb in Hge; apply Z.leb_gt; exact Hge).
    change (Z.to_nat 1) with 1%nat.
    assert (Hc : buf !! 1%nat = Some 0).
    { rewrite Hbuf. apply lookup_replicate_2. lia. }
    rewrite Hc. simpl.
    destruct d as [|[k2 v2] d]; [simpl in Hitems; lia|].
    destruct (Hone k2 v2 (list_elem_of_further _ _ _ (list_elem_of_here _ _)))
      as (L2 & HL2 & Ho2).
    simpl. unfold bind at 1, deref at 1. rewrite HL2, Ho2, Hge.
    change (Z.to_nat 1) with 1%nat.
    rewrite list_lookup_insert_eq by (apply lookup_lt_Some in Hc; exact Hc).
    discriminate.
  - exfalso. revert E. rewrite check_ordered_Some.
    generalize (replicate (Z.to_nat (Z.of_nat (length d))) 0).
    generalize (Z.of_nat (length d)). clear Hne Hfalse.
    induction d as [|[k v] d IH]; intros items buf; simpl; [discriminate|].
    destruct (Hone k v (list_elem_of_here _ _)) as (L & HL & Ho).
    unfold bind at 1, deref at 1. rewrite HL.
    destruct (ly_order L >=? items); [discriminate|].
    destruct (buf !! Z.to_nat (ly_order L)) as [c|]; [|discriminate].
    destruct (c >? 0); [discriminate|].
    apply IH. intros T l HT. apply (Hone T l). right. exact HT.
Qed.

(** A type with two bases that have layouts: [_PyLayout_Create] does not
    return, however many iterations its loops are granted.  The scratch
    table of [_layout_fast_hash] has two slots, and three keys are to be
    placed. *)
Lemma create_two_bases_timeout fuel type bases size id s k1 v1 k2 v2 rest :
  created s ->
  dict_new_fails (alloc s) = false -> newvar_fails (alloc s) = false ->
  collect_loop bases [] s = Ok ((k1, v1) :: (k2, v2) :: rest, s) ->
  0 < to_ssize_t (Z.of_nat (length ((k1, v1) :: (k2, v2) :: rest)) + size) ->
  _PyLayout_Create fuel type bases size id s = Timeout.
Proof.
  intros (Hord & Hcache & _) Hdict Hnew Hcol Hsize.
  pose proof (collect_loop_inv _ _ _ _ _ Hcol) as (_ & _ & Hd).
  assert (Hval : forall T l, (T, l) ∈ (k1, v1) :: (k2, v2) :: rest ->
                   exists L, heap s !! l = Some L /\ ly_order L = 1).
  { intros T l HT. destruct (Hd T l HT) as [Hin|Hc]; [inversion Hin|].
    destruct (Hcache T l Hc) as [L HL]. exists L. split; [exact HL|].
    exact (Hord _ _ HL). }
  destruct (Hval k1 v1 (list_elem_of_here _ _)) as (L1 & HL1 & _).
  destruct (Hval k2 v2 (list_elem_of_further _ _ _ (list_elem_of_here _ _)))
    as (L2 & HL2 & _).
  unfold _PyLayout_Create.
  assert (Hcollect : _layout_collect bases s
                     = Ok (Some ((k1, v1) :: (k2, v2) :: rest), s)).
  { unfold _layout_collect, PyDict_New, bind. rewrite Hdict, Hcol. reflexivity. }
  rewrite (bind_Ok _ _ _ _ _ Hcollect).
  assert (Hsz : PyObject_Size (Some ((k1, v1) :: (k2, v2) :: rest)) s
                = Ok (Z.of_nat (length ((k1, v1) :: (k2, v2) :: rest)), s))
    by reflexivity.
  rewrite (bind_Ok _ _ _ _ _ Hsz).
  apply Z.gtb_lt in Hsize. rewrite Hsize. simpl (1 =? 0). cbv iota.
  assert (Hchk : _layout_check_ordered (Some ((k1, v1) :: (k2, v2) :: rest)) s
                 = Ok (false, s))
    by (apply check_ordered_total; [discriminate | exact Hval]).
  rewrite (bind_Ok _ _ _ _ _ Hchk).
  apply bind_Timeout.
  assert (HNew : PyObject_NewVar (to_uint32 (1 * 2)) s
                 = Ok (Some (length (heap s)), with_new s (fresh_layout (alloc s) 2))).
  { unfold PyObject_NewVar. rewrite Hnew. reflexivity. }
  rewrite (bind_Ok _ _ _ _ _ HNew).
  rewrite (bind_Ok _ _ _ _ _ (update_new _ _ _)).
  apply bind_Timeout.
  apply fast_hash_overfull with (L1 := L1) (L2 := L2); unfold with_new; simpl;
    rewrite lookup_app_l; eauto using lookup_lt_Some.
Qed.

(** C6, as the code has it.  [D(B, C)] with [B(A)] and [C(A)], every type
    with memory of its own: [_PyLayout_Create] for [D] never returns, so no
    layout with an entry for [A] is produced.  (The dictionary it collects
    holds the direct bases [B] and [C] only.) *)
Theorem C6_diamond_never_returns :
  _layout_collect [tB; tC] world_ABC
    = Ok (Some [(tB, 1%nat); (tC, 2%nat)], world_ABC) /\
  forall fuel, _PyLayout_Create fuel tD [tB; tC] 8 7 world_ABC = Timeout.
Proof.
  split; [vm_compute; reflexivity|].
  intros fuel.
  apply create_two_bases_timeout with (k1 := tB) (v1 := 1%nat) (k2 := tC)
    (v2 := 2%nat) (rest := []);
    [exact created_world_ABC | reflexivity | reflexivity
    | vm_compute; reflexivity | vm_compute; reflexivity].
Qed.

(** ** Ordered layouts

    In a store of layouts made by [_PyLayout_Create], a lookup through an
    ordered layout finds nothing, whatever the requested type: the table
    has one slot and every [ly_order] is 1. *)
Lemma ordered_lookup_misses obj type s ol L a s' :
  created s ->
  tp_cache (types s (ob_type obj)) = Some ol -> heap s !! ol = Some L ->
  ly_cast L = cast_ordered ->
  PyObject_GetTypeData obj type s = Ok (a, s') -> a = None.
Proof.
  intros (Hord & _ & Hmode) Hol HL Hcast H.
  unfold PyObject_GetTypeData in H. inv_run H. rewrite Hol in H.
  destruct (tp_cache (types s type)) as [tl|] eqn:Etl; [|inv_run H; reflexivity].
  inv_run H.
  match goal with
  | Hx : heap s !! ol = Some ?L0 |- _ => rewrite HL in Hx; injection Hx as <-
  end.
  rewrite Hcast in H. simpl in H. unfold _layout_cast_ordered in H. inv_run H.
  match goal with
  | Hx : heap s !! ol = Some ?L0 |- _ => rewrite HL in Hx; injection Hx as <-
  end.
  match goal with
  | Hx : heap s !! _ = Some ?TL, Hy : (if ly_order ?TL >=? _ then _ else _) _ = _ |- _ =>
      rewrite (Hord _ _ Hx) in Hy
  end.
  destruct (Hmode _ _ HL) as [[_ Hs] | [Hc _]]; [|congruence].
  rewrite Hs in H. simpl in H. inv_run H. reflexivity.
Qed.

(** ** Allocation failures *)

(** A layout is returned only if both allocations succeeded. *)
Lemma create_needs_allocations fuel type bases size id s r s' :
  _PyLayout_Create fuel type bases size id s = Ok (Some r, s') ->
  dict_new_fails (alloc s) = false /\ newvar_fails (alloc s) = false.
Proof.
  intros H. apply create_unfold in H as [[? _] | H]; [discriminate|].
  destruct H as (d & ordered & _ & Hd & Hn & _). auto.
Qed.

Lemma collect_loop_total tuple d s :
  exists d', collect_loop tuple d s = Ok (d', s).
Proof.
  revert d. induction tuple as [|T rest IH]; intros d; simpl.
  - eexists. reflexivity.
  - unfold bind at 1, Py_LAYOUT at 1.
    destruct (tp_cache (types s T)); apply IH.
Qed.


(** The same call with and without the two allocations.  [B(A)] inherits
    the layout of [A].  When [PyDict_New] fails and [B] asks for no memory
    of its own, NULL comes back with MemoryError pending; when [B] asks for
    16 bytes the call goes on to [_layout_check_ordered] with NULL and
    faults there; when [PyObject_NewVar] fails the first store through
    [result] faults. *)
Lemma create_failure_runs :
  value (_PyLayout_Create 4 tB [tA] 0 0 world_A) = Some (Some 1%nat) /\
  (exists s', _PyLayout_Create 4 tB [tA] 0 0 (no_dict world_A) = Ok (None, s') /\
              exc s' = Some PyExc_MemoryError) /\
  _PyLayout_Create 4 tB [tA] 16 0 (no_dict world_A) = Fault /\
  _PyLayout_Create 4 tB [tA] 0 0 (no_object world_A) = Fault.
Proof.
  split; [vm_compute; reflexivity|]. split; [|split; vm_compute; reflexivity].
  eexists. split; [vm_compute; reflexivity | reflexivity].
Qed.


(** ** Instances *)

Lemma C3_witness :
  (tp_cache (types world_A tB) = None /\
   define_type 4 tB [tA] 16 0 world_A = Ok (Some 1%nat, world_AB)) /\
  PyObject_GetTypeData (mkObject 1000 tB) tA world_AB = Ok (Some 992, world_AB).
Proof.
  split; [split; vm_compute; reflexivity|].
  exact (proj2 (proj2 (C3_hashed_entries_within_reach 4 tB [tA] 16 0 world_A
                  1%nat world_AB
                  (mkLayout 2 24 16 cast_hash 0 1 1 2
                     [mkEntry (Some tA) (-8); mkEntry (Some tB) (-24)])
                  eq_refl world_AB_run eq_refl eq_refl)
                 0%nat (mkEntry (Some tA) (-8)) tA eq_refl eq_refl)
           (mkObject 1000 tB) eq_refl).
Defined.

Lemma C5_witness :
  PyObject_GetTypeData (mkObject 1000 tB) tD world_AB = Ok (None, world_AB) /\
  PyObject_GetTypeData (mkObject 1000 tB) tA world_far = Ok (None, world_far).
Proof.
  split.
  - apply (proj1 (C5_not_found_unless_exact_type (mkObject 1000 tB) tD world_AB)).
    right. vm_compute. reflexivity.
  - apply (proj1 (proj2 (C5_not_found_unless_exact_type (mkObject 1000 tB) tA
                           world_far))
             1%nat 0%nat
             (mkLayout 2 24 16 cast_hash 1 1 0 1
                [mkEntry None 0; mkEntry (Some tA) (-8)])
             (mkLayout 1 8 8 cast_ordered 0 1 0 1 [mkEntry None 0]));
      [reflexivity | reflexivity | reflexivity | reflexivity |].
    intros p Hp. apply list_elem_of_singleton in Hp as ->.
    exists (mkEntry None 0). split; [reflexivity | discriminate].
Defined.


Lemma C8_witness :
  PyObject_GetTypeData (mkObject 1000 tB) tA world_AB = Ok (Some 992, world_AB) /\
  world_AB = world_AB /\
  PyObject_GetTypeData (mkObject 1000 tB) tA world_AB = Ok (Some 992, world_AB).
Proof.
  split; [vm_compute; reflexivity|].
  apply (C8_get_extension_repeatable (mkObject 1000 tB) tA world_AB (Some 992) world_AB).
  vm_compute. reflexivity.
Defined.

Lemma C9_witness :
  exists layouts s1 items s2,
    _layout_collect [tA] world_A = Ok (layouts, s1) /\
    PyObject_Size layouts s1 = Ok (items, s2) /\
    0 < to_ssize_t (items + 16) /\
    exists L,
      heap (after (_PyLayout_Create 4 tB [tA] 16 0) world_A) !! 1%nat = Some L /\
      ly_order L = 1.
Proof.
  apply (C9_order_is_one 4 tB [tA] 16 0 world_A (Some 1%nat)
           (after (_PyLayout_Create 4 tB [tA] 16 0) world_A)).
  vm_compute. reflexivity.
Defined.

Lemma C10_witness :
  heap (after (_PyLayout_Create 4 tB [tA] 16 0) world_A) !! 0%nat
  = heap world_A !! 0%nat /\
  tp_cache (types (after (_PyLayout_Create 4 tB [tA] 16 0) world_A) tA) = Some 0%nat /\
  stray (after (_PyLayout_Create 4 tB [tA] 16 0) world_A) = stray world_A.
Proof.
  apply (C10_create_leaves_ancestors 4 tB [tA] 16 0 world_A (Some 1%nat)
           (after (_PyLayout_Create 4 tB [tA] 16 0) world_A) tA 0%nat).
  - exact created_world_A.
  - vm_compute. reflexivity.
  - left.
  - vm_compute. reflexivity.
Defined.

(** * Further properties of the code *)

(** ** [_layout_base] *)

(** X1. The space reserved in front of an object is a whole number of
    pointers, at least none and at most four; it is none exactly when the
    type has none of the three features; and computing it leaves the state
    alone. *)
Theorem layout_base_bounds type s :
  exists base,
    _layout_base type s = Ok (base, s) /\
    0 <= base <= 4 * sizeof_voidp /\ base mod sizeof_voidp = 0 /\
    (base = 0 <->
       tp_managed_dict (types s type) = false /\
       tp_have_gc (types s type) = false /\
       tp_managed_weakref (types s type) = false).
Proof.
  unfold _layout_base. eexists. split; [reflexivity|].
  destruct (tp_managed_dict (types s type)), (tp_have_gc (types s type)),
    (tp_managed_weakref (types s type)); vm_compute; intuition congruence.
Qed.

(** ** [PyType_GetTypeDataSize] *)

(** X2. After a type was defined, [PyType_GetTypeDataSize] gives the size
    it was defined with if a layout was made for it, and 0 if none was. *)
Theorem data_size_after_define fuel type bases size id s res s' :
  define_type fuel type bases size id s = Ok (res, s') ->
  PyType_GetTypeDataSize type s'
  = Ok (match res with Some _ => size | None => 0 end, s').
Proof.
  intros H. unfold define_type in H.
  apply bind_Ok_inv in H as (result & s1 & Hc & H).
  apply bind_Ok_inv in H as (u & s2 & Hset & H). inv_run H.
  apply set_tp_cache_inv in Hset as (Hh & _ & _ & Hty).
  unfold PyType_GetTypeDataSize, bind, Py_LAYOUT. rewrite Hty.
  destruct (decide (type = type)) as [_|]; [|congruence].
  destruct result as [r|]; [|reflexivity].
  apply create_result in Hc as (_ & _ & _ & _ & _ & L & HL & _ & He & _).
  unfold deref. rewrite Hh, HL. unfold ret. rewrite He. reflexivity.
Qed.

Lemma data_size_after_define_witness :
  define_type 4 tB [tA] 16 0 world_A = Ok (Some 1%nat, world_AB) /\
  PyType_GetTypeDataSize tB world_AB = Ok (16, world_AB).
Proof.
  split; [vm_compute; reflexivity|].
  apply (data_size_after_define 4 tB [tA] 16 0 world_A (Some 1%nat) world_AB).
  vm_compute. reflexivity.
Defined.

(** ** Lookups after another type was defined *)

(** A lookup reads the two [tp_cache] slots and the two layouts behind
    them, nothing else. *)
Lemma get_type_data_ext s s' obj T a s0 :
  tp_cache (types s' (ob_type obj)) = tp_cache (types s (ob_type obj)) ->
  tp_cache (types s' T) = tp_cache (types s T) ->
  (forall l, tp_cache (types s (ob_type obj)) = Some l \/
             tp_cache (types s T) = Some l ->
             heap s' !! l = heap s !! l) ->
  PyObject_GetTypeData obj T s = Ok (a, s0) ->
  PyObject_GetTypeData obj T s' = Ok (a, s').
Proof.
  intros Ho Ht Hh H.
  unfold PyObject_GetTypeData, bind, Py_LAYOUT in *. rewrite Ho, Ht.
  destruct (tp_cache (types s (ob_type obj))) as [ol|] eqn:Eo;
    [|injection H as <- _; reflexivity].
  destruct (tp_cache (types s T)) as [tl|] eqn:Et;
    [|injection H as <- _; reflexivity].
  unfold deref in *. rewrite (Hh ol) by auto.
  destruct (heap s !! ol) as [L|] eqn:EL; [|discriminate].
  destruct (ly_cast L); simpl in *.
  - unfold _layout_cast_ordered, bind, Py_LAYOUT, deref in *.
    rewrite (Hh ol) by auto. rewrite EL in *. rewrite Ht, Et in *.
    rewrite (Hh tl) by auto.
    destruct (heap s !! tl) as [TL|]; [|discriminate].
    destruct (ly_order TL >=? ob_size L); [injection H as <- _; reflexivity|].
    destruct (ly_entries L !! Z.to_nat (ly_order TL)) as [e|]; [|discriminate].
    destruct (decide (le_type e = Some T)); injection H as <- _; reflexivity.
  - unfold _layout_cast_hash, bind, Py_LAYOUT, deref, lift in *.
    rewrite (Hh ol) by auto. rewrite EL in *. rewrite Ht, Et in *.
    rewrite (Hh tl) by auto.
    destruct (heap s !! tl) as [TL|]; [|discriminate].
    destruct (hash_scan _ _ _ _ _) as [[off|]| |]; try discriminate;
      injection H as <- _; reflexivity.
Qed.

(** X3. Defining a type changes no answer about the types that were
    there: for an object of another type and a requested type other than
    the new one, [PyObject_GetTypeData] returns after the definition what
    it returned before, and so does [PyType_GetTypeDataSize]. *)
Theorem define_type_keeps_lookups fuel type bases size id s res s' obj T :
  created s ->
  define_type fuel type bases size id s = Ok (res, s') ->
  ob_type obj <> type -> T <> type ->
  (forall a, PyObject_GetTypeData obj T s = Ok (a, s) ->
             PyObject_GetTypeData obj T s' = Ok (a, s')) /\
  (forall n, PyType_GetTypeDataSize T s = Ok (n, s) ->
             PyType_GetTypeDataSize T s' = Ok (n, s')).
Proof.
  intros Hcr H Hobj HT. unfold define_type in H.
  apply bind_Ok_inv in H as (result & s1 & Hc & H).
  apply bind_Ok_inv in H as (u & s2 & Hset & H). inv_run H.
  apply set_tp_cache_inv in Hset as (Hh & _ & _ & Hty).
  pose proof (create_frame _ _ _ _ _ _ _ _ Hcr Hc) as (Ht & Ho & _).
  assert (Hcache : forall t, t <> type ->
            tp_cache (types s2 t) = tp_cache (types s t)).
  { intros t Hne. rewrite Hty. destruct (decide (t = type)); [congruence|].
    rewrite Ht. reflexivity. }
  assert (Hheap : forall t l, tp_cache (types s t) = Some l ->
            heap s2 !! l = heap s !! l).
  { intros t l Hl. rewrite Hh. apply Ho.
    destruct Hcr as (_ & Hc' & _). destruct (Hc' _ _ Hl) as [L HL].
    exact (lookup_lt_Some _ _ _ HL). }
  split.
  - intros a Ha. apply (get_type_data_ext s s2 obj T a s); auto.
    intros l [Hl|Hl]; eapply Hheap; eauto.
  - intros n Hn. unfold PyType_GetTypeDataSize, bind, Py_LAYOUT, deref in *.
    rewrite (Hcache T HT).
    destruct (tp_cache (types s T)) as [l|] eqn:El.
    + rewrite (Hheap T l El).
      destruct (heap s !! l); [|discriminate].
      unfold ret in *. injection Hn as <-. reflexivity.
    + unfold ret in *. injection Hn as <-. reflexivity.
Qed.

Lemma define_type_keeps_lookups_witness :
  PyObject_GetTypeData (mkObject 1000 tB) tA world_ABC = Ok (Some 992, world_ABC).
Proof.
  apply (proj1 (define_type_keeps_lookups 4 tC [tA] 16 5 world_AB (Some 2%nat)
                  world_ABC (mkObject 1000 tB) tA
                  created_world_AB world_ABC_run
                  ltac:(discriminate) ltac:(discriminate)) (Some 992)).
  vm_compute. reflexivity.
Defined.

(** ** [_layout_collect] *)

Lemma collect_loop_from tuple d s d' s' T l :
  collect_loop tuple d s = Ok (d', s') -> (T, l) ∈ d' ->
  (T, l) ∈ d \/ (T ∈ tuple /\ tp_cache (types s T) = Some l).
Proof.
  revert d. induction tuple as [|type rest IH]; intros d H Hin; simpl in H.
  - inv_run H. auto.
  - apply bind_Ok_inv in H as (p & s1 & Hp & H). inv_run Hp.
    destruct (tp_cache (types s type)) as [l0|] eqn:E.
    + destruct (IH _ H Hin) as [Hd | [HT Hl]].
      * apply SetItem_elem in Hd as [[-> ->] | Hd]; [|auto].
        right. split; [left | exact E].
      * right. split; [right; exact HT | exact Hl].
    + destruct (IH _ H Hin) as [Hd | [HT Hl]]; [auto|].
      right. split; [right; exact HT | exact Hl].
Qed.

Lemma collect_loop_distinct tuple d s :
  NoDup (d.*1 ++ tuple) ->
  collect_loop tuple d s = Ok (d ++ omap (base_entry s) tuple, s).
Proof.
  revert d. induction tuple as [|T rest IH]; intros d Hnd; simpl.
  - rewrite app_nil_r. reflexivity.
  - unfold bind at 1, Py_LAYOUT at 1. unfold base_entry at 1.
    apply NoDup_app in Hnd as (Hd & Hdis & Hrest).
    apply NoDup_cons in Hrest as [HT Hrest].
    assert (HTd : T ∉ d.*1) by (intros Hin; apply (Hdis _ Hin); left).
    destruct (tp_cache (types s T)) as [l|].
    + rewrite (SetItem_fresh _ _ _ HTd). rewrite IH.
      * rewrite <- app_assoc. reflexivity.
      * rewrite fmap_app. simpl. rewrite <- app_assoc. simpl.
        apply NoDup_app. split; [exact Hd|]. split.
        -- intros x Hx Hx'. apply elem_of_cons in Hx' as [->|Hx']; [auto|].
           apply (Hdis _ Hx). right. exact Hx'.
        -- apply NoDup_cons. auto.
    + apply IH. apply NoDup_app. split; [exact Hd|]. split; [|exact Hrest].
      intros x Hx Hx'. apply (Hdis _ Hx). right. exact Hx'.
Qed.

(** X4. When [PyDict_New] succeeds, [_layout_collect] returns, without
    changing the state, a dictionary whose entries are exactly the bases
    that have a layout, each with the layout in its [tp_cache] slot and
    each once, however often it is listed; when no base is listed twice,
    the entries come in the order of the bases. *)
Theorem collect_gathers_bases_with_layout bases s :
  dict_new_fails (alloc s) = false ->
  exists d,
    _layout_collect bases s = Ok (Some d, s) /\
    NoDup d.*1 /\
    (forall T l, (T, l) ∈ d <-> T ∈ bases /\ tp_cache (types s T) = Some l) /\
    (NoDup bases -> d = omap (base_entry s) bases).
Proof.
  intros Hdict. destruct (collect_loop_total bases [] s) as [d Hd].
  exists d. split; [|split; [|split]].
  - unfold _layout_collect, PyDict_New, bind. rewrite Hdict, Hd. reflexivity.
  - apply (collect_loop_inv _ _ _ _ _ Hd). apply NoDup_nil_2.
  - intros T l. split.
    + intros Hin. destruct (collect_loop_from _ _ _ _ _ _ _ Hd Hin) as [Hc|?]; [|auto].
      inversion Hc.
    + intros [HT Hl].
      pose proof (collect_loop_keys _ _ _ _ _ Hd) as [_ Hk].
      specialize (Hk T l HT Hl).
      apply list_elem_of_fmap in Hk as ([T' l'] & E & Hin). simpl in E. subst T'.
      destruct (collect_loop_from _ _ _ _ _ _ _ Hd Hin) as [Hc|[_ Hl']];
        [inversion Hc|].
      rewrite Hl in Hl'. injection Hl' as <-. exact Hin.
  - intros Hnd. pose proof (collect_loop_distinct bases [] s Hnd) as E.
    rewrite Hd in E. injection E as ->. reflexivity.
Qed.

Lemma collect_gathers_bases_with_layout_witness :
  exists d,
    _layout_collect [tB; tD; tA; tB] world_AB = Ok (Some d, world_AB) /\
    NoDup d.*1 /\
    (forall T l, (T, l) ∈ d <->
       T ∈ [tB; tD; tA; tB] /\ tp_cache (types world_AB T) = Some l) /\
    (NoDup [tB; tD; tA; tB] -> d = omap (base_entry world_AB) [tB; tD; tA; tB]).
Proof.
  apply (collect_gathers_bases_with_layout [tB; tD; tA; tB] world_AB).
  reflexivity.
Defined.

(** ** [_layout_check_ordered] *)

Lemma check_ordered_loop_spec rest orders items buf s :
  orders_of s rest orders ->
  length buf = Z.to_nat items ->
  (forall i c, buf !! i = Some c -> c = 0 \/ c = 1) ->
  exists b,
    check_ordered_loop rest items buf s = Ok (b, s) /\
    (b = true <->
       NoDup orders /\
       forall o, o ∈ orders -> o < items /\ buf !! Z.to_nat o = Some 0).
Proof.
  intros Hord. revert buf.
  induction Hord as [|[k v] o rest orders (L & HL & Ho & Hpos) Hrest IH];
    intros buf Hlen Hbits; simpl.
  - exists true. split; [reflexivity|]. split; [|reflexivity].
    intros _. split; [apply NoDup_nil_2|]. intros o Hin. inversion Hin.
  - unfold bind at 1, deref at 1. simpl in HL. rewrite HL, Ho.
    destruct (o >=? items) eqn:Hge.
    { exists false. split; [reflexivity|]. split; [discriminate|].
      intros [_ Hall]. destruct (Hall o) as [Hlt _]; [left|].
      rewrite Z.geb_leb in Hge. apply Z.leb_le in Hge. lia. }
    assert (Hlt : o < items)
      by (rewrite Z.geb_leb in Hge; apply Z.leb_gt in Hge; exact Hge).
    destruct (buf !! Z.to_nat o) as [c|] eqn:Hc;
      [|apply lookup_ge_None in Hc; lia].
    destruct (Hbits _ _ Hc) as [-> | ->].
    + change (0 >? 0) with false. cbv iota. change (to_char (0 + 1)) with 1.
      destruct (IH (<[Z.to_nat o := 1]> buf)) as (b & Hb & Hiff).
      * rewrite length_insert. exact Hlen.
      * intros i c Hi. destruct (decide (i = Z.to_nat o)) as [->|Hne].
        -- rewrite list_lookup_insert_eq in Hi by (apply lookup_lt_Some in Hc; exact Hc).
           injection Hi as <-. auto.
        -- rewrite list_lookup_insert_ne in Hi by congruence. eauto.
      * exists b. split; [exact Hb|]. rewrite Hiff. clear Hiff Hb IH.
        assert (Hnn : forall o', o' ∈ orders -> 0 <= o').
        { clear -Hrest. induction Hrest as [|kv o' ? ? (L' & _ & _ & Hp) ? IH'];
            intros x Hx; [inversion Hx|].
          apply elem_of_cons in Hx as [->|Hx]; [exact Hp | exact (IH' _ Hx)]. }
        split.
        -- intros [Hnd Hall]. split.
           ++ apply NoDup_cons. split; [|exact Hnd].
              intros Hin. destruct (Hall _ Hin) as [_ Hz].
              rewrite list_lookup_insert_eq in Hz
                by (apply lookup_lt_Some in Hc; exact Hc).
              discriminate.
           ++ intros o' Hin. apply elem_of_cons in Hin as [->|Hin]; [auto|].
              destruct (Hall _ Hin) as [Hlt' Hz]. split; [exact Hlt'|].
              destruct (decide (Z.to_nat o' = Z.to_nat o)) as [E|Hne].
              ** rewrite E in Hz. rewrite list_lookup_insert_eq in Hz
                   by (apply lookup_lt_Some in Hc; exact Hc).
                 discriminate.
              ** rewrite list_lookup_insert_ne in Hz by congruence. exact Hz.
        -- intros [Hnd Hall]. apply NoDup_cons in Hnd as [Hnotin Hnd].
           split; [exact Hnd|]. intros o' Hin.
           destruct (Hall o') as [Hlt' Hz]; [right; exact Hin|].
           split; [exact Hlt'|].
           rewrite list_lookup_insert_ne; [exact Hz|].
           intros E. apply Hnotin.
           assert (o = o') as -> by (pose proof (Hnn _ Hin); lia). exact Hin.
    + change (1 >? 0) with true. cbv iota.
      exists false. split; [reflexivity|]. split; [discriminate|].
      intros [_ Hall]. destruct (Hall o) as [_ Hz]; [left|]. congruence.
Qed.

(** X5. [_layout_check_ordered] answers 1 exactly when the [ly_order]
    fields of the layouts in the dictionary are all different and all
    below the number of entries; it answers 0 otherwise, and leaves the
    state alone. *)
Theorem check_ordered_iff_distinct_in_range d orders s :
  orders_of s d orders ->
  exists b,
    _layout_check_ordered (Some d) s = Ok (b, s) /\
    (b = true <->
       NoDup orders /\ forall o, o ∈ orders -> o < Z.of_nat (length d)).
Proof.
  intros Hord. rewrite check_ordered_Some.
  destruct (check_ordered_loop_spec d orders (Z.of_nat (length d))
              (replicate (Z.to_nat (Z.of_nat (length d))) 0) s Hord)
    as (b & Hb & Hiff).
  - apply length_replicate.
  - intros i c Hi. apply lookup_replicate in Hi as [-> _]. auto.
  - exists b. split; [exact Hb|]. rewrite Hiff. split.
    + intros [Hnd Hall]. split; [exact Hnd|]. intros o Ho. apply (Hall o Ho).
    + intros [Hnd Hall]. split; [exact Hnd|]. intros o Ho.
      split; [exact (Hall o Ho)|].
      apply lookup_replicate_2.
      assert (0 <= o).
      { clear -Hord Ho. induction Hord as [|kv o' ? ? (L' & _ & _ & Hp) ? IH'];
          [inversion Ho|].
        apply elem_of_cons in Ho as [->|Ho]; [exact Hp | exact (IH' Ho)]. }
      specialize (Hall o Ho). lia.
Qed.

Lemma check_ordered_iff_distinct_in_range_witness :
  exists b,
    _layout_check_ordered (Some [(tA, 0%nat); (tB, 1%nat)]) world_AB = Ok (b, world_AB) /\
    (b = true <->
       NoDup [1; 1] /\
       forall o, o ∈ [1; 1] -> o < Z.of_nat (length [(tA, 0%nat); (tB, 1%nat)])).
Proof.
  apply (check_ordered_iff_distinct_in_range [(tA, 0%nat); (tB, 1%nat)] [1; 1] world_AB).
  unfold orders_of.
  constructor; [|constructor; [|constructor]].
  - exists (mkLayout 1 8 8 cast_ordered 4 1 0 1 [mkEntry None 0]).
    split; [vm_compute; reflexivity|]. split; [reflexivity | lia].
  - exists (mkLayout 2 24 16 cast_hash 0 1 1 2
              [mkEntry (Some tA) (-8); mkEntry (Some tB) (-24)]).
    split; [vm_compute; reflexivity|]. split; [reflexivity | lia].
Defined.

(** ** Which cast function [_PyLayout_Create] chooses *)

Lemma create_cast fuel type bases size id s r s' L :
  _PyLayout_Create fuel type bases size id s = Ok (Some r, s') ->
  heap s' !! r = Some L ->
  exists d ordered,
    collect_loop bases [] s = Ok (d, s) /\
    _layout_check_ordered (Some d) s = Ok (ordered, s) /\
    ly_cast L = (if ordered then cast_ordered else cast_hash).
Proof.
  intros H HL.
  pose proof (create_result _ _ _ _ _ _ _ _ H) as (-> & _).
  apply create_unfold in H as [[? _] | H]; [discriminate|].
  destruct H as (d & ordered & Hcol & _ & _ & _ & Hchk & _ & Hfill).
  exists d, ordered. split; [exact Hcol|]. split; [exact Hchk|].
  simpl in Hfill. destruct ordered.
  - apply fill_ordered_fills in Hfill.
    apply (fills_new _ _ _ _ eq_refl) in Hfill as (_ & _ & _ & _ & L' & HL' & K).
    rewrite HL in HL'. injection HL' as <-. destruct K as (_ & _ & K & _). exact K.
  - destruct Hfill as (shift & _ & Hfill). apply fill_hash_fills in Hfill as [Hfill _].
    apply (fills_new _ _ _ _ eq_refl) in Hfill as (_ & _ & _ & _ & L' & HL' & K).
    rewrite HL in HL'. injection HL' as <-. destruct K as (_ & _ & K & _). exact K.
Qed.

(** X6. In a store of layouts made by [_PyLayout_Create], the new layout
    gets the ordered cast function exactly when no base of the type has a
    layout; a type with a base that has one always gets the hashed
    function. *)
Theorem create_ordered_iff_no_base_layout fuel type bases size id s r s' L :
  created s ->
  _PyLayout_Create fuel type bases size id s = Ok (Some r, s') ->
  heap s' !! r = Some L ->
  (ly_cast L = cast_ordered <->
   forall T, T ∈ bases -> tp_cache (types s T) = None).
Proof.
  intros (Hord & _ & _) H HL.
  destruct (create_cast _ _ _ _ _ _ _ _ _ H HL) as (d & ordered & Hcol & Hchk & Hcast).
  rewrite Hcast. destruct d as [|[k v] d].
  - assert (ordered = true) as ->.
    { vm_compute in Hchk. injection Hchk as <-. reflexivity. }
    split; [|reflexivity]. intros _ T HT.
    destruct (tp_cache (types s T)) as [l|] eqn:El; [|reflexivity].
    pose proof (collect_loop_keys _ _ _ _ _ Hcol) as [_ Hk].
    specialize (Hk T l HT El). inversion Hk.
  - assert (ordered = false) as ->.
    { apply (check_ordered_false ((k, v) :: d) s ordered s); [discriminate | | exact Hchk].
      intros T l L0 _ HL0. exact (Hord _ _ HL0). }
    split; [discriminate|]. intros Hnone. exfalso.
    destruct (collect_loop_from _ _ _ _ _ k v Hcol (list_elem_of_here _ _))
      as [Hc | [Hk Hl]]; [inversion Hc|].
    rewrite (Hnone k Hk) in Hl. discriminate.
Qed.

Lemma create_ordered_iff_no_base_layout_witness :
  ly_cast (mkLayout 2 24 16 cast_hash 0 1 1 2
             [mkEntry (Some tA) (-8); mkEntry (Some tB) (-24)]) = cast_ordered <->
  forall T, T ∈ [tA] -> tp_cache (types world_A T) = None.
Proof.
  apply (create_ordered_iff_no_base_layout 4 tB [tA] 16 0 world_A 1%nat
           (after (_PyLayout_Create 4 tB [tA] 16 0) world_A)).
  - exact created_world_A.
  - vm_compute. reflexivity.
  - vm_compute. reflexivity.
Defined.

(** ** What a table can name *)

Lemma fill_ordered_loop_keys r rest base offset s res s' L keys :
  fill_ordered_loop r rest base offset s = Ok (res, s') ->
  heap s !! r = Some L -> table_keys_in (ly_entries L) keys ->
  exists L', heap s' !! r = Some L' /\
    table_keys_in (ly_entries L') (keys ++ rest.*1).
Proof.
  revert offset s L keys.
  induction rest as [|[key value] rest IH]; intros offset s L keys H HL Hk; simpl in H.
  - inv_run H. exists L. rewrite app_nil_r. auto.
  - apply bind_Ok_inv in H as (sub & s1 & Hsub & H). inv_run Hsub.
    apply bind_Ok_inv in H as (u & s1 & Hst & H).
    apply store_entry_inv in Hst as (L1 & HL1 & Hcase).
    rewrite HL in HL1. injection HL1 as <-.
    replace (keys ++ ((key, value) :: rest).*1)
      with ((keys ++ [key]) ++ rest.*1) by (rewrite <- app_assoc; reflexivity).
    destruct Hcase as [[Hin ->] | [Hout ->]].
    + eapply IH; [exact H | |].
      * simpl. apply list_lookup_insert_eq. exact (lookup_lt_Some _ _ _ HL).
      * simpl. intros i e T Hi Ht. apply elem_of_app.
        destruct (decide (i = Z.to_nat (ly_order sub))) as [->|Hne].
        -- rewrite list_lookup_insert_eq in Hi by exact Hin.
           injection Hi as <-. simpl in Ht. injection Ht as <-. right. left.
        -- rewrite list_lookup_insert_ne in Hi by congruence.
           left. exact (Hk _ _ _ Hi Ht).
    + eapply IH; [exact H | exact HL |].
      intros i e T Hi Ht. apply elem_of_app. left. exact (Hk _ _ _ Hi Ht).
Qed.

(** The types named by the table of a new layout are keys of the
    dictionary that was filled in. *)
Lemma create_table_keys fuel type bases size id s r s' L i e T :
  _PyLayout_Create fuel type bases size id s = Ok (Some r, s') ->
  heap s' !! r = Some L ->
  ly_entries L !! i = Some e -> le_type e = Some T ->
  (T = type /\ 0 < size) \/ (T ∈ bases /\ tp_cache (types s T) <> None).
Proof.
  intros H HL Hi Ht.
  pose proof (create_result _ _ _ _ _ _ _ _ H) as (-> & _).
  apply create_unfold in H as [[? _] | H]; [discriminate|].
  destruct H as (d & ordered & Hcol & _ & _ & _ & _ & _ & Hfill). simpl in Hfill.
  pose proof (collect_loop_inv _ _ _ _ _ Hcol) as (_ & Hnd & _).
  set (layouts := if size >? 0 then PyDict_SetItem d type (length (heap s)) else d) in *.
  assert (Hkeys : table_keys_in (ly_entries L) layouts.*1).
  { destruct ordered.
    - unfold _layout_fill_ordered in Hfill.
      apply bind_Ok_inv in Hfill as (base & s1 & Hb & Hfill).
      apply layout_base_inv in Hb as ->.
      apply bind_Ok_inv in Hfill as (offset & s2 & Hl & Hfill).
      eapply (fill_ordered_loop_keys _ _ _ _ _ _ _ _ []) in Hl as (L' & HL' & Hk);
        [ | unfold with_new; simpl; rewrite lookup_app_r by lia;
            rewrite Nat.sub_diag; reflexivity
          | intros j ej Tj Hj Htj;
            rewrite (initial_layout_empty _ _ _ _ _ _ _ _ Hj) in Htj; discriminate ].
      apply update_inv in Hfill as (l & L2 & E & HL2 & ->). injection E as <-.
      rewrite HL' in HL2. injection HL2 as <-. simpl in HL.
      rewrite list_lookup_insert_eq in HL by exact (lookup_lt_Some _ _ _ HL').
      injection HL as <-. exact Hk.
    - destruct Hfill as (shift & _ & Hfill).
      eapply fill_hash_inv in Hfill as (L' & HL' & _ & L'' & HL'' & Hk & _);
        [ | unfold layouts; destruct (size >? 0); [apply SetItem_NoDup|];
            apply Hnd; simpl; apply NoDup_nil_2
          | unfold with_new; simpl; rewrite lookup_app_r by lia;
            rewrite Nat.sub_diag; reflexivity
          | intros j ej; apply initial_layout_empty ].
      rewrite HL in HL''. injection HL'' as <-. exact Hk. }
  pose proof (Hkeys _ _ _ Hi Ht) as HT.
  assert (Hd : T ∈ d.*1 -> T ∈ bases /\ tp_cache (types s T) <> None).
  { intros Hin. apply list_elem_of_fmap in Hin as ([T' l] & E & Hin).
    simpl in E. subst T'.
    destruct (collect_loop_from _ _ _ _ _ _ _ Hcol Hin) as [Hc | [HTb Hl]];
      [inversion Hc|]. split; [exact HTb | congruence]. }
  unfold layouts in HT. destruct (size >? 0) eqn:Hsize.
  - apply SetItem_keys in HT as [-> | HT]; [|auto].
    left. split; [reflexivity|]. apply Z.gtb_lt in Hsize. lia.
  - auto.
Qed.

(** X7. Whatever the allocator left in the new memory, each slot of the
    table of a layout returned by [_PyLayout_Create] is empty or names a
    base of the type that has a layout, or the type itself when it asked
    for memory. *)
Theorem create_names_only_bases_and_self fuel type bases size id s r s' L i e :
  _PyLayout_Create fuel type bases size id s = Ok (Some r, s') ->
  heap s' !! r = Some L -> ly_entries L !! i = Some e ->
  le_type e = None \/
  le_type e = Some type /\ 0 < size \/
  exists T, le_type e = Some T /\ T ∈ bases /\ tp_cache (types s T) <> None.
Proof.
  intros H HL Hi. destruct (le_type e) as [T|] eqn:Ht; [|auto]. right.
  destruct (create_table_keys _ _ _ _ _ _ _ _ _ _ _ _ H HL Hi Ht) as [[-> Hs] | HT];
    [auto | eauto].
Qed.

Lemma create_names_only_bases_and_self_witness :
  le_type (mkEntry (Some tA) (-8)) = None \/
  le_type (mkEntry (Some tA) (-8)) = Some tB /\ 0 < 16 \/
  exists T, le_type (mkEntry (Some tA) (-8)) = Some T /\ T ∈ [tA] /\
            tp_cache (types world_A T) <> None.
Proof.
  apply (create_names_only_bases_and_self 4 tB [tA] 16 0 world_A 1%nat
           (after (_PyLayout_Create 4 tB [tA] 16 0) world_A)
           (mkLayout 2 24 16 cast_hash 0 1 1 2
              [mkEntry (Some tA) (-8); mkEntry (Some tB) (-24)])
           0%nat (mkEntry (Some tA) (-8))).
  - vm_compute. reflexivity.
  - vm_compute. reflexivity.
  - reflexivity.
Defined.

(** X8. In an object of a newly defined type, a lookup finds memory only
    for the type itself and for its direct bases that have a layout: for
    any other requested type (a base of a base, say) the answer is NULL. *)
Theorem lookup_reaches_direct_bases_only fuel type bases size id s r s' obj T a s0 :
  define_type fuel type bases size id s = Ok (Some r, s') ->
  ob_type obj = type ->
  T <> type -> (T ∈ bases -> tp_cache (types s T) = None) ->
  PyObject_GetTypeData obj T s' = Ok (a, s0) -> a = None.
Proof.
  intros H Hobj Hne Hbase Hget. unfold define_type in H.
  apply bind_Ok_inv in H as (result & s1 & Hc & H).
  apply bind_Ok_inv in H as (u & s2 & Hset & H). inv_run H. subst result.
  apply set_tp_cache_inv in Hset as (Hh & _ & _ & Hty).
  destruct a as [a|]; [exfalso|reflexivity].
  unfold PyObject_GetTypeData in Hget. inv_run Hget.
  rewrite Hobj, Hty in Hget. destruct (decide (type = type)); [|congruence].
  destruct (tp_cache (types s2 T)) as [tl|]; [|inv_run Hget].
  inv_run Hget.
  assert (Hhit : exists L i e, heap s2 !! r = Some L /\
            ly_entries L !! i = Some e /\ le_type e = Some T).
  { match type of Hget with
    | call_cast (ly_cast ?L0) _ _ _ _ = _ => destruct (ly_cast L0); simpl in Hget
    end.
    - apply cast_ordered_hit in Hget as (L & i & e0 & ? & ? & ? & _).
      exists L, i, e0. auto.
    - apply cast_hash_hit in Hget as (L & i & e0 & ? & ? & ? & _).
      exists L, i, e0. auto. }
  destruct Hhit as (L & i & e0 & HL & Hi & Ht). rewrite Hh in HL.
  destruct (create_table_keys _ _ _ _ _ _ _ _ _ _ _ _ Hc HL Hi Ht)
    as [[-> _] | [HT Hl]]; [congruence|].
  apply Hl, Hbase, HT.
Qed.

Lemma lookup_reaches_direct_bases_only_witness :
  PyObject_GetTypeData (mkObject 1000 tC) tB world_ABC = Ok (None, world_ABC) /\
  None = (None : option Z).
Proof.
  split; [vm_compute; reflexivity|].
  apply (lookup_reaches_direct_bases_only 4 tC [tA] 16 5 world_AB 2%nat world_ABC
           (mkObject 1000 tC) tB None world_ABC).
  - exact world_ABC_run.
  - reflexivity.
  - discriminate.
  - intros Hin. apply list_elem_of_singleton in Hin. discriminate.
  - vm_compute. reflexivity.
Defined.

(** ** What [_layout_fast_hash] returns *)

Lemma probe_cost_le {X} (occupied : X -> bool) fuel table size position cost p c :
  probe occupied fuel table size position cost = Ok (p, c) -> cost <= c.
Proof.
  revert position cost. induction fuel as [|fuel IH]; intros position cost; simpl.
  - discriminate.
  - destruct (table !! Z.to_nat position) as [x|]; [|discriminate].
    destruct (occupied x).
    + intros H. apply IH in H. lia.
    + intros H. injection H as _ <-. lia.
Qed.

Lemma fast_hash_place_cost fuel rest hash_size shift buf cost s buf' cost' s' :
  fast_hash_place fuel rest hash_size shift buf cost s = Ok ((buf', cost'), s') ->
  cost + Z.of_nat (length rest) <= cost'.
Proof.
  revert buf cost. induction rest as [|[k v] rest IH]; intros buf cost H; simpl in H.
  - inv_run H. injection E as _ <-. simpl. lia.
  - apply bind_Ok_inv in H as (L & s1 & HL & H). inv_run HL.
    apply bind_Ok_inv in H as ([p c] & s1 & Hp & H). inv_run Hp.
    match goal with
    | Hx : probe _ _ _ _ _ _ = Ok _ |- _ => apply probe_cost_le in Hx
    end.
    apply IH in H. simpl length. lia.
Qed.

Lemma fast_hash_pass_spent fuel layouts hash_size id shift s :
  fast_hash_pass fuel layouts (length layouts) hash_size id shift s
  = Ok ((0, length layouts), s).
Proof.
  unfold fast_hash_pass. rewrite drop_all. simpl. unfold bind, ret. simpl.
  rewrite Nat.max_id. reflexivity.
Qed.

Lemma fast_hash_loop_cons fuel shift shifts layouts pos hash_size id items best best_cost :
  fast_hash_loop fuel (shift :: shifts) layouts pos hash_size id items best best_cost
  = (let* cp := fast_hash_pass fuel layouts pos hash_size id shift in
     let '(cost, pos) := cp in
     if cost =? items then ret shift
     else if cost <? best_cost
          then fast_hash_loop fuel shifts layouts pos hash_size id items shift cost
          else fast_hash_loop fuel shifts layouts pos hash_size id items best best_cost).
Proof. reflexivity. Qed.

Lemma fast_hash_loop_spent fuel shifts layouts hash_size id best s :
  layouts <> [] ->
  fast_hash_loop fuel shifts layouts (length layouts) hash_size id
    (Z.of_nat (length layouts)) best 0 s = Ok (best, s).
Proof.
  intros Hne. induction shifts as [|shift shifts IH]; [reflexivity|].
  rewrite fast_hash_loop_cons.
  rewrite (bind_Ok _ _ _ _ _ (fast_hash_pass_spent _ _ _ _ _ _)).
  assert ((0 =? Z.of_nat (length layouts)) = false) as ->.
  { apply Z.eqb_neq. destruct layouts; [congruence | simpl length; lia]. }
  change (0 <? 0) with false. cbv iota. exact IH.
Qed.

(** X9. Whenever [_layout_fast_hash] returns, for a table of at least one
    slot, it returns 0 or 1 and leaves the state alone: 0 when the pass for
    shift 0 placed every inherited key at no more than one probe each (its
    cost is the number of keys), and 1 otherwise.  No later shift is ever
    chosen. *)
Theorem fast_hash_returns_zero_or_one fuel layouts hash_size id s shift s' :
  0 < hash_size ->
  _layout_fast_hash fuel layouts hash_size id s = Ok (shift, s') ->
  s' = s /\
  exists cost,
    fast_hash_pass fuel layouts 0 hash_size id 0 s = Ok ((cost, length layouts), s) /\
    Z.of_nat (length layouts) <= cost /\
    shift = (if cost =? Z.of_nat (length layouts) then 0 else 1).
Proof.
  intros Hsize H.
  pose proof (fast_hash_readonly _ _ _ _ _ _ _ H) as ->. split; [reflexivity|].
  rewrite fast_hash_Some in H.
  change (seqZ 0 16) with (0 :: 1 :: seqZ 2 14) in H.
  rewrite fast_hash_loop_cons in H.
  apply bind_Ok_inv in H as ([cost pos] & s1 & Hpass & H).
  pose proof (fast_hash_pass_readonly _ _ _ _ _ _ _ _ _ Hpass) as ->.
  assert (Hpos : pos = length layouts /\ Z.of_nat (length layouts) <= cost).
  { unfold fast_hash_pass in Hpass.
    apply bind_Ok_inv in Hpass as ([buf c] & s1 & Hplace & Hret).
    apply fast_hash_place_cost in Hplace. rewrite drop_0 in Hplace.
    apply ret_Ok_inv in Hret as [E _]. simpl in E.
    injection E as -> ->. split; [reflexivity | lia]. }
  destruct Hpos as [-> Hcost].
  exists cost. split; [exact Hpass|]. split; [exact Hcost|].
  destruct (cost =? Z.of_nat (length layouts)) eqn:Heq;
    [unfold ret in H; injection H as <-; reflexivity|].
  apply Z.eqb_neq in Heq.
  assert (Hne : layouts <> []).
  { intros ->. unfold fast_hash_pass, bind, ret in Hpass. simpl in Hpass.
    injection Hpass as <-. simpl in Heq. lia. }
  assert (Hitems : (0 =? Z.of_nat (length layouts)) = false).
  { apply Z.eqb_neq. destruct layouts; [congruence | simpl length; lia]. }
  assert (Hspent : forall best best_cost,
            0 < best_cost ->
            fast_hash_loop fuel (1 :: seqZ 2 14) layouts (length layouts) hash_size id
              (Z.of_nat (length layouts)) best best_cost s = Ok (1, s)).
  { intros best best_cost Hb. rewrite fast_hash_loop_cons.
    rewrite (bind_Ok _ _ _ _ _ (fast_hash_pass_spent _ _ _ _ _ _)).
    rewrite Hitems.
    assert ((0 <? best_cost) = true) as -> by (apply Z.ltb_lt; exact Hb).
    apply fast_hash_loop_spent. exact Hne. }
  destruct (cost <? hash_size);
    rewrite Hspent in H by lia; injection H as <-; reflexivity.
Qed.

Lemma fast_hash_returns_zero_or_one_witness :
  world_A = world_A /\
  exists cost,
    fast_hash_pass 4 [(tA, 0%nat)] 0 2 0 0 world_A
      = Ok ((cost, length [(tA, 0%nat)]), world_A) /\
    Z.of_nat (length [(tA, 0%nat)]) <= cost /\
    1 = (if cost =? Z.of_nat (length [(tA, 0%nat)]) then 0 else 1).
Proof.
  apply (fast_hash_returns_zero_or_one 4 [(tA, 0%nat)] 2 0 world_A 1 world_A).
  - lia.
  - vm_compute. reflexivity.
Defined.

(** ** Lookups never go wrong *)

Lemma well_sized_boot : well_sized boot.
Proof. intros l L H. destruct l; discriminate H. Qed.

Lemma well_sized_define_type fuel type bases size id s res s' :
  well_sized s -> define_type fuel type bases size id s = Ok (res, s') ->
  well_sized s'.
Proof.
  intros Hws H. unfold define_type in H.
  apply bind_Ok_inv in H as (result & s1 & Hc & H).
  apply bind_Ok_inv in H as (u & s2 & Hset & H). inv_run H.
  apply set_tp_cache_inv in Hset as (Hh & _).
  intros l L HL. rewrite Hh in HL.
  destruct result as [r|];
    [|apply create_absent in Hc as (_ & Hh1 & _ & _); rewrite Hh1 in HL;
      exact (Hws _ _ HL)].
  pose proof (create_result _ _ _ _ _ _ _ _ Hc) as (-> & _ & _ & Hlen & Ho & _).
  destruct (decide (l < length (heap s))%nat) as [Hlt|Hge].
  { rewrite Ho in HL by exact Hlt. exact (Hws _ _ HL). }
  apply lookup_lt_Some in HL as Hlt.
  assert (l = length (heap s)) as -> by lia.
  apply create_unfold in Hc as [[? _] | Hc]; [discriminate|].
  destruct Hc as (d & ordered & _ & _ & _ & _ & _ & _ & Hfill). simpl in Hfill.
  assert (Hinit : forall n sz i sh c,
            length (ly_entries (initial_layout (alloc s) n sz i sh c))
            = Z.to_nat (ob_size (initial_layout (alloc s) n sz i sh c))).
  { intros. simpl. rewrite clear_fresh. apply length_replicate. }
  destruct ordered.
  - apply fill_ordered_fills in Hfill.
    apply (fills_new _ _ _ _ eq_refl) in Hfill as (_ & _ & _ & _ & L' & HL' & K).
    rewrite HL in HL'. injection HL' as <-.
    destruct K as (-> & _ & _ & _ & _ & _ & ->). apply Hinit.
  - destruct Hfill as (shift & _ & Hfill). apply fill_hash_fills in Hfill as [Hfill _].
    apply (fills_new _ _ _ _ eq_refl) in Hfill as (_ & _ & _ & _ & L' & HL' & K).
    rewrite HL in HL'. injection HL' as <-.
    destruct K as (-> & _ & _ & _ & _ & _ & ->). apply Hinit.
Qed.

Lemma hash_scan_safe n entries position type :
  length entries = 2%nat -> position = 0 \/ position = 1 ->
  exists found, hash_scan n entries 2 position type = Ok found.
Proof.
  intros Hlen. revert position. induction n as [|n IH]; intros position Hp; simpl.
  - eexists. reflexivity.
  - destruct (entries !! Z.to_nat position) as [e|] eqn:He.
    + destruct (decide (le_type e = Some type)); [eexists; reflexivity|].
      apply IH. destruct Hp as [-> | ->]; vm_compute; auto.
    + apply lookup_ge_None in He. destruct Hp as [-> | ->]; simpl in He; lia.
Qed.

(** X10. In a store of layouts made by [_PyLayout_Create], with tables of
    the size their [ob_size] says, the two public functions always return:
    no lookup reads through NULL or outside a table, for any object and any
    requested type.  The state is as before. *)
Theorem lookups_never_fault s obj T :
  created s -> well_sized s ->
  (exists a, PyObject_GetTypeData obj T s = Ok (a, s)) /\
  (exists n, PyType_GetTypeDataSize T s = Ok (n, s)).
Proof.
  intros (Hord & Hcache & Hmode) Hws. split.
  - unfold PyObject_GetTypeData, bind, Py_LAYOUT.
    destruct (tp_cache (types s (ob_type obj))) as [ol|] eqn:Eo;
      [|eexists; reflexivity].
    destruct (tp_cache (types s T)) as [tl|] eqn:Et; [|eexists; reflexivity].
    destruct (Hcache _ _ Eo) as [L HL]. destruct (Hcache _ _ Et) as [TL HTL].
    unfold deref. rewrite HL.
    destruct (Hmode _ _ HL) as [[Hc Hs] | [Hc Hs]]; rewrite Hc; simpl.
    + unfold _layout_cast_ordered, bind, Py_LAYOUT, deref.
      rewrite HL, Et, HTL, (Hord _ _ HTL), Hs. simpl. eexists. reflexivity.
    + unfold _layout_cast_hash, bind, Py_LAYOUT, deref, lift.
      rewrite HL, Et, HTL, Hs.
      destruct (hash_scan_safe (Z.to_nat (ly_search L)) (ly_entries L)
                  (home (ly_id TL) (ly_shift L) 2) T) as [found Hf].
      * rewrite (Hws _ _ HL), Hs. reflexivity.
      * apply home_two.
      * rewrite Hf. destruct found; eexists; reflexivity.
  - unfold PyType_GetTypeDataSize, bind, Py_LAYOUT, deref.
    destruct (tp_cache (types s T)) as [tl|] eqn:Et; [|eexists; reflexivity].
    destruct (Hcache _ _ Et) as [TL HTL]. rewrite HTL. eexists. reflexivity.
Qed.

Lemma well_sized_world_AB : well_sized world_AB.
Proof.
  exact (well_sized_define_type _ _ _ _ _ _ _ _
           (well_sized_define_type _ _ _ _ _ _ _ _ well_sized_boot world_A_run)
           world_AB_run).
Qed.

Lemma lookups_never_fault_witness :
  (exists a, PyObject_GetTypeData (mkObject 1000 tB) tA world_AB = Ok (a, world_AB)) /\
  (exists n, PyType_GetTypeDataSize tA world_AB = Ok (n, world_AB)).
Proof.
  apply (lookups_never_fault world_AB (mkObject 1000 tB) tA).
  - exact created_world_AB.
  - exact well_sized_world_AB.
Defined.

(** ** Offsets and allocation size *)

Lemma ext_of_fills r s s' l :
  fills r s s' -> is_Some (heap s !! r) -> ext_of s' l = ext_of s l.
Proof.
  intros F [L HL]. unfold ext_of. destruct (decide (l = r)) as [->|Hne].
  - destruct (fills_lookup _ _ _ _ _ F HL) as (L' & HL' & K).
    rewrite HL, HL'. destruct K as (_ & -> & _). reflexivity.
  - rewrite (fills_other _ _ _ _ F Hne). reflexivity.
Qed.

Lemma dict_sizes_fills r s s' d :
  fills r s s' -> is_Some (heap s !! r) -> dict_sizes s' d = dict_sizes s d.
Proof.
  intros F Hr. unfold dict_sizes. apply list_fmap_ext. intros i [k v] _. simpl.
  rewrite (ext_of_fills _ _ _ _ F Hr). reflexivity.
Qed.

Lemma fill_ordered_loop_total r rest base offset s res s' :
  fill_ordered_loop r rest base offset s = Ok (res, s') ->
  is_Some (heap s !! r) ->
  res = packed_total offset (dict_sizes s rest).
Proof.
  revert offset s. induction rest as [|[key value] rest IH]; intros offset s H Hr;
    simpl in H.
  - inv_run H. reflexivity.
  - apply bind_Ok_inv in H as (sub & s1 & Hsub & H). inv_run Hsub.
    apply bind_Ok_inv in H as (u & s1 & Hst & H).
    apply fills_store_entry in Hst as F.
    apply IH in H.
    + rewrite (dict_sizes_fills _ _ _ _ F Hr) in H. simpl.
      unfold ext_of at 1. simpl.
      match goal with Hx : heap s !! value = Some sub |- _ => rewrite Hx end.
      exact H.
    + destruct Hr as [L HL]. destruct (fills_lookup _ _ _ _ _ F HL) as (L' & HL' & _).
      eauto.
Qed.

Lemma fill_hash_loop_packed rest :
  forall fuel r hash_size shift base offset s res s' L,
    fill_hash_loop fuel r rest hash_size shift base offset s = Ok (res, s') ->
    heap s !! r = Some L ->
    res = packed_total offset (dict_sizes s rest) /\
    exists L', heap s' !! r = Some L' /\
      (forall i e, ly_entries L !! i = Some e -> le_type e <> None ->
                   ly_entries L' !! i = Some e) /\
      (forall k off, (k, off) ∈ packed base offset (dict_sizes s rest) ->
                     exists i, ly_entries L' !! i = Some (mkEntry (Some k) off)).
Proof.
  induction rest as [|[key value] rest IH];
    intros fuel r hash_size shift base offset s res s' L H HLr; simpl in H.
  - inv_run H. split; [reflexivity|]. exists L. split; [exact HLr|].
    split; [auto|]. intros k off Hin. inversion Hin.
  - apply bind_Ok_inv in H as (sub & s1 & Hsub & H). inv_run Hsub.
    apply bind_Ok_inv in H as (L0 & s1 & HL & H). inv_run HL.
    match goal with
    | Hx : heap s !! r = Some L0 |- _ => rewrite HLr in Hx; injection Hx as <-
    end.
    apply bind_Ok_inv in H as ([p c] & s1 & Hp & H). inv_run Hp.
    apply bind_Ok_inv in H as (u & s1 & Hs & H).
    apply bind_Ok_inv in H as (sub' & s2 & Hsub' & H). inv_run Hsub'.
    apply bind_Ok_inv in H as (u' & s2 & Hst & H).
    match goal with
    | Hx : probe _ _ _ _ _ _ = Ok _ |- _ => rename Hx into Hprobe
    end.
    match goal with
    | Hx : heap s !! value = Some sub |- _ => rename Hx into Hvalue
    end.
    match goal with
    | Hx : heap s1 !! value = Some sub' |- _ => rename Hx into Hvalue'
    end.
    assert (H1 : exists L1, heap s1 !! r = Some L1 /\
               ly_entries L1 = ly_entries L /\ fills r s s1).
    { destruct (ly_search L <? c).
      - assert (Hk : forall L0, fill_keeps L0 (set_search c L0))
          by (intros L0; repeat split).
        destruct (fills_update _ _ _ _ _ Hk Hs) as [F _].
        apply update_inv in Hs as (l & L0 & E & HL0 & ->). injection E as <-.
        rewrite HLr in HL0. injection HL0 as <-.
        exists (set_search c L). simpl.
        rewrite list_lookup_insert_eq by exact (lookup_lt_Some _ _ _ HLr).
        split; [reflexivity|]. split; [reflexivity | exact F].
      - inv_run Hs. exists L. split; [exact HLr|]. split; [reflexivity|].
        apply fills_refl. }
    destruct H1 as (L1 & HL1 & Hent1 & F1).
    pose proof (fills_store_entry _ _ _ _ _ _ Hst) as F2.
    pose proof (fills_trans _ _ _ _ F1 F2) as F.
    pose proof (probe_free _ _ _ _ _ _ _ _ Hprobe) as (e0 & He0 & Hfree).
    assert (He0' : le_type e0 = None).
    { unfold entry_occupied in Hfree. destruct (le_type e0); [discriminate|reflexivity]. }
    assert (Hext : ly_extensionsize sub' = ext_of s value).
    { rewrite <- (ext_of_fills _ _ _ value F1 (ex_intro _ L HLr)).
      unfold ext_of. rewrite Hvalue'. reflexivity. }
    apply store_entry_inv in Hst as (L1' & HL1' & [[Hin ->] | [Hout _]]);
      rewrite HL1 in HL1'; injection HL1' as <-;
      [|rewrite Hent1 in Hout; apply lookup_lt_Some in He0; lia].
    rewrite Hent1 in *. rewrite Hext in *.
    set (offset' := to_int32 (offset + ext_of s value)) in *.
    set (e := mkEntry (Some key) (to_int32 (- base - offset'))) in *.
    eapply IH in H;
      [|simpl; apply list_lookup_insert_eq; exact (lookup_lt_Some _ _ _ HL1)].
    destruct H as (Hres & L' & HL' & Hkeep & Hpacked).
    rewrite (dict_sizes_fills _ _ _ _ F (ex_intro _ L HLr)) in Hres, Hpacked.
    split; [exact Hres|]. exists L'. split; [exact HL'|]. simpl in Hkeep. split.
    + intros i ei Hi Hocc. apply Hkeep; [|exact Hocc].
      rewrite list_lookup_insert_ne; [exact Hi|].
      intros <-. rewrite He0 in Hi. injection Hi as <-. congruence.
    + intros k off Hk. simpl in Hk. fold offset' in Hk.
      apply elem_of_cons in Hk as [Heq | Hk]; [|exact (Hpacked _ _ Hk)].
      injection Heq as -> ->. exists (Z.to_nat p). apply Hkeep.
      * apply list_lookup_insert_eq. exact Hin.
      * discriminate.
Qed.

Lemma fill_ordered_total r type layouts s u s' L :
  _layout_fill_ordered r type layouts s = Ok (u, s') ->
  is_Some (heap s !! r) -> heap s' !! r = Some L ->
  ly_allocsize L = packed_total 0 (dict_sizes s layouts).
Proof.
  unfold _layout_fill_ordered. intros H Hr HL.
  apply bind_Ok_inv in H as (base & s1 & Hb & H).
  apply layout_base_inv in Hb as ->.
  apply bind_Ok_inv in H as (offset & s2 & Hl & H).
  pose proof (fill_ordered_loop_total _ _ _ _ _ _ _ Hl Hr) as ->.
  apply update_inv in H as (l & L2 & E & HL2 & ->). injection E as <-.
  simpl in HL. rewrite list_lookup_insert_eq in HL by exact (lookup_lt_Some _ _ _ HL2).
  injection HL as <-. reflexivity.
Qed.

Lemma fill_hash_packed fuel r type layouts s u s' L0 L :
  _layout_fill_hash fuel r type layouts s = Ok (u, s') ->
  heap s !! r = Some L0 -> heap s' !! r = Some L ->
  exists base,
    _layout_base type s = Ok (base, s) /\
    ly_allocsize L = packed_total 0 (dict_sizes s layouts) /\
    forall k off, (k, off) ∈ packed base 0 (dict_sizes s layouts) ->
      exists i, ly_entries L !! i = Some (mkEntry (Some k) off).
Proof.
  unfold _layout_fill_hash. intros H HL0 HL.
  apply bind_Ok_inv in H as (L1 & s1 & H1 & H). inv_run H1.
  apply bind_Ok_inv in H as (base & s1 & Hb & H).
  pose proof (layout_base_inv _ _ _ _ Hb) as ->.
  apply bind_Ok_inv in H as (offset & s2 & Hl & H).
  destruct (fill_hash_loop_packed _ _ _ _ _ _ _ _ _ _ _ Hl HL0)
    as (-> & L' & HL' & _ & Hpacked).
  apply update_inv in H as (l & L2 & E & HL2 & ->). injection E as <-.
  rewrite HL' in HL2. injection HL2 as <-.
  simpl in HL. rewrite list_lookup_insert_eq in HL by exact (lookup_lt_Some _ _ _ HL').
  injection HL as <-. exists base. split; [exact Hb|]. split; [reflexivity|].
  exact Hpacked.
Qed.

Lemma to_int32_small z : - 2 ^ 31 <= z < 2 ^ 31 -> to_int32 z = z.
Proof.
  intros Hz. unfold to_int32. change (2 ^ 32) with 4294967296.
  change (2 ^ 31) with 2147483648 in *. rewrite Z.mod_small by lia. lia.
Qed.

Lemma sum_sizes_nonneg sizes :
  (forall ke, ke ∈ sizes -> 0 <= ke.2) -> 0 <= sum_sizes sizes.
Proof.
  induction sizes as [|[k e] sizes IH]; intros Hnn; simpl; [lia|].
  pose proof (Hnn (k, e) (list_elem_of_here _ _)). simpl in *.
  assert (0 <= sum_sizes sizes) by (apply IH; intros ke Hin; apply Hnn; right; exact Hin).
  unfold sum_sizes in *. lia.
Qed.

Lemma packed_total_exact sizes offset :
  (forall ke, ke ∈ sizes -> 0 <= ke.2) -> 0 <= offset ->
  offset + sum_sizes sizes < 2 ^ 31 ->
  packed_total offset sizes = offset + sum_sizes sizes.
Proof.
  revert offset. induction sizes as [|[k e] sizes IH]; intros offset Hnn Ho Hsum; simpl.
  - unfold sum_sizes. simpl. lia.
  - pose proof (Hnn (k, e) (list_elem_of_here _ _)) as He. simpl in He.
    assert (Hrest : forall ke, ke ∈ sizes -> 0 <= ke.2)
      by (intros ke Hin; apply Hnn; right; exact Hin).
    pose proof (sum_sizes_nonneg _ Hrest) as Hs.
    change (sum_sizes ((k, e) :: sizes)) with (e + sum_sizes sizes) in *.
    rewrite to_int32_small by lia. rewrite IH by (auto; lia). lia.
Qed.

Lemma dict_sizes_new s L d :
  (forall T l, (T, l) ∈ d -> is_Some (heap s !! l)) ->
  dict_sizes (with_new s L) d = dict_sizes s d.
Proof.
  intros Hd. unfold dict_sizes. apply list_fmap_ext. intros i [k v] Hi. simpl.
  f_equal. unfold ext_of, with_new. simpl.
  destruct (Hd k v) as [L0 HL0]; [apply list_elem_of_lookup; eauto|].
  rewrite lookup_app_l by exact (lookup_lt_Some _ _ _ HL0). reflexivity.
Qed.

(** The sizes that the fill of a new layout reads are those of the
    collected layouts as they were, then the size of the type itself. *)
Lemma create_sizes_new type size s d L :
  created s -> tp_cache (types s type) = None ->
  (forall T l, (T, l) ∈ d -> tp_cache (types s T) = Some l) ->
  ly_extensionsize L = size ->
  dict_sizes (with_new s L)
    (if size >? 0 then PyDict_SetItem d type (length (heap s)) else d)
  = create_sizes s d type size.
Proof.
  intros (_ & Hcache & _) Hnone Hd Hext. unfold create_sizes.
  assert (Hvalid : forall T l, (T, l) ∈ d -> is_Some (heap s !! l))
    by (intros T l Hin; exact (Hcache _ _ (Hd _ _ Hin))).
  destruct (size >? 0).
  - rewrite SetItem_fresh.
    + unfold dict_sizes at 1. rewrite fmap_app. f_equal.
      * apply dict_sizes_new. exact Hvalid.
      * simpl. unfold ext_of, with_new. simpl.
        rewrite lookup_app_r by lia. rewrite Nat.sub_diag. simpl.
        rewrite Hext. reflexivity.
    + intros Hin. apply list_elem_of_fmap in Hin as ([T l] & E & Hin).
      simpl in E. subst T. rewrite (Hd _ _ Hin) in Hnone. discriminate.
  - rewrite app_nil_r. apply dict_sizes_new. exact Hvalid.
Qed.

(** X11. The allocation size recorded in a new layout is the sum, taken
    in [int32_t] as the fill loops do, of the extension sizes of the direct
    bases that have a layout and of the size of the type itself when it is
    positive; without overflow it is their plain sum.  (The store holds
    layouts made by [_PyLayout_Create], and the type has no layout yet.) *)
Theorem create_alloc_size fuel type bases size id s r s' L :
  created s -> tp_cache (types s type) = None ->
  _PyLayout_Create fuel type bases size id s = Ok (Some r, s') ->
  heap s' !! r = Some L ->
  exists d,
    _layout_collect bases s = Ok (Some d, s) /\
    ly_allocsize L = packed_total 0 (create_sizes s d type size) /\
    ((forall ke, ke ∈ create_sizes s d type size -> 0 <= ke.2) ->
     sum_sizes (create_sizes s d type size) < 2 ^ 31 ->
     ly_allocsize L = sum_sizes (create_sizes s d type size)).
Proof.
  intros Hcr Hnone H HL.
  pose proof (create_result _ _ _ _ _ _ _ _ H) as (-> & _).
  apply create_unfold in H as [[? _] | H]; [discriminate|].
  destruct H as (d & ordered & Hcol & Hdict & _ & _ & _ & _ & Hfill). simpl in Hfill.
  exists d.
  assert (Hd : forall T l, (T, l) ∈ d -> tp_cache (types s T) = Some l).
  { intros T l Hin. destruct (collect_loop_from _ _ _ _ _ _ _ Hcol Hin) as [Hc|[_ ?]];
      [inversion Hc | assumption]. }
  assert (Halloc : ly_allocsize L = packed_total 0 (create_sizes s d type size)).
  { destruct ordered.
    - rewrite <- (create_sizes_new type size s d
                   (initial_layout (alloc s) 1 size (to_uint32 id) 0 cast_ordered)
                   Hcr Hnone Hd eq_refl).
      eapply fill_ordered_total; [exact Hfill | | exact HL].
      unfold with_new. simpl. rewrite lookup_app_r by lia.
      rewrite Nat.sub_diag. eauto.
    - destruct Hfill as (shift & _ & Hfill).
      rewrite <- (create_sizes_new type size s d
                   (initial_layout (alloc s) 2 size (to_uint32 id) (to_uint32 shift) cast_hash)
                   Hcr Hnone Hd eq_refl).
      eapply fill_hash_packed in Hfill as (base & _ & Ha & _); [exact Ha | | exact HL].
      unfold with_new. simpl. rewrite lookup_app_r by lia.
      rewrite Nat.sub_diag. reflexivity. }
  split; [|split; [exact Halloc|]].
  - unfold _layout_collect, PyDict_New, bind. rewrite Hdict, Hcol. reflexivity.
  - intros Hnn Hsum. rewrite Halloc. rewrite packed_total_exact by (auto; lia). lia.
Qed.

Lemma create_alloc_size_witness :
  exists d,
    _layout_collect [tA] world_A = Ok (Some d, world_A) /\
    24 = packed_total 0 (create_sizes world_A d tB 16) /\
    ((forall ke, ke ∈ create_sizes world_A d tB 16 -> 0 <= ke.2) ->
     sum_sizes (create_sizes world_A d tB 16) < 2 ^ 31 ->
     24 = sum_sizes (create_sizes world_A d tB 16)).
Proof.
  apply (create_alloc_size 4 tB [tA] 16 0 world_A 1%nat
           (after (_PyLayout_Create 4 tB [tA] 16 0) world_A)
           (mkLayout 2 24 16 cast_hash 0 1 1 2
              [mkEntry (Some tA) (-8); mkEntry (Some tB) (-24)])).
  - exact created_world_A.
  - reflexivity.
  - vm_compute. reflexivity.
  - vm_compute. reflexivity.
Defined.

(** ** The regions do not overlap *)

Lemma packed_keys base offset sizes k :
  k ∈ sizes.*1 <-> exists off, (k, off) ∈ packed base offset sizes.
Proof.
  revert offset. induction sizes as [|[k0 e0] sizes IH]; intros offset; simpl.
  - split; [intros H; inversion H | intros [off H]; inversion H].
  - rewrite elem_of_cons. rewrite (IH (to_int32 (offset + e0))). split.
    + intros [-> | [off H]]; [eexists; left | exists off; right; exact H].
    + intros [off H]. apply elem_of_cons in H as [E | H].
      * injection E as -> _. auto.
      * right. eauto.
Qed.

Lemma sizes_functional (sizes : list (tid * Z)) k e e' :
  NoDup sizes.*1 -> (k, e) ∈ sizes -> (k, e') ∈ sizes -> e = e'.
Proof.
  induction sizes as [|[k0 e0] sizes IH]; intros Hnd H1 H2; [inversion H1|].
  simpl in Hnd. apply NoDup_cons in Hnd as [Hk Hnd].
  apply elem_of_cons in H1 as [E1 | H1]; apply elem_of_cons in H2 as [E2 | H2].
  - congruence.
  - injection E1 as -> ->. exfalso. apply Hk.
    apply list_elem_of_fmap. exists (k0, e'). auto.
  - injection E2 as -> ->. exfalso. apply Hk.
    apply list_elem_of_fmap. exists (k0, e). auto.
  - exact (IH Hnd H1 H2).
Qed.

(** Without overflow, the region of each key lies between the end of the
    packed block and the reserved prefix, below every region packed
    before it. *)
Lemma packed_bounds sizes base offset k off e :
  (forall ke, ke ∈ sizes -> 0 <= ke.2) -> 0 <= base -> 0 <= offset ->
  base + offset + sum_sizes sizes < 2 ^ 31 ->
  NoDup sizes.*1 ->
  (k, off) ∈ packed base offset sizes -> (k, e) ∈ sizes ->
  - (base + offset + sum_sizes sizes) <= off /\ off + e <= - (base + offset) /\
  0 <= e.
Proof.
  revert offset.
  induction sizes as [|[k0 e0] sizes IH]; intros offset Hnn Hb Ho Hsum Hnd Hp He;
    [inversion He|].
  pose proof (Hnn (k0, e0) (list_elem_of_here _ _)) as He0. simpl in He0.
  assert (Hrest : forall ke, ke ∈ sizes -> 0 <= ke.2)
    by (intros ke Hin; apply Hnn; right; exact Hin).
  pose proof (sum_sizes_nonneg _ Hrest) as Hs.
  change (sum_sizes ((k0, e0) :: sizes)) with (e0 + sum_sizes sizes) in *.
  pose proof Hnd as Hnd0. simpl in Hnd. apply NoDup_cons in Hnd as [Hk0 Hnd].
  simpl in Hp. rewrite (to_int32_small (offset + e0)) in Hp by lia.
  rewrite (to_int32_small (- base - (offset + e0))) in Hp by lia.
  apply elem_of_cons in Hp as [E | Hp].
  - injection E as -> ->.
    assert (e = e0) as ->
      by exact (sizes_functional _ _ _ _ Hnd0 He (list_elem_of_here _ _)).
    lia.
  - assert (Hk : k ∈ sizes.*1) by (apply (packed_keys base (offset + e0)); eauto).
    apply elem_of_cons in He as [E | He].
    + injection E as -> ->. contradiction.
    + destruct (IH (offset + e0) Hrest Hb ltac:(lia) ltac:(lia) Hnd Hp He)
        as (H1 & H2 & H3). lia.
Qed.

Lemma packed_disjoint sizes base offset k1 off1 e1 k2 off2 e2 :
  (forall ke, ke ∈ sizes -> 0 <= ke.2) -> 0 <= base -> 0 <= offset ->
  base + offset + sum_sizes sizes < 2 ^ 31 ->
  NoDup sizes.*1 ->
  (k1, off1) ∈ packed base offset sizes -> (k1, e1) ∈ sizes ->
  (k2, off2) ∈ packed base offset sizes -> (k2, e2) ∈ sizes ->
  k1 <> k2 ->
  off1 + e1 <= off2 \/ off2 + e2 <= off1.
Proof.
  revert offset.
  induction sizes as [|[k0 e0] sizes IH];
    intros offset Hnn Hb Ho Hsum Hnd Hp1 He1 Hp2 He2 Hne; [inversion He1|].
  pose proof (Hnn (k0, e0) (list_elem_of_here _ _)) as He0. simpl in He0.
  assert (Hrest : forall ke, ke ∈ sizes -> 0 <= ke.2)
    by (intros ke Hin; apply Hnn; right; exact Hin).
  pose proof (sum_sizes_nonneg _ Hrest) as Hs.
  change (sum_sizes ((k0, e0) :: sizes)) with (e0 + sum_sizes sizes) in *.
  pose proof Hnd as Hnd0. simpl in Hnd. apply NoDup_cons in Hnd as [Hk0 Hnd].
  simpl in Hp1, Hp2.
  rewrite (to_int32_small (offset + e0)) in Hp1, Hp2 by lia.
  rewrite (to_int32_small (- base - (offset + e0))) in Hp1, Hp2 by lia.
  assert (Htail : forall k off e,
            (k, off) ∈ packed base (offset + e0) sizes -> (k, e) ∈ (k0, e0) :: sizes ->
            (k, e) ∈ sizes /\ off + e <= - (base + (offset + e0))).
  { intros k off e Hp He.
    assert (Hk : k ∈ sizes.*1) by (apply (packed_keys base (offset + e0)); eauto).
    apply elem_of_cons in He as [E | He]; [injection E as -> ->; contradiction|].
    split; [exact He|].
    destruct (packed_bounds sizes base (offset + e0) k off e Hrest Hb ltac:(lia)
                ltac:(lia) Hnd Hp He) as (_ & H2 & _). exact H2. }
  apply elem_of_cons in Hp1 as [E1 | Hp1]; apply elem_of_cons in Hp2 as [E2 | Hp2].
  - injection E1 as -> _. injection E2 as -> _. congruence.
  - injection E1 as -> ->. destruct (Htail _ _ _ Hp2 He2) as [_ H2]. right. lia.
  - injection E2 as -> ->. destruct (Htail _ _ _ Hp1 He1) as [_ H1]. left. lia.
  - destruct (Htail _ _ _ Hp1 He1) as [He1' _].
    destruct (Htail _ _ _ Hp2 He2) as [He2' _].
    exact (IH (offset + e0) Hrest Hb ltac:(lia) ltac:(lia) Hnd Hp1 He1' Hp2 He2' Hne).
Qed.

Lemma get_type_data_hit obj type s a s' :
  PyObject_GetTypeData obj type s = Ok (Some a, s') ->
  exists ol tl L i e,
    tp_cache (types s (ob_type obj)) = Some ol /\
    tp_cache (types s type) = Some tl /\
    heap s !! ol = Some L /\ ly_entries L !! i = Some e /\
    le_type e = Some type /\ a = ob_addr obj + le_offset e.
Proof.
  intros H. unfold PyObject_GetTypeData in H. inv_run H.
  destruct (tp_cache (types s (ob_type obj))) as [ol|] eqn:Eo; [|inv_run H].
  destruct (tp_cache (types s type)) as [tl|] eqn:Et; [|inv_run H].
  inv_run H. exists ol, tl.
  match type of H with
  | call_cast (ly_cast ?L0) _ _ _ _ = _ => destruct (ly_cast L0); simpl in H
  end.
  - apply cast_ordered_hit in H as (L & i & e & HL & Hi & Ht & Ha).
    exists L, i, e. auto 10.
  - apply cast_hash_hit in H as (L & i & e & HL & Hi & Ht & Ha).
    exists L, i, e. auto 10.
Qed.

Lemma dict_sizes_heap s s' d : heap s' = heap s -> dict_sizes s' d = dict_sizes s d.
Proof. intros E. unfold dict_sizes, ext_of. rewrite E. reflexivity. Qed.

Lemma layout_base_types type s s' base :
  types s' = types s -> _layout_base type s' = Ok (base, s') ->
  _layout_base type s = Ok (base, s).
Proof.
  unfold _layout_base. intros E H. rewrite E in H. injection H as <-. reflexivity.
Qed.

Lemma define_type_hashed_packed fuel type bases size id s r s' L :
  created s -> tp_cache (types s type) = None ->
  define_type fuel type bases size id s = Ok (Some r, s') ->
  heap s' !! r = Some L -> ly_cast L = cast_hash ->
  exists d layouts base,
    collect_loop bases [] s = Ok (d, s) /\
    _layout_base type s = Ok (base, s) /\
    NoDup layouts.*1 /\
    dict_sizes s' layouts = create_sizes s d type size /\
    (forall T l, (T, l) ∈ layouts -> tp_cache (types s' T) = Some l) /\
    tp_cache (types s' type) = Some r /\
    ly_allocsize L = packed_total 0 (create_sizes s d type size) /\
    (forall i e T, ly_entries L !! i = Some e -> le_type e = Some T ->
       (T, le_offset e) ∈ packed base 0 (create_sizes s d type size)).
Proof.
  intros Hcr Hnone H HL Hcast.
  destruct (define_type_hashed _ _ _ _ _ _ _ _ _ Hnone H HL Hcast)
    as (d & layouts & Hcol & Hlay & Hown & Hcache & L' & HL' & Hkeys & Huniq & _).
  rewrite HL in HL'. injection HL' as <-.
  unfold define_type in H.
  apply bind_Ok_inv in H as (result & s1 & Hc & H).
  apply bind_Ok_inv in H as (u & s2 & Hset & H). inv_run H. subst result.
  apply set_tp_cache_inv in Hset as (Hh & _ & _ & _).
  rewrite Hh in HL.
  pose proof (create_result _ _ _ _ _ _ _ _ Hc) as (Hr & _). subst r.
  apply create_unfold in Hc as [[? _] | Hc]; [discriminate|].
  destruct Hc as (d' & ordered & Hcol' & _ & _ & _ & _ & _ & Hfill). simpl in Hfill.
  rewrite Hcol in Hcol'. injection Hcol' as <-.
  destruct ordered.
  { exfalso. apply fill_ordered_fills in Hfill.
    apply (fills_new _ _ _ _ eq_refl) in Hfill as (_ & _ & _ & _ & L' & HL' & K).
    rewrite HL in HL'. injection HL' as <-.
    destruct K as (_ & _ & K & _). simpl in K. congruence. }
  destruct Hfill as (shift & _ & Hfill).
  set (L0 := initial_layout (alloc s) 2 size (to_uint32 id) (to_uint32 shift) cast_hash) in *.
  assert (HL0 : heap (with_new s L0) !! length (heap s) = Some L0).
  { unfold with_new. simpl. rewrite lookup_app_r by lia.
    rewrite Nat.sub_diag. reflexivity. }
  pose proof (fill_hash_fills _ _ _ _ _ _ _ Hfill) as [F _].
  assert (Hd : forall T l, (T, l) ∈ d -> tp_cache (types s T) = Some l).
  { intros T l Hin. destruct (collect_loop_from _ _ _ _ _ _ _ Hcol Hin) as [Hx|[_ ?]];
      [inversion Hx | assumption]. }
  assert (Hsizes : dict_sizes s2 layouts = create_sizes s d type size).
  { rewrite (dict_sizes_heap _ _ _ Hh).
    rewrite (dict_sizes_fills _ _ _ _ F (ex_intro _ L0 HL0)).
    rewrite Hlay. apply create_sizes_new; auto. }
  destruct (fill_hash_packed _ _ _ _ _ _ _ _ _ Hfill HL0 HL)
    as (base & Hbase & Halloc & Hpacked).
  rewrite <- Hlay in Halloc, Hpacked.
  rewrite <- (dict_sizes_fills _ _ _ layouts F (ex_intro _ L0 HL0)) in Halloc, Hpacked.
  rewrite <- (dict_sizes_heap _ _ layouts Hh) in Halloc, Hpacked.
  rewrite Hsizes in Halloc, Hpacked.
  assert (Hnd : NoDup layouts.*1).
  { rewrite Hlay. pose proof (collect_loop_inv _ _ _ _ _ Hcol) as (_ & Hnd & _).
    destruct (size >? 0); [apply SetItem_NoDup|]; apply Hnd; simpl; apply NoDup_nil_2. }
  exists d, layouts, base.
  split; [exact Hcol|].
  split; [exact (layout_base_types type s (with_new s L0) base eq_refl Hbase)|].
  split; [exact Hnd|]. split; [exact Hsizes|]. split; [exact Hcache|].
  split; [exact Hown|]. split; [exact Halloc|].
  intros i e T Hi Ht.
  pose proof (Hkeys _ _ _ Hi Ht) as HT.
  assert (HT' : T ∈ (create_sizes s d type size).*1).
  { rewrite <- Hsizes. unfold dict_sizes. rewrite <- list_fmap_compose. exact HT. }
  apply (packed_keys base 0) in HT' as [off Hoff].
  destruct (Hpacked _ _ Hoff) as (j & Hj).
  assert (i = j) as <- by exact (Huniq _ _ _ _ _ Hi Hj Ht eq_refl).
  rewrite Hi in Hj. injection Hj as ->. exact Hoff.
Qed.

Lemma layout_base_nonneg type s base s' :
  _layout_base type s = Ok (base, s') -> 0 <= base.
Proof.
  unfold _layout_base. intros H. injection H as <- _.
  destruct (tp_managed_dict (types s type)), (tp_have_gc (types s type)),
    (tp_managed_weakref (types s type)); vm_compute; discriminate.
Qed.

(** X12. In an object of a type with a hashed layout, the memory of the
    types that the lookup serves does not overlap.  If the sizes packed are
    not negative and their sum with the reserved prefix stays below 2^31,
    then for every type [T1] the lookup finds, the block that starts at the
    returned address and has the size [PyType_GetTypeDataSize] reports for
    [T1] lies in front of the reserved prefix of the object, within the
    [ly_allocsize] bytes of the layout, and is disjoint from the block of
    every other type the lookup finds. *)
Theorem hashed_regions_disjoint fuel type bases size id s r s' L d base :
  created s -> tp_cache (types s type) = None ->
  define_type fuel type bases size id s = Ok (Some r, s') ->
  heap s' !! r = Some L -> ly_cast L = cast_hash ->
  _layout_collect bases s = Ok (Some d, s) ->
  _layout_base type s = Ok (base, s) ->
  (forall ke, ke ∈ create_sizes s d type size -> 0 <= ke.2) ->
  base + sum_sizes (create_sizes s d type size) < 2 ^ 31 ->
  forall obj T1 a1 n1,
    ob_type obj = type ->
    PyObject_GetTypeData obj T1 s' = Ok (Some a1, s') ->
    PyType_GetTypeDataSize T1 s' = Ok (n1, s') ->
    0 <= n1 /\
    ob_addr obj - base - ly_allocsize L <= a1 /\
    a1 + n1 <= ob_addr obj - base /\
    forall T2 a2 n2,
      T2 <> T1 ->
      PyObject_GetTypeData obj T2 s' = Ok (Some a2, s') ->
      PyType_GetTypeDataSize T2 s' = Ok (n2, s') ->
      a1 + n1 <= a2 \/ a2 + n2 <= a1.
Proof.
  intros Hcr Hnone H HL Hcast Hcollect Hbase Hnn Hsum obj T1 a1 n1 Hobj Hget1 Hsize1.
  destruct (define_type_hashed_packed _ _ _ _ _ _ _ _ _ Hcr Hnone H HL Hcast)
    as (d' & layouts & base' & Hcol & Hbase' & Hnd & Hsizes & Hcache & Hown
        & Halloc & Hslots).
  apply collect_inv in Hcollect as (_ & _ & _ & Hcol'').
  rewrite Hcol in Hcol''. injection Hcol'' as ->.
  rewrite Hbase in Hbase'. injection Hbase' as <-.
  pose proof (layout_base_nonneg _ _ _ _ Hbase) as Hb.
  set (sizes := create_sizes s d type size) in *.
  assert (Hndk : NoDup sizes.*1).
  { rewrite <- Hsizes. unfold dict_sizes. rewrite <- list_fmap_compose. exact Hnd. }
  assert (Hregion : forall T a n,
            PyObject_GetTypeData obj T s' = Ok (Some a, s') ->
            PyType_GetTypeDataSize T s' = Ok (n, s') ->
            exists off, a = ob_addr obj + off /\
              (T, off) ∈ packed base 0 sizes /\ (T, n) ∈ sizes).
  { intros T a n Hget Hsz.
    apply get_type_data_hit in Hget
      as (ol & tl & L1 & i & e & Hol & Htl & HL1 & Hi & Ht & ->).
    rewrite Hobj, Hown in Hol. injection Hol as <-.
    rewrite HL in HL1. injection HL1 as <-.
    exists (le_offset e). split; [reflexivity|].
    pose proof (Hslots _ _ _ Hi Ht) as Hp. split; [exact Hp|].
    assert (HT : T ∈ layouts.*1).
    { assert (HT' : T ∈ sizes.*1) by (apply (packed_keys base 0); eauto).
      rewrite <- Hsizes in HT'. unfold dict_sizes in HT'.
      rewrite <- list_fmap_compose in HT'. exact HT'. }
    apply list_elem_of_fmap in HT as ([T' l] & E & HT). simpl in E. subst T'.
    rewrite (Hcache _ _ HT) in Htl. injection Htl as <-.
    assert (n = ext_of s' l) as ->.
    { unfold PyType_GetTypeDataSize, bind, Py_LAYOUT, deref, ret in Hsz.
      rewrite (Hcache _ _ HT) in Hsz. unfold ext_of.
      destruct (heap s' !! l); [|discriminate]. injection Hsz as <-. reflexivity. }
    rewrite <- Hsizes. unfold dict_sizes. apply list_elem_of_fmap.
    exists (T, l). auto. }
  destruct (Hregion _ _ _ Hget1 Hsize1) as (off1 & -> & Hp1 & He1).
  destruct (packed_bounds sizes base 0 T1 off1 n1 Hnn Hb ltac:(lia) ltac:(lia)
              Hndk Hp1 He1) as (Hlow & Hhigh & Hn1).
  assert (Hal : ly_allocsize L = sum_sizes sizes).
  { rewrite Halloc. rewrite packed_total_exact by (auto; lia). lia. }
  split; [exact Hn1|]. split; [lia|]. split; [lia|].
  intros T2 a2 n2 Hne Hget2 Hsize2.
  destruct (Hregion _ _ _ Hget2 Hsize2) as (off2 & -> & Hp2 & He2).
  destruct (packed_disjoint sizes base 0 T1 off1 n1 T2 off2 n2 Hnn Hb ltac:(lia)
              ltac:(lia) Hndk Hp1 He1 Hp2 He2 ltac:(congruence)); [left | right]; lia.
Qed.

Lemma hashed_regions_disjoint_witness :
  0 <= 8 /\
  1000 - 0 - 24 <= 992 /\
  992 + 8 <= 1000 - 0 /\
  forall T2 a2 n2,
    T2 <> tA ->
    PyObject_GetTypeData (mkObject 1000 tB) T2 world_AB = Ok (Some a2, world_AB) ->
    PyType_GetTypeDataSize T2 world_AB = Ok (n2, world_AB) ->
    992 + 8 <= a2 \/ a2 + n2 <= 992.
Proof.
  apply (fun Hnn Hsum =>
           hashed_regions_disjoint 4 tB [tA] 16 0 world_A 1%nat world_AB
             (mkLayout 2 24 16 cast_hash 0 1 1 2
                [mkEntry (Some tA) (-8); mkEntry (Some tB) (-24)])
             [(tA, 0%nat)] 0
             created_world_A eq_refl world_AB_run eq_refl eq_refl
             ltac:(vm_compute; reflexivity) ltac:(vm_compute; reflexivity)
             Hnn Hsum (mkObject 1000 tB) tA 992 8).
  - intros ke Hin. vm_compute in Hin.
    apply elem_of_cons in Hin as [-> | Hin]; [simpl; lia|].
    apply list_elem_of_singleton in Hin as ->. simpl. lia.
  - vm_compute. reflexivity.
  - reflexivity.
  - vm_compute. reflexivity.
  - vm_compute. reflexivity.
Defined.

(** ** When [_PyLayout_Create] returns *)

Lemma store_entry_total r position e s L :
  heap s !! r = Some L -> exists s', store_entry r position e s = Ok (tt, s').
Proof.
  intros HL. unfold store_entry. rewrite HL.
  destruct (decide (Z.to_nat position < length (ly_entries L))%nat); eexists; reflexivity.
Qed.

Lemma fill_ordered_loop_returns r rest base offset s :
  is_Some (heap s !! r) ->
  (forall k v, (k, v) ∈ rest -> is_Some (heap s !! v)) ->
  exists res s', fill_ordered_loop r rest base offset s = Ok (res, s') /\
                 is_Some (heap s' !! r).
Proof.
  revert offset s. induction rest as [|[key value] rest IH]; intros offset s Hr Hv; simpl.
  - exists offset, s. split; [reflexivity | exact Hr].
  - destruct (Hv key value (list_elem_of_here _ _)) as [sub Hsub].
    unfold bind at 1, deref at 1. rewrite Hsub.
    destruct Hr as [L HL].
    destruct (store_entry_total r (ly_order sub)
                (mkEntry (Some key)
                   (to_int32 (- base - to_int32 (offset + ly_extensionsize sub))))
                s L HL) as [s1 Hst].
    rewrite (bind_Ok _ _ _ _ _ Hst).
    pose proof (fills_store_entry _ _ _ _ _ _ Hst) as F.
    apply IH.
    + destruct (fills_lookup _ _ _ _ _ F HL) as (L' & HL' & _). eauto.
    + intros k v Hin. destruct (Hv k v) as [Lv HLv]; [right; exact Hin|].
      destruct (fills_lookup _ _ _ _ _ F HLv) as (L' & HL' & _). eauto.
Qed.

Lemma fill_ordered_returns r type layouts s :
  is_Some (heap s !! r) ->
  (forall k v, (k, v) ∈ layouts -> is_Some (heap s !! v)) ->
  exists s', _layout_fill_ordered r type layouts s = Ok (tt, s').
Proof.
  intros Hr Hv. unfold _layout_fill_ordered.
  unfold bind at 1. unfold _layout_base at 1.
  destruct (fill_ordered_loop_returns r layouts
              (to_int32
                 (let base := 0 in
                  let base := if tp_managed_dict (types s type)
                              then base + sizeof_voidp else base in
                  let base := if tp_have_gc (types s type)
                              then base + sizeof_voidp * 2 else base in
                  let base := if tp_managed_weakref (types s type)
                              then base + sizeof_voidp else base in
                  base)) 0 s Hr Hv)
    as (res & s1 & Hl & [L1 HL1]).
  cbv zeta in Hl. cbv zeta. rewrite (bind_Ok _ _ _ _ _ Hl).
  unfold update. rewrite HL1. eexists. reflexivity.
Qed.

(** In a table of two slots, one of them free, the probing loop ends
    within two iterations. *)
Lemma probe_two {X} (occupied : X -> bool) fuel a b position cost :
  (2 <= fuel)%nat -> position = 0 \/ position = 1 ->
  occupied a = false \/ occupied b = false ->
  exists p c, probe occupied fuel [a; b] 2 position cost = Ok (p, c) /\
              (p = 0 \/ p = 1).
Proof.
  intros Hfuel Hp Hfree. destruct fuel as [|[|fuel]]; [lia | lia |].
  destruct Hp as [-> | ->]; simpl;
    destruct (occupied a) eqn:Ea, (occupied b) eqn:Eb;
    try (destruct Hfree; discriminate);
    change (next_slot 2 0) with 1; change (next_slot 2 1) with 0; simpl;
    rewrite ?Ea, ?Eb; eauto.
Qed.

Lemma fill_hash_loop_returns rest :
  forall fuel r shift base offset s L,
    (2 <= fuel)%nat ->
    heap s !! r = Some L -> length (ly_entries L) = 2%nat ->
    (length rest <= free_slots (ly_entries L))%nat ->
    (forall k v, (k, v) ∈ rest -> is_Some (heap s !! v)) ->
    exists res s', fill_hash_loop fuel r rest 2 shift base offset s = Ok (res, s') /\
                   is_Some (heap s' !! r).
Proof.
  induction rest as [|[key value] rest IH];
    intros fuel r shift base offset s L Hfuel HL Hlen Hfree Hv; simpl.
  - exists offset, s. split; [reflexivity | eauto].
  - destruct (Hv key value (list_elem_of_here _ _)) as [sub Hsub].
    unfold bind at 1, deref at 1. rewrite Hsub.
    unfold bind at 1, deref at 1. rewrite HL.
    destruct (ly_entries L) as [|a [|b [|c l]]] eqn:Hent; try discriminate Hlen.
    assert (Hone : entry_occupied a = false \/ entry_occupied b = false).
    { unfold free_slots in Hfree. simpl in Hfree.
      rewrite !filter_cons, filter_nil in Hfree.
      destruct (entry_occupied a), (entry_occupied b); auto.
      repeat (destruct (decide _) in Hfree; try congruence). simpl in Hfree. lia. }
    destruct (probe_two entry_occupied fuel a b (home (ly_id sub) shift 2) 1
                Hfuel (home_two _ _) Hone) as (p & c & Hprobe & Hp).
    unfold bind at 1, lift at 1. rewrite Hprobe.
    pose proof (probe_free _ _ _ _ _ _ _ _ Hprobe) as (e0 & He0 & Hfree0).
    (* the update of ly_search *)
    assert (H1 : exists s1 L1,
               (if ly_search L <? c then update (Some r) (set_search c) else ret tt) s
               = Ok (tt, s1) /\
               heap s1 !! r = Some L1 /\ ly_entries L1 = [a; b] /\ fills r s s1).
    { destruct (ly_search L <? c).
      - exists (mkState (types s) (<[r := set_search c L]> (heap s)) (stray s) (alloc s) (exc s)),
               (set_search c L).
        split; [unfold update; rewrite HL; reflexivity|].
        split; [simpl; apply list_lookup_insert_eq; exact (lookup_lt_Some _ _ _ HL)|].
        split; [simpl; exact Hent|].
        apply (fills_write r s L (set_search c)); [exact HL | repeat split].
      - exists s, L. split; [reflexivity|]. split; [exact HL|].
        split; [exact Hent | apply fills_refl]. }
    destruct H1 as (s1 & L1 & Hupd & HL1 & Hent1 & F1).
    rewrite (bind_Ok _ _ _ _ _ Hupd).
    destruct (fills_lookup _ _ _ _ _ F1 Hsub) as (sub' & Hsub' & _).
    unfold bind at 1, deref at 1. rewrite Hsub'.
    set (e := mkEntry (Some key)
                (to_int32 (- base - to_int32 (offset + ly_extensionsize sub')))).
    assert (Hin : (Z.to_nat p < length (ly_entries L1))%nat).
    { rewrite Hent1. simpl. destruct Hp as [-> | ->]; simpl; lia. }
    assert (Hst : store_entry r p e s1
                  = Ok (tt, mkState (types s1)
                              (<[r := set_entries (<[Z.to_nat p := e]> (ly_entries L1)) L1]>
                                 (heap s1))
                              (stray s1) (alloc s1) (exc s1))).
    { unfold store_entry. rewrite HL1.
      destruct (decide (Z.to_nat p < length (ly_entries L1))%nat); [reflexivity | lia]. }
    rewrite (bind_Ok _ _ _ _ _ Hst).
    pose proof (fills_store_entry _ _ _ _ _ _ Hst) as F2.
    pose proof (fills_trans _ _ _ _ F1 F2) as F.
    eapply IH; [exact Hfuel | | | |].
    + simpl. apply list_lookup_insert_eq. exact (lookup_lt_Some _ _ _ HL1).
    + simpl. rewrite length_insert, Hent1. reflexivity.
    + simpl. rewrite Hent1. unfold free_slots in *. simpl in Hfree.
      unfold entry_occupied in Hfree0.
      destruct Hp as [-> | ->]; simpl in He0; injection He0 as <-; simpl;
        rewrite !filter_cons, filter_nil in *; simpl;
        repeat (destruct (decide _) in *; try congruence); simpl in *; try lia;
        destruct (le_type a), (le_type b); simpl in *; try congruence; try lia.
    + intros k v Hkv. destruct (Hv k v) as [Lv HLv]; [right; exact Hkv|].
      destruct (fills_lookup _ _ _ _ _ F HLv) as (L' & HL' & _). eauto.
Qed.

Lemma fill_hash_returns fuel r type layouts s L :
  (2 <= fuel)%nat ->
  heap s !! r = Some L -> ob_size L = 2 -> length (ly_entries L) = 2%nat ->
  (length layouts <= free_slots (ly_entries L))%nat ->
  (forall k v, (k, v) ∈ layouts -> is_Some (heap s !! v)) ->
  exists s', _layout_fill_hash fuel r type layouts s = Ok (tt, s').
Proof.
  intros Hfuel HL Hsize Hlen Hfree Hv. unfold _layout_fill_hash.
  unfold bind at 1, deref at 1. rewrite HL, Hsize.
  unfold bind at 1. unfold _layout_base at 1. cbv zeta.
  destruct (fill_hash_loop_returns layouts fuel r (ly_shift L)
              (to_int32
                 (if tp_managed_weakref (types s type)
                  then (if tp_have_gc (types s type)
                        then (if tp_managed_dict (types s type)
                              then 0 + sizeof_voidp else 0) + sizeof_voidp * 2
                        else if tp_managed_dict (types s type)
                             then 0 + sizeof_voidp else 0) + sizeof_voidp
                  else if tp_have_gc (types s type)
                       then (if tp_managed_dict (types s type)
                             then 0 + sizeof_voidp else 0) + sizeof_voidp * 2
                       else if tp_managed_dict (types s type)
                            then 0 + sizeof_voidp else 0))
              0 s L Hfuel HL Hlen Hfree Hv)
    as (res & s1 & Hl & [L1 HL1]).
  rewrite (bind_Ok _ _ _ _ _ Hl).
  unfold update. rewrite HL1. eexists. reflexivity.
Qed.

Lemma fast_hash_place_one fuel k v shift a b cost s L1 :
  (2 <= fuel)%nat -> heap s !! v = Some L1 ->
  buf_occupied a = false \/ buf_occupied b = false ->
  exists bc, fast_hash_place fuel [(k, v)] 2 shift [a; b] cost s = Ok (bc, s).
Proof.
  intros Hfuel HL1 Hfree. cbn [fast_hash_place].
  assert (Hd : deref (Some v) s = Ok (L1, s)) by (unfold deref; rewrite HL1; reflexivity).
  rewrite (bind_Ok _ _ _ _ _ Hd).
  destruct (probe_two buf_occupied fuel a b (home (ly_id L1) shift 2) 1
              Hfuel (home_two _ _) Hfree) as (p & c & Hprobe & _).
  assert (Hl : lift (probe buf_occupied fuel [a; b] 2 (home (ly_id L1) shift 2) 1) s
               = Ok ((p, c), s)) by (unfold lift; rewrite Hprobe; reflexivity).
  rewrite (bind_Ok _ _ _ _ _ Hl). eexists. reflexivity.
Qed.

Lemma fast_hash_pass_one fuel k v pos id shift s L1 :
  (2 <= fuel)%nat -> heap s !! v = Some L1 ->
  exists cost pos',
    fast_hash_pass fuel [(k, v)] pos 2 id shift s = Ok ((cost, pos'), s).
Proof.
  intros Hfuel HL1. unfold fast_hash_pass.
  change (replicate (Z.to_nat 2) 0) with [0; 0]. cbv zeta.
  destruct pos as [|pos].
  - rewrite drop_0.
    assert (Hbuf : exists a b, <[Z.to_nat (home id shift 2) := 1]> [0; 0] = [a; b] /\
                     (buf_occupied a = false \/ buf_occupied b = false)).
    { destruct (home_two id shift) as [-> | ->]; simpl; eauto. }
    destruct Hbuf as (a & b & -> & Hfree).
    destruct (fast_hash_place_one fuel k v shift a b 0 s L1 Hfuel HL1 Hfree)
      as [bc Hplace].
    rewrite (bind_Ok _ _ _ _ _ Hplace). eexists _, _. reflexivity.
  - assert (Hdrop : drop (S pos) [(k, v)] = []) by (simpl; apply drop_nil).
    rewrite Hdrop. cbn [fast_hash_place].
    unfold bind, ret. eexists _, _. reflexivity.
Qed.

Lemma fast_hash_loop_returns fuel shifts layouts hash_size id items s :
  (forall pos shift, exists cost pos',
     fast_hash_pass fuel layouts pos hash_size id shift s = Ok ((cost, pos'), s)) ->
  forall pos best best_cost,
  exists shift,
    fast_hash_loop fuel shifts layouts pos hash_size id items best best_cost s
    = Ok (shift, s).
Proof.
  intros Hpass. induction shifts as [|sh shifts IH]; intros pos best best_cost.
  - eexists. reflexivity.
  - rewrite fast_hash_loop_cons.
    destruct (Hpass pos sh) as (cost & pos' & Hp).
    rewrite (bind_Ok _ _ _ _ _ Hp).
    destruct (cost =? items); [eexists; reflexivity|].
    destruct (cost <? best_cost); apply IH.
Qed.

(** X13. A type with no base that has a layout, or with exactly one,
    always gets its answer: [_PyLayout_Create] returns when the allocations
    succeed, with no more than two iterations of any probing loop.  (With
    two such bases it never returns, see the lemma
    [create_two_bases_timeout].) *)
Theorem create_returns_with_one_base fuel type bases size id s d :
  created s ->
  dict_new_fails (alloc s) = false -> newvar_fails (alloc s) = false ->
  tp_cache (types s type) = None ->
  _layout_collect bases s = Ok (Some d, s) ->
  (length d <= 1)%nat -> (2 <= fuel)%nat ->
  exists res s', _PyLayout_Create fuel type bases size id s = Ok (res, s').
Proof.
  intros (Hord & Hcache & Hmode) Hdict Hnew Hnone Hcollect Hlen Hfuel.
  pose proof Hcollect as Hcol. apply collect_inv in Hcol as (_ & _ & _ & Hcol).
  assert (Hd : forall T l, (T, l) ∈ d ->
            tp_cache (types s T) = Some l /\ is_Some (heap s !! l)).
  { intros T l Hin. destruct (collect_loop_from _ _ _ _ _ _ _ Hcol Hin) as [Hx|[_ Hl]];
      [inversion Hx|]. split; [exact Hl | exact (Hcache _ _ Hl)]. }
  unfold _PyLayout_Create. rewrite (bind_Ok _ _ _ _ _ Hcollect).
  assert (Hsz : PyObject_Size (Some d) s = Ok (Z.of_nat (length d), s))
    by reflexivity.
  rewrite (bind_Ok _ _ _ _ _ Hsz).
  destruct (to_ssize_t (Z.of_nat (length d) + size) >? 0) eqn:Hpos;
    [|eexists _, _; reflexivity].
  simpl (1 =? 0). cbv iota zeta.
  set (layouts := if size >? 0 then PyDict_SetItem d type (length (heap s)) else d).
  assert (Hlayouts : forall L0, heap (with_new s L0) !! length (heap s) = Some L0 /\
            forall k v, (k, v) ∈ layouts -> is_Some (heap (with_new s L0) !! v)).
  { intros L0.
    assert (Hr : heap (with_new s L0) !! length (heap s) = Some L0).
    { unfold with_new. simpl. rewrite lookup_app_r by lia.
      rewrite Nat.sub_diag. reflexivity. }
    split; [exact Hr|]. intros k v Hin.
    assert (Hcase : v = length (heap s) \/ (k, v) ∈ d).
    { unfold layouts in Hin. destruct (size >? 0); [|auto].
      apply SetItem_elem in Hin as [[_ ->]|?]; auto. }
    destruct Hcase as [-> | Hin']; [eauto|].
    destruct (Hd _ _ Hin') as [_ [Lv HLv]]. exists Lv.
    unfold with_new. simpl. rewrite lookup_app_l by exact (lookup_lt_Some _ _ _ HLv).
    exact HLv. }
  assert (Hlay_len : (length layouts <= S (length d))%nat).
  { unfold layouts. destruct (size >? 0); [|lia].
    rewrite SetItem_fresh.
    - rewrite length_app. simpl. lia.
    - intros Hin. apply list_elem_of_fmap in Hin as ([T l] & E & Hin).
      simpl in E. subst T. destruct (Hd _ _ Hin) as [Hl _]. congruence. }
  assert (HNew : forall n, PyObject_NewVar n s
                 = Ok (Some (length (heap s)), with_new s (fresh_layout (alloc s) n))).
  { intros n. unfold PyObject_NewVar. rewrite Hnew. reflexivity. }
  assert (Hrest : forall L0 n (c : PyLayout -> M unit),
            (let Lf := set_size n
                         (set_entries (clear_entries (ob_size L0) (ly_entries L0))
                            (set_search 1 (set_allocsize 0
                               (set_extensionsize size (set_order 1
                                  (set_id (to_uint32 id) L0)))))) in
             exists s', c Lf (with_new s Lf) = Ok (tt, s')) ->
            exists res s',
              (update (Some (length (heap s))) (set_id (to_uint32 id));;
               update (Some (length (heap s))) (set_order 1);;
               update (Some (length (heap s))) (set_extensionsize size);;
               update (Some (length (heap s))) (set_allocsize 0);;
               update (Some (length (heap s))) (set_search 1);;
               _layout_clear (Some (length (heap s)));;
               PyObject_InitVar (Some (length (heap s))) n;;
               let* L := deref (Some (length (heap s))) in
               c L;; ret (Some (length (heap s)))) (with_new s L0) = Ok (res, s')).
  { intros L0 n c [s' Hc].
    do 5 rewrite (bind_Ok _ _ _ _ _ (update_new _ _ _)).
    rewrite (bind_Ok _ _ _ _ _ (clear_new _ _)).
    unfold PyObject_InitVar.
    rewrite (bind_Ok _ _ _ _ _ (update_new _ _ _)).
    rewrite (bind_Ok _ _ _ _ _ (deref_new _ _)).
    simpl (ob_size _) in Hc |- *.
    rewrite (bind_Ok _ _ _ _ _ Hc). eexists _, _. reflexivity. }
  destruct d as [|[k v] d'].
  - (* no base has a layout: the ordered branch *)
    assert (Hchk : _layout_check_ordered (Some []) s = Ok (true, s)) by reflexivity.
    rewrite (bind_Ok _ _ _ _ _ Hchk). cbv iota.
    assert (Hre : (let* result := PyObject_NewVar 1 in
                   update result (set_cast cast_ordered);;
                   update result (set_shift 0);; ret (result, 1)) s
                  = Ok ((Some (length (heap s)), 1),
                        with_new s (set_shift 0 (set_cast cast_ordered
                                                   (fresh_layout (alloc s) 1))))).
    { rewrite (bind_Ok _ _ _ _ _ (HNew 1)).
      do 2 rewrite (bind_Ok _ _ _ _ _ (update_new _ _ _)). reflexivity. }
    rewrite (bind_Ok _ _ _ _ _ Hre). cbv iota beta.
    apply Hrest. cbv zeta. simpl (ly_cast _).
    destruct (decide (cast_ordered = cast_ordered)); [|congruence].
    match goal with
    | |- context [with_new s ?L0] => destruct (Hlayouts L0) as [Hr Hv]
    end.
    apply fill_ordered_returns; [eexists; exact Hr | exact Hv].
  - (* one base has a layout: the hashed branch *)
    destruct d' as [|? d']; [|simpl in Hlen; lia].
    destruct (Hd k v (list_elem_of_here _ _)) as [_ [Lv HLv]].
    assert (Hchk : _layout_check_ordered (Some [(k, v)]) s = Ok (false, s)).
    { apply check_ordered_total; [discriminate|].
      intros T l Hin. destruct (Hd _ _ Hin) as [_ [L0 HL0]].
      exists L0. split; [exact HL0 | exact (Hord _ _ HL0)]. }
    rewrite (bind_Ok _ _ _ _ _ Hchk). cbv iota.
    change (to_uint32 (1 * 2)) with 2.
    assert (Hfh : exists shift,
              _layout_fast_hash fuel [(k, v)] 2 (to_uint32 id)
                (with_new s (set_cast cast_hash (fresh_layout (alloc s) 2)))
              = Ok (shift, with_new s (set_cast cast_hash (fresh_layout (alloc s) 2)))).
    { rewrite fast_hash_Some. apply fast_hash_loop_returns.
      intros pos sh. apply (fast_hash_pass_one fuel k v pos _ sh _ Lv Hfuel).
      unfold with_new. simpl. rewrite lookup_app_l by exact (lookup_lt_Some _ _ _ HLv).
      exact HLv. }
    destruct Hfh as [shift Hfh].
    assert (Hre : (let* result := PyObject_NewVar 2 in
                   update result (set_cast cast_hash);;
                   let* shift := _layout_fast_hash fuel [(k, v)] 2 (to_uint32 id) in
                   update result (set_shift (to_uint32 shift));; ret (result, 2)) s
                  = Ok ((Some (length (heap s)), 2),
                        with_new s (set_shift (to_uint32 shift)
                                      (set_cast cast_hash (fresh_layout (alloc s) 2))))).
    { rewrite (bind_Ok _ _ _ _ _ (HNew 2)).
      rewrite (bind_Ok _ _ _ _ _ (update_new _ _ _)).
      rewrite (bind_Ok _ _ _ _ _ Hfh).
      rewrite (bind_Ok _ _ _ _ _ (update_new _ _ _)). reflexivity. }
    rewrite (bind_Ok _ _ _ _ _ Hre). cbv iota beta.
    apply Hrest. cbv zeta. simpl (ly_cast _).
    destruct (decide (cast_hash = cast_ordered)); [congruence|].
    match goal with
    | |- context [with_new s ?L0] => destruct (Hlayouts L0) as [Hr Hv]
    end.
    eapply fill_hash_returns; [exact Hfuel | exact Hr | reflexivity | | | exact Hv].
    + reflexivity.
    + etransitivity; [exact Hlay_len|]. apply Nat.eq_le_incl. reflexivity.
Qed.

Lemma create_returns_with_one_base_witness :
  exists res s', _PyLayout_Create 2 tB [tA] 16 0 world_A = Ok (res, s').
Proof.
  apply (create_returns_with_one_base 2 tB [tA] 16 0 world_A [(tA, 0%nat)]).
  - exact created_world_A.
  - reflexivity.
  - reflexivity.
  - reflexivity.
  - vm_compute. reflexivity.
  - simpl. lia.
  - lia.
Defined.
